(** * MediCalcLite: the analytics core of [data_service.py] and the
    endpoints of [app.py], embedded in Rocq.

    Modelling conventions.
    - A pandas [DataFrame] is a list of column names and a list of rows; a
      row is a record with the index label and one field per column of the
      price table.  A missing cell of a text column is [None].
    - Prices are exact rationals ([Q]); binary rounding of floats is not
      modelled, the not-a-number value is ([nan]).
    - DataFrames are objects: they live in a heap and the program handles
      references to them, so that copying, rebinding and in-place column
      assignment are distinguished.
    - Exceptions are values of [exn]; an operation returns an [outcome]. *)

From Stdlib Require Import ZArith QArith Qround Lia Lqa String Ascii List.
From Stdlib Require Import Permutation Sorted.
From stdpp Require Import base option list sorting gmap strings.

Local Open Scope string_scope.
Local Open Scope Z_scope.

(** ** Python values *)

Inductive exn : Type :=
  | KeyError (key : string)
  | ValueError (msg : string)
  | IndexError (msg : string)
  | AttributeError (msg : string).

Inductive outcome (A : Type) : Type :=
  | Ok (a : A)
  | Raise (e : exn).
Arguments Ok {A} a.
Arguments Raise {A} e.

(** A float that may be not-a-number.  Numbers are exact rationals where
    the program computes in binary64: sums, means, deviations and bin
    edges come out unrounded.  The theorems on the results of the
    operations are stated so as not to depend on the rounding: none bounds
    a mean by the extremes or needs two bin edges to differ. *)
Inductive float : Type :=
  | nan
  | fin (q : Q).

(** Truthiness of an optional string argument ([if active_ingredient:]):
    [None] and the empty string are falsy. *)
Definition truthy_str (o : option string) : bool :=
  match o with
  | Some s => negb (String.eqb s EmptyString)
  | None => false
  end.

(** Truthiness of an optional integer argument ([if limit:]). *)
Definition truthy_int (o : option Z) : bool :=
  match o with
  | Some n => negb (Z.eqb n 0)
  | None => false
  end.

(** [str.lower()] on the ASCII letters. *)
Definition lower_ascii (c : ascii) : ascii :=
  let n := nat_of_ascii c in
  if ((65 <=? n)%nat && (n <=? 90)%nat)%bool then ascii_of_nat (n + 32) else c.

Fixpoint lower (s : string) : string :=
  match s with
  | EmptyString => EmptyString
  | String c s' => String (lower_ascii c) (lower s')
  end.

(** ** Rows and DataFrames *)

Record Row : Type := mkRow {
  name : Z;
  nombre_comercial : option string;
  principio_activo : option string;
  fabricante : option string;
  concentracion : option string;
  canal : option string;
  unidad_de_dispensacion : option string;
  precio_por_tableta : Q;
  cluster : option Z;
  anomaly : option Z
}.

Record DataFrame : Type := mkDF {
  columns : list string;
  rows : list Row
}.

(** The columns of a loaded price table; [pd.DataFrame()] has none. *)
Definition base_columns : list string :=
  ["nombre_comercial"; "principio_activo"; "fabricante"; "concentracion";
   "canal"; "unidad_de_dispensacion"; "precio_por_tableta"].

Definition empty_frame : DataFrame := mkDF [] [].

(** A cell, as seen by comparisons, sorting and grouping. *)
Inductive value : Type :=
  | VNaN
  | VStr (s : string)
  | VNum (q : Q).

Definition of_str (o : option string) : value :=
  match o with Some s => VStr s | None => VNaN end.

Definition of_int (o : option Z) : value :=
  match o with Some z => VNum (inject_Z z) | None => VNaN end.

(** [row[c]] for a column [c] of the frame. *)
Definition getitem (r : Row) (c : string) : value :=
  if String.eqb c "nombre_comercial" then of_str (nombre_comercial r)
  else if String.eqb c "principio_activo" then of_str (principio_activo r)
  else if String.eqb c "fabricante" then of_str (fabricante r)
  else if String.eqb c "concentracion" then of_str (concentracion r)
  else if String.eqb c "canal" then of_str (canal r)
  else if String.eqb c "unidad_de_dispensacion" then of_str (unidad_de_dispensacion r)
  else if String.eqb c "precio_por_tableta" then VNum (precio_por_tableta r)
  else if String.eqb c "cluster" then of_int (cluster r)
  else if String.eqb c "anomaly" then of_int (anomaly r)
  else VNaN.

Definition isna (v : value) : bool :=
  match v with VNaN => true | _ => false end.

(** [==] and [<=] on cells; any comparison with a missing cell is false. *)
Definition value_eqb (a b : value) : bool :=
  match a, b with
  | VStr s, VStr t => String.eqb s t
  | VNum p, VNum q => Qeq_bool p q
  | _, _ => false
  end.

Definition value_leb (a b : value) : bool :=
  match a, b with
  | VStr s, VStr t => String.leb s t
  | VNum p, VNum q => Qle_bool p q
  | _, _ => false
  end.

Definition has_column (d : DataFrame) (c : string) : bool :=
  bool_decide (c ∈ columns d).

(** [df[df[c] <op> v]]: a new frame with the rows whose cell satisfies the
    predicate; [KeyError] when the frame has no column [c]. *)
Definition getitem_mask (c : string) (p : value -> bool) (d : DataFrame)
  : outcome DataFrame :=
  if has_column d c
  then Ok (mkDF (columns d) (filter (fun r => p (getitem r c) = true) (rows d)))
  else Raise (KeyError c).

(** Stable insertion sort. *)
Fixpoint insert_by {A : Type} (le : A -> A -> bool) (x : A) (l : list A) : list A :=
  match l with
  | [] => [x]
  | y :: l' => if le x y then x :: l else y :: insert_by le x l'
  end.

Definition sort_with {A : Type} (le : A -> A -> bool) (l : list A) : list A :=
  foldr (insert_by le) [] l.

(** [df.sort_values(by=c, ascending=asc)]: rows whose key is missing go
    last in either direction.  pandas leaves the relative order of equal
    keys unspecified; the model keeps it. *)
Definition sort_values (c : string) (asc : bool) (d : DataFrame) : DataFrame :=
  let key r := getitem r c in
  let le r1 r2 :=
    if asc then value_leb (key r1) (key r2) else value_leb (key r2) (key r1) in
  mkDF (columns d)
       (sort_with le (filter (fun r => isna (key r) = false) (rows d))
        ++ filter (fun r => isna (key r) = true) (rows d)).

(** [l[:n]] and [df.head(n)]: a negative [n] drops the last [-n] items. *)
Definition slice_to {A : Type} (n : Z) (l : list A) : list A :=
  if 0 <=? n then take (Z.to_nat n) l
  else take (length l - Z.to_nat (- n))%nat l.

Definition head (n : Z) (d : DataFrame) : DataFrame :=
  mkDF (columns d) (slice_to n (rows d)).

(** ** The object heap *)

Definition loc := positive.
Abbreviation heap := (gmap loc DataFrame).

Definition M (A : Type) : Type := heap -> outcome A * heap.

#[export] Instance M_ret : MRet M := fun A a h => (Ok a, h).

#[export] Instance M_bind : MBind M := fun A B f m h =>
  match m h with
  | (Ok a, h') => f a h'
  | (Raise e, h') => (Raise e, h')
  end.

Definition raise {A : Type} (e : exn) : M A := fun h => (Raise e, h).

Definition lift {A : Type} (o : outcome A) : M A := fun h => (o, h).

(** Dereference; a dangling reference does not occur in Python and is
    reported as an [AttributeError]. *)
Definition load (l : loc) : M DataFrame := fun h =>
  match h !! l with
  | Some d => (Ok d, h)
  | None => (Raise (AttributeError "no such object"), h)
  end.

(** A new object at an address not in use. *)
Definition alloc (d : DataFrame) : M loc := fun h =>
  let l := fresh (dom h) in (Ok l, <[l := d]> h).

(** In-place update of an existing object. *)
Definition update (l : loc) (f : DataFrame -> DataFrame) : M unit := fun h =>
  match h !! l with
  | Some d => (Ok tt, <[l := f d]> h)
  | None => (Raise (AttributeError "no such object"), h)
  end.

(** A pandas operation that reads the frame at [l] and returns a new
    frame object. *)
Definition new_frame (f : DataFrame -> outcome DataFrame) (l : loc) : M loc :=
  d ← load l; d' ← lift (f d); alloc d'.

(** ** [DataService.filter_data] *)

Record criteria : Type := mkCriteria {
  active_ingredient : option string;
  manufacturer : option string;
  concentration : option string;
  channel : option string;
  dispensing_unit : option string;
  min_price : option Q;
  max_price : option Q;
  sort_by : string;
  sort_order : string;
  limit : option Z
}.

(** The defaults of the signature. *)
Definition defaults : criteria :=
  mkCriteria None None None None None None None "precio_por_tableta" "asc" (Some 50).

Definition str_arg (o : option string) : string := default EmptyString o.

Definition filter_data (self_df : loc) (a : criteria) : M loc :=
  filtered_df ← new_frame Ok self_df;
  filtered_df ←
    (if truthy_str (active_ingredient a)
     then new_frame (getitem_mask "principio_activo"
            (fun v => value_eqb v (VStr (str_arg (active_ingredient a))))) filtered_df
     else mret filtered_df);
  filtered_df ←
    (if truthy_str (manufacturer a)
     then new_frame (getitem_mask "fabricante"
            (fun v => value_eqb v (VStr (str_arg (manufacturer a))))) filtered_df
     else mret filtered_df);
  filtered_df ←
    (if truthy_str (concentration a)
     then new_frame (getitem_mask "concentracion"
            (fun v => value_eqb v (VStr (str_arg (concentration a))))) filtered_df
     else mret filtered_df);
  filtered_df ←
    (if truthy_str (channel a)
     then new_frame (getitem_mask "canal"
            (fun v => value_eqb v (VStr (str_arg (channel a))))) filtered_df
     else mret filtered_df);
  filtered_df ←
    (if truthy_str (dispensing_unit a)
     then new_frame (getitem_mask "unidad_de_dispensacion"
            (fun v => value_eqb v (VStr (str_arg (dispensing_unit a))))) filtered_df
     else mret filtered_df);
  filtered_df ←
    (match min_price a with
     | Some lo => new_frame (getitem_mask "precio_por_tableta"
                    (fun v => value_leb (VNum lo) v)) filtered_df
     | None => mret filtered_df
     end);
  filtered_df ←
    (match max_price a with
     | Some hi => new_frame (getitem_mask "precio_por_tableta"
                    (fun v => value_leb v (VNum hi))) filtered_df
     | None => mret filtered_df
     end);
  d ← load filtered_df;
  filtered_df ←
    (if has_column d (sort_by a)
     then new_frame (fun d => Ok (sort_values (sort_by a)
                      (String.eqb (lower (sort_order a)) "asc") d)) filtered_df
     else mret filtered_df);
  filtered_df ←
    (if truthy_int (limit a)
     then new_frame (fun d => Ok (head (default 0 (limit a)) d)) filtered_df
     else mret filtered_df);
  mret filtered_df.

(** ** The view computed by [filter_data], as a function of the dataset *)

#[export] Instance outcome_ret : MRet outcome := fun A a => Ok a.

#[export] Instance outcome_bind : MBind outcome := fun A B f o =>
  match o with
  | Ok a => f a
  | Raise e => Raise e
  end.

Definition filter_view (d : DataFrame) (a : criteria) : outcome DataFrame :=
  v ← Ok d;
  v ← (if truthy_str (active_ingredient a)
       then getitem_mask "principio_activo"
              (fun x => value_eqb x (VStr (str_arg (active_ingredient a)))) v
       else Ok v);
  v ← (if truthy_str (manufacturer a)
       then getitem_mask "fabricante"
              (fun x => value_eqb x (VStr (str_arg (manufacturer a)))) v
       else Ok v);
  v ← (if truthy_str (concentration a)
       then getitem_mask "concentracion"
              (fun x => value_eqb x (VStr (str_arg (concentration a)))) v
       else Ok v);
  v ← (if truthy_str (channel a)
       then getitem_mask "canal"
              (fun x => value_eqb x (VStr (str_arg (channel a)))) v
       else Ok v);
  v ← (if truthy_str (dispensing_unit a)
       then getitem_mask "unidad_de_dispensacion"
              (fun x => value_eqb x (VStr (str_arg (dispensing_unit a)))) v
       else Ok v);
  v ← (match min_price a with
       | Some lo => getitem_mask "precio_por_tableta" (fun x => value_leb (VNum lo) x) v
       | None => Ok v
       end);
  v ← (match max_price a with
       | Some hi => getitem_mask "precio_por_tableta" (fun x => value_leb x (VNum hi)) v
       | None => Ok v
       end);
  v ← (if has_column v (sort_by a)
       then Ok (sort_values (sort_by a) (String.eqb (lower (sort_order a)) "asc") v)
       else Ok v);
  v ← (if truthy_int (limit a) then Ok (head (default 0 (limit a)) v) else Ok v);
  Ok v.

(** ** Floats: arithmetic and comparison with not-a-number *)

Definition fadd (a b : float) : float :=
  match a, b with fin x, fin y => fin (x + y) | _, _ => nan end.

Definition fsub (a b : float) : float :=
  match a, b with fin x, fin y => fin (x - y) | _, _ => nan end.

Definition fmul (a b : float) : float :=
  match a, b with fin x, fin y => fin (x * y) | _, _ => nan end.

(** [a <= b]; false when either side is not-a-number. *)
Definition fle (a b : float) : bool :=
  match a, b with fin x, fin y => Qle_bool x y | _, _ => false end.

(** ** A pandas Series of prices *)

Definition Qsum (l : list Q) : Q := foldr Qplus 0%Q l.

Definition Qlen {A : Type} (l : list A) : Q := inject_Z (Z.of_nat (length l)).

Definition qmin (a b : Q) : Q := if Qle_bool a b then a else b.
Definition qmax (a b : Q) : Q := if Qle_bool a b then b else a.

Definition series_min (l : list Q) : float :=
  match l with [] => nan | x :: l' => fin (foldl qmin x l') end.

Definition series_max (l : list Q) : float :=
  match l with [] => nan | x :: l' => fin (foldl qmax x l') end.

Definition series_mean (l : list Q) : float :=
  match l with [] => nan | _ => fin (Qsum l / Qlen l)%Q end.

(** [Series.sort_values()] on prices. *)
Definition sort_prices (l : list Q) : list Q := sort_with Qle_bool l.

(** [Series.median()]: the middle value, or the mean of the two middle
    values. *)
Definition series_median (l : list Q) : float :=
  let s := sort_prices l in
  let n := length s in
  match n with
  | O => nan
  | _ => if Nat.even n
         then fin ((nth (n / 2 - 1) s 0 + nth (n / 2) s 0) / 2)%Q
         else fin (nth (n / 2) s 0%Q)
  end.

(** [Series.quantile(q)], linear interpolation between the two closest
    ranks. *)
Definition series_quantile (q : Q) (l : list Q) : float :=
  let s := sort_prices l in
  let n := length s in
  match n with
  | O => nan
  | _ => let pos := (q * inject_Z (Z.of_nat (n - 1)))%Q in
         let i := Z.to_nat (Qfloor pos) in
         let g := (pos - inject_Z (Qfloor pos))%Q in
         let lo := nth i s 0%Q in
         let hi := nth (Nat.min (i + 1) (n - 1)) s 0%Q in
         fin (lo + (hi - lo) * g)%Q
  end.

(** The price column; [KeyError] on a frame without it. *)
Definition prices (d : DataFrame) : outcome (list Q) :=
  if has_column d "precio_por_tableta"
  then Ok (map precio_por_tableta (rows d))
  else Raise (KeyError "precio_por_tableta").

(** ** [groupby] *)

(** First occurrences, in order. *)
Fixpoint nub (l : list value) : list value :=
  match l with
  | [] => []
  | x :: l' => x :: filter (fun y => value_eqb y x = false) (nub l')
  end.

(** The group keys: the distinct present values of the column, sorted. *)
Definition group_keys (c : string) (rs : list Row) : list value :=
  sort_with value_leb
    (nub (filter (fun v => isna v = false) (map (fun r => getitem r c) rs))).

(** [df.groupby(c)]: the groups in key order, each with its rows in frame
    order; rows whose key is missing belong to no group. *)
Definition groupby (c : string) (d : DataFrame) : outcome (list (value * list Row)) :=
  if has_column d c
  then Ok (map (fun k => (k, filter (fun r => value_eqb (getitem r c) k = true) (rows d)))
               (group_keys c (rows d)))
  else Raise (KeyError c).

Fixpoint traverse {A B : Type} (f : A -> outcome B) (l : list A) : outcome (list B) :=
  match l with
  | [] => Ok []
  | x :: l' => y ← f x; ys ← traverse f l'; Ok (y :: ys)
  end.

(** ** [numpy.histogram] with an integer number of bins

    Library model, after numpy's [histogram]: the number of bins is checked
    first; the range is that of the data, [(0, 1)] for no data, widened by
    one half on each side when it is a single point; the edges are
    [linspace (first, last, bins + 1)]; a value falls in the bin of its
    scaled position, the last bin being closed on the right.  The edges and
    the positions are exact: on a price that lies within rounding of an
    edge the bin of the model can be the neighbour of numpy's. *)

Definition outer_edges (a : list Q) : Q * Q :=
  let '(first_edge, last_edge) :=
    match a with
    | [] => (0, 1)%Q
    | x :: a' => (foldl qmin x a', foldl qmax x a')
    end in
  if Qeq_bool first_edge last_edge
  then (first_edge - (1 # 2), last_edge + (1 # 2))%Q
  else (first_edge, last_edge).

(** [linspace]: [num - 1] equal steps from [start], the last point set to
    [stop]. *)
Definition linspace (start stop : Q) (num : nat) : list Q :=
  let step := ((stop - start) / inject_Z (Z.of_nat (num - 1)))%Q in
  map (fun i => (start + inject_Z (Z.of_nat i) * step)%Q) (seq 0 (num - 1)) ++ [stop].

Definition bin_index (first_edge last_edge : Q) (bins : Z) (x : Q) : Z :=
  let i := Qfloor ((x - first_edge) / (last_edge - first_edge) * inject_Z bins)%Q in
  if i =? bins then i - 1 else i.

Definition np_histogram (a : list Q) (bins : Z) : outcome (list Z * list Q) :=
  if bins <? 1
  then Raise (ValueError "`bins` must be positive, when an integer")
  else
    let '(first_edge, last_edge) := outer_edges a in
    let bin_edges := linspace first_edge last_edge (Z.to_nat bins + 1) in
    let keep := filter (fun x => (Qle_bool first_edge x && Qle_bool x last_edge)%bool = true) a in
    let indices := map (bin_index first_edge last_edge bins) keep in
    let hist := map (fun i => Z.of_nat (length (filter (fun j => j = Z.of_nat i) indices)))
                    (seq 0 (Z.to_nat bins)) in
    Ok (hist, bin_edges).

(** ** Result structures *)

Record price_stats : Type := mkPriceStats {
  ps_min : float; ps_max : float; ps_mean : float; ps_median : float; ps_std : float
}.

Record group_stat : Type := mkGroupStat {
  gs_key : value; gs_count : Z; gs_min_price : float; gs_max_price : float;
  gs_avg_price : float
}.

Record summary : Type := mkSummary {
  count : Z;
  price_stats_of : price_stats;
  manufacturers : option (list group_stat);
  active_ingredients : option (list group_stat)
}.

(** One histogram bar; the text label ['bin'], a rendering of the two edges
    with two decimals, is left out. *)
Record bin : Type := mkBin {
  binStart : Q; binEnd : Q; bin_count : Z; normalizedCount : Q
}.

Record box : Type := mkBox {
  box_name : value; box_min : float; q1 : float; median : float; q3 : float;
  box_max : float; box_count : Z
}.

(** [get_boxplot_data] returns a list, or a dictionary with an ['error']
    entry. *)
Inductive boxplot_result : Type :=
  | Boxes (l : list box)
  | ErrorDict (message : string).

Record cluster_stat : Type := mkClusterStat {
  cluster_id : Z; cs_count : Z; cs_min_price : float; cs_max_price : float;
  cs_avg_price : float; center : Q
}.

Record sample_row : Type := mkSample {
  sr_id : Z; sr_nombre_comercial : option string; sr_principio_activo : option string;
  sr_fabricante : option string; sr_precio_por_tableta : Q; sr_cluster : Z
}.

Record clustering : Type := mkClustering {
  cluster_stats : list cluster_stat;
  data_sample : list sample_row
}.

Record anomaly_row : Type := mkAnomalyRow {
  ar_id : Z; ar_nombre_comercial : option string; ar_principio_activo : option string;
  ar_fabricante : option string; ar_precio_por_tableta : Q; is_anomaly : bool
}.

Record anomaly_stats : Type := mkAnomalyStats {
  normal_count : Z; anomaly_count : Z;
  normal_avg_price : float; anomaly_avg_price : float;
  price_threshold_upper : float; price_threshold_lower : float
}.

Record anomalies : Type := mkAnomalies {
  stats : anomaly_stats;
  anomaly_data : list anomaly_row
}.

(** ** Column assignment *)

Definition set_cell (c : string) (v : option Z) (r : Row) : Row :=
  if String.eqb c "cluster"
  then mkRow (name r) (nombre_comercial r) (principio_activo r) (fabricante r)
             (concentracion r) (canal r) (unidad_de_dispensacion r)
             (precio_por_tableta r) v (anomaly r)
  else if String.eqb c "anomaly"
  then mkRow (name r) (nombre_comercial r) (principio_activo r) (fabricante r)
             (concentracion r) (canal r) (unidad_de_dispensacion r)
             (precio_por_tableta r) (cluster r) v
  else r.

Definition with_column (c : string) (vals : list (option Z)) (d : DataFrame) : DataFrame :=
  mkDF (if has_column d c then columns d else columns d ++ [c])
       (zip_with (set_cell c) vals (rows d)).

(** [df[c] = vals]: the frame object at [l] is changed in place. *)
Definition setitem (l : loc) (c : string) (vals : list (option Z)) : M unit :=
  d ← load l;
  if (length vals =? length (rows d))%nat
  then update l (with_column c vals)
  else raise (ValueError "Length of values does not match length of index").

(** ** Answers of the endpoints *)

(** An endpoint answers with an error status and a message, or with a
    success body. *)
Inductive response (A : Type) : Type :=
  | Error (code : Z) (message : string)
  | Success (body : A).
Arguments Error {A} code message.
Arguments Success {A} body.

(** [DataFrame.empty]: no rows or no columns. *)
Definition df_empty (d : DataFrame) : bool :=
  match rows d, columns d with
  | [], _ => true
  | _, [] => true
  | _, _ => false
  end.

Definition no_data {A : Type} : response A := Error 500 "No data available".


(** ** scikit-learn

    The preprocessing and the parameter checks of the estimators are
    modelled after the library; the fitted models themselves (the centroid
    refinement of [KMeans] and the isolation trees of [IsolationForest],
    both seeded with 42) are parameters of the development, and so is the
    square root. *)

Record scaler : Type := mkScaler {
  mean_ : Q; scale_ : Q; X_scaled : list Q
}.

Record kmeans_fit : Type := mkKMeans {
  labels_ : list Z; cluster_centers_ : list Q
}.

(** [range(n)]. *)
Definition range (n : Z) : list Z := map Z.of_nat (seq 0 (Z.to_nat n)).

Definition sq_dev (l : list Q) : Q :=
  let m := (Qsum l / Qlen l)%Q in Qsum (map (fun x => (x - m) * (x - m))%Q l).

(** A concrete square root, to four decimals, rounded down. *)
Definition sqrt4 (q : Q) : Q :=
  (inject_Z (Z.sqrt (Qfloor (q * 100000000))) / 10000)%Q.

(** Concrete fitted models, used to run the operations: every sample in
    cluster 0 with all centres at the origin; every sample an inlier; the
    samples more than one deviation above the mean outliers. *)
Definition one_cluster (k : Z) (X : list Q) : kmeans_fit :=
  mkKMeans (map (fun _ => 0) X) (map (fun _ => 0%Q) (range k)).

Definition all_inliers (c : Q) (X : list Q) : list Z := map (fun _ => 1) X.

Definition flag_high (c : Q) (X : list Q) : list Z :=
  map (fun x => if Qle_bool 1 x then -1 else 1) X.

Section Analytics.

Variable sqrt : Q -> Q.

(** [lloyd k X]: labels and centres found by
    [KMeans(n_clusters=k, random_state=42)] on the samples [X]. *)
Variable lloyd : Z -> list Q -> kmeans_fit.

(** [isolation c X]: the predictions, [1] or [-1] per sample, of
    [IsolationForest(contamination=c, random_state=42)] on [X]. *)
Variable isolation : Q -> list Q -> list Z.

(** [Series.std()]: the sample standard deviation, not-a-number below two
    values. *)
Definition series_std (l : list Q) : float :=
  if (length l <? 2)%nat then nan
  else fin (sqrt (sq_dev l / (Qlen l - 1)))%Q.

(** [StandardScaler().fit_transform(X)]: at least one sample is required;
    a zero scale is replaced by one. *)
Definition StandardScaler_fit_transform (X : list Q) : outcome scaler :=
  match X with
  | [] => Raise (ValueError "Found array with 0 sample(s) while a minimum of 1 is required by StandardScaler.")
  | _ =>
      let m := (Qsum X / Qlen X)%Q in
      let s := sqrt (sq_dev X / Qlen X)%Q in
      let sc := if Qeq_bool s 0 then 1%Q else s in
      Ok (mkScaler m sc (map (fun x => (x - m) / sc)%Q X))
  end.

(** [KMeans(n_clusters=k, random_state=42).fit_predict(X)]: the parameter
    is checked against its range, then against the number of samples. *)
Definition KMeans_fit_predict (n_clusters : Z) (X : list Q) : outcome kmeans_fit :=
  if n_clusters <? 1
  then Raise (ValueError "The 'n_clusters' parameter of KMeans must be an int in the range [1, inf).")
  else if Z.of_nat (length X) <? n_clusters
  then Raise (ValueError "n_samples should be >= n_clusters.")
  else Ok (lloyd n_clusters X).

(** [IsolationForest(contamination=c, random_state=42).fit_predict(X)]:
    the contamination must lie in (0, 0.5]. *)
Definition IsolationForest_fit_predict (contamination : Q) (X : list Q) : outcome (list Z) :=
  if (negb (Qle_bool contamination 0) && Qle_bool contamination (1 # 2))%bool
  then Ok (isolation contamination X)
  else Raise (ValueError "The 'contamination' parameter of IsolationForest must be a float in the range (0.0, 0.5].").

(** ** [DataService.get_summary_stats] *)

Definition agg_prices (g : value * list Row) : group_stat :=
  let p := map precio_por_tableta (snd g) in
  mkGroupStat (fst g) (Z.of_nat (length p)) (series_min p) (series_max p) (series_mean p).

Definition summary_of (d : DataFrame) (active_ingredient manufacturer : option string)
  : outcome summary :=
  p ← prices d;
  let price_stats :=
    mkPriceStats (series_min p) (series_max p) (series_mean p) (series_median p)
                 (series_std p) in
  manufacturer_stats ←
    (if truthy_str active_ingredient
     then g ← groupby "fabricante" d; Ok (Some (map agg_prices g))
     else Ok None);
  ingredient_stats ←
    (if truthy_str manufacturer
     then g ← groupby "principio_activo" d; Ok (Some (map agg_prices g))
     else Ok None);
  Ok (mkSummary (Z.of_nat (length (rows d))) price_stats manufacturer_stats ingredient_stats).

Definition get_summary_stats (self_df : loc) (active_ingredient manufacturer : option string)
  : M summary :=
  filtered_df ← filter_data self_df
    (mkCriteria active_ingredient manufacturer None None None None None
                "precio_por_tableta" "asc" (Some 50));
  d ← load filtered_df;
  lift (summary_of d active_ingredient manufacturer).

(** ** [DataService.get_histogram_data] *)

Definition index {A : Type} (l : list A) (i : nat) : outcome A :=
  match l !! i with
  | Some x => Ok x
  | None => Raise (IndexError "index out of bounds")
  end.

Definition histogram_of (d : DataFrame) (bins : Z) : outcome (list bin) :=
  p ← prices d;
  hb ← np_histogram p bins;
  let hist := fst hb in
  let bin_edges := snd hb in
  traverse (fun i =>
      lo ← index bin_edges i;
      hi ← index bin_edges (i + 1);
      c ← index hist i;
      Ok (mkBin lo hi c
            (if (0 <? length (rows d))%nat then (inject_Z c / Qlen (rows d))%Q else 0%Q)))
    (seq 0 (length hist)).

Definition get_histogram_data (self_df : loc) (active_ingredient manufacturer : option string)
  (bins : Z) : M (list bin) :=
  filtered_df ← filter_data self_df
    (mkCriteria active_ingredient manufacturer None None None None None
                "precio_por_tableta" "asc" (Some 50));
  d ← load filtered_df;
  lift (histogram_of d bins).

(** ** [DataService.get_boxplot_data] *)

Definition box_of (d : DataFrame) (g : value * list Row) : outcome box :=
  p ← prices (mkDF (columns d) (snd g));
  let prices := sort_prices p in
  Ok (mkBox (fst g) (series_min prices) (series_quantile (1 # 4) prices)
            (series_median prices) (series_quantile (3 # 4) prices)
            (series_max prices) (Z.of_nat (length (snd g)))).

Definition boxplot_of (d : DataFrame) (group_by : string) (limit : Z)
  : outcome boxplot_result :=
  if has_column d group_by
  then
    groups ← groupby group_by d;
    boxplot_data ← traverse (box_of d)
      (filter (fun g => (length (snd g) <? 5)%nat = false) groups);
    let boxplot_data := sort_with (fun x y => fle (median y) (median x)) boxplot_data in
    Ok (Boxes (slice_to limit boxplot_data))
  else Ok (ErrorDict ("Column " ++ group_by ++ " not found")).

Definition get_boxplot_data (self_df : loc) (group_by : string)
  (active_ingredient : option string) (limit : Z) : M boxplot_result :=
  filtered_df ← filter_data self_df
    (mkCriteria active_ingredient None None None None None None
                "precio_por_tableta" "asc" (Some 50));
  d ← load filtered_df;
  lift (boxplot_of d group_by limit).

(** ** [DataService.get_clustering] *)

Definition cluster_stat_of (d : DataFrame) (km : kmeans_fit) (sc : scaler) (i : Z)
  : outcome cluster_stat :=
  cluster_df ← getitem_mask "cluster" (fun v => value_eqb v (VNum (inject_Z i))) d;
  p ← prices cluster_df;
  c ← index (cluster_centers_ km) (Z.to_nat i);
  Ok (mkClusterStat i (Z.of_nat (length (rows cluster_df)))
        (series_min p) (series_max p) (series_mean p)
        (c * scale_ sc + mean_ sc)%Q).

Definition int_of_cell (o : option Z) : outcome Z :=
  match o with
  | Some z => Ok z
  | None => Raise (ValueError "cannot convert float NaN to integer")
  end.

Definition sample_of (row : Row) : outcome sample_row :=
  c ← int_of_cell (cluster row);
  Ok (mkSample (name row) (nombre_comercial row) (principio_activo row)
        (fabricante row) (precio_por_tableta row) c).

Definition cluster_report (d : DataFrame) (km : kmeans_fit) (sc : scaler) (n_clusters : Z)
  : outcome clustering :=
  cluster_stats ← traverse (cluster_stat_of d km sc) (range n_clusters);
  data_sample ← traverse sample_of (rows (head 100 d));
  Ok (mkClustering cluster_stats data_sample).

Definition get_clustering (self_df : loc) (active_ingredient : option string)
  (n_clusters : Z) : M clustering :=
  filtered_df ← filter_data self_df
    (mkCriteria active_ingredient None None None None None None
                "precio_por_tableta" "asc" (Some 50));
  d ← load filtered_df;
  X ← lift (prices d);
  sc ← lift (StandardScaler_fit_transform X);
  kmeans ← lift (KMeans_fit_predict n_clusters (X_scaled sc));
  _ ← setitem filtered_df "cluster" (map Some (labels_ kmeans));
  d ← load filtered_df;
  lift (cluster_report d kmeans sc n_clusters).

(** ** [DataService.get_anomalies] *)

(** [.map({1: 0, -1: 1})]: a value that is not a key becomes missing. *)
Definition map_label (z : Z) : option Z :=
  if z =? 1 then Some 0 else if z =? -1 then Some 1 else None.

(** [bool(row['anomaly'])]: zero is false; anything else, a missing value
    included, is true. *)
Definition bool_of_cell (o : option Z) : bool :=
  match o with
  | Some z => negb (z =? 0)
  | None => true
  end.

Definition anomaly_row_of (row : Row) : anomaly_row :=
  mkAnomalyRow (name row) (nombre_comercial row) (principio_activo row)
    (fabricante row) (precio_por_tableta row) (bool_of_cell (anomaly row)).

Definition anomaly_report (d : DataFrame) : outcome anomalies :=
  flagged ← getitem_mask "anomaly" (fun v => value_eqb v (VNum 1)) d;
  let anomalies := sort_values "precio_por_tableta" false flagged in
  let anomaly_data := map anomaly_row_of (rows anomalies) in
  normal_df ← getitem_mask "anomaly" (fun v => value_eqb v (VNum 0)) d;
  normal_prices ← prices normal_df;
  anomaly_df ← getitem_mask "anomaly" (fun v => value_eqb v (VNum 1)) d;
  anomaly_prices ← prices anomaly_df;
  let stats :=
    mkAnomalyStats
      (Z.of_nat (length normal_prices))
      (Z.of_nat (length anomaly_prices))
      (if (0 <? length normal_prices)%nat then series_mean normal_prices else fin 0)
      (if (0 <? length anomaly_prices)%nat then series_mean anomaly_prices else fin 0)
      (if (0 <? length normal_prices)%nat
       then fadd (series_mean normal_prices) (fmul (fin 2) (series_std normal_prices))
       else fin 0)
      (if (0 <? length normal_prices)%nat
       then fsub (series_mean normal_prices) (fmul (fin 2) (series_std normal_prices))
       else fin 0) in
  Ok (mkAnomalies stats anomaly_data).

Definition get_anomalies (self_df : loc) (active_ingredient : option string)
  (contamination : Q) : M anomalies :=
  filtered_df ← filter_data self_df
    (mkCriteria active_ingredient None None None None None None
                "precio_por_tableta" "asc" (Some 50));
  d ← load filtered_df;
  X ← lift (prices d);
  sc ← lift (StandardScaler_fit_transform X);
  pred ← lift (IsolationForest_fit_predict contamination (X_scaled sc));
  _ ← setitem filtered_df "anomaly" (map Some pred);
  d ← load filtered_df;
  _ ← setitem filtered_df "anomaly" (map (fun r => anomaly r ≫= map_label) (rows d));
  d ← load filtered_df;
  lift (anomaly_report d).

(** ** The endpoints of [app.py]

    Each endpoint answers with an error status and a message, or with a
    success body; the endpoints are prefixed with [app_] to tell them from
    the service methods they call.  [data_service] is the reference to the
    frame held by the service. *)

Definition app_get_data (data_service : loc) (a : criteria) : M (response (list Row)) :=
  df ← load data_service;
  if df_empty df then mret no_data
  else
    filtered_df ← filter_data data_service a;
    v ← load filtered_df;
    mret (Success (rows v)).

Definition app_get_summary (data_service : loc) (active_ingredient manufacturer : option string)
  : M (response summary) :=
  df ← load data_service;
  if df_empty df then mret no_data
  else
    stats ← get_summary_stats data_service active_ingredient manufacturer;
    mret (Success stats).

Definition app_get_histogram (data_service : loc)
  (active_ingredient manufacturer : option string) (bins : Z) : M (response (list bin)) :=
  df ← load data_service;
  if df_empty df then mret no_data
  else
    histogram_data ← get_histogram_data data_service active_ingredient manufacturer bins;
    mret (Success histogram_data).

Definition app_get_boxplot (data_service : loc) (group_by : string)
  (active_ingredient : option string) (limit : Z) : M (response (list box)) :=
  df ← load data_service;
  if df_empty df then mret no_data
  else
    boxplot_data ← get_boxplot_data data_service group_by active_ingredient limit;
    match boxplot_data with
    | ErrorDict message => mret (Error 400 message)
    | Boxes l => mret (Success l)
    end.

Definition app_get_clusters (data_service : loc) (active_ingredient : option string)
  (n_clusters : Z) : M (response clustering) :=
  df ← load data_service;
  if df_empty df then mret no_data
  else
    clustering_results ← get_clustering data_service active_ingredient n_clusters;
    mret (Success clustering_results).

Definition app_get_anomalies (data_service : loc) (active_ingredient : option string)
  (contamination : Q) : M (response anomalies) :=
  df ← load data_service;
  if df_empty df then mret no_data
  else
    anomaly_results ← get_anomalies data_service active_ingredient contamination;
    mret (Success anomaly_results).

(** ** Running heap computations *)

(** [l] is an object created since the entry heap [h0], holding [v]. *)
Definition cur (h0 h : heap) (l : loc) (v : DataFrame) : Prop :=
  h0 ⊆ h /\ h0 !! l = None /\ h !! l = Some v.

(** From [h], [m] ends in a heap that extends the entry heap [h0], either
    with a reference to a new object holding the frame that [o] describes,
    or with the exception that [o] describes. *)
Definition runs_to (h0 : heap) (m : M loc) (h : heap) (o : outcome DataFrame) : Prop :=
  exists h', h0 ⊆ h' /\
    match o with
    | Ok v => exists l, m h = (Ok l, h') /\ h0 !! l = None /\ h' !! l = Some v
    | Raise e => m h = (Raise e, h')
    end.

(** [m] leaves every object of the entry heap as it was. *)
Definition preserves {A : Type} (h0 : heap) (m : M A) (h : heap) : Prop :=
  forall r h', m h = (r, h') -> h0 ⊆ h'.

(** The result of a computation whose final heap is of no interest. *)
Definition result_of {A : Type} (m : M A) (h : heap) : outcome A := fst (m h).

(** ** Predicates on views *)

(** An equality criterion that is in force (a non-empty string) is met by
    the row. *)
Definition field_matches (arg : option string) (field : Row -> option string) (r : Row)
  : Prop :=
  truthy_str arg = true -> field r = arg.

(** An equality criterion that was supplied at all is met by the row. *)
Definition supplied_matches (arg : option string) (field : Row -> option string) (r : Row)
  : Prop :=
  forall s, arg = Some s -> field r = Some s.

Definition in_price_range (a : criteria) (r : Row) : Prop :=
  (forall lo, min_price a = Some lo -> (lo <= precio_por_tableta r)%Q) /\
  (forall hi, max_price a = Some hi -> (precio_por_tableta r <= hi)%Q).

Definition satisfies (a : criteria) (r : Row) : Prop :=
  field_matches (active_ingredient a) principio_activo r /\
  field_matches (manufacturer a) fabricante r /\
  field_matches (concentration a) concentracion r /\
  field_matches (channel a) canal r /\
  field_matches (dispensing_unit a) unidad_de_dispensacion r /\
  in_price_range a r.

Definition satisfies_supplied (a : criteria) (r : Row) : Prop :=
  supplied_matches (active_ingredient a) principio_activo r /\
  supplied_matches (manufacturer a) fabricante r /\
  supplied_matches (concentration a) concentracion r /\
  supplied_matches (channel a) canal r /\
  supplied_matches (dispensing_unit a) unidad_de_dispensacion r /\
  in_price_range a r.

(** [u'] has the columns of [u] and some of its rows. *)
Definition narrows (u u' : DataFrame) : Prop :=
  columns u' = columns u /\
  (forall r, r ∈ rows u' -> r ∈ rows u) /\
  (length (rows u') <= length (rows u))%nat.

(** A frame with the columns of a loaded price table. *)
Definition loaded (d : DataFrame) : Prop := columns d = base_columns.

(** ** Sample data *)

Definition row1 : Row :=
  mkRow 0 (Some "DOLEX 500 MG") (Some "ACETAMINOFEN") (Some "GSK") (Some "500 mg")
        (Some "Comercial") (Some "Tableta") 10 None None.

Definition row2 : Row :=
  mkRow 1 (Some "ADVIL 200 MG") (Some "IBUPROFENO") (Some "PFIZER") (Some "200 mg")
        (Some "Comercial") (Some "Tableta") 20 None None.

Definition row3 : Row :=
  mkRow 2 (Some "WINADOL 500 MG") (Some "ACETAMINOFEN") (Some "GSK") (Some "500 mg")
        (Some "Institucional") (Some "Tableta") 30 None None.

Definition one_row : DataFrame := mkDF base_columns [row1].

Definition three_rows : DataFrame := mkDF base_columns [row1; row2; row3].

(** A service whose frame is the object at address 1. *)
Definition service_at (d : DataFrame) : heap := {[ 1%positive := d ]}.

(** Criteria with an empty ingredient string and a limit of zero. *)
Definition empty_and_zero : criteria :=
  mkCriteria (Some EmptyString) None None None None None None
             "precio_por_tableta" "asc" (Some 0).

(** Criteria with an ingredient, a price range and a limit. *)
Definition cheap_acetaminofen : criteria :=
  mkCriteria (Some "ACETAMINOFEN") None None None None (Some 5%Q) (Some 25%Q)
             "precio_por_tableta" "desc" (Some 10).

Definition gsk_row (i : Z) (price : Q) : Row :=
  mkRow i (Some "DOLEX") (Some "ACETAMINOFEN") (Some "GSK") (Some "500 mg")
        (Some "Comercial") (Some "Tableta") price None None.

(** Five rows of one manufacturer and one row of another. *)
Definition six_rows : DataFrame :=
  mkDF base_columns
       [gsk_row 0 10; gsk_row 1 20; row2; gsk_row 3 30; gsk_row 4 40; gsk_row 5 100].

(** A frame with the columns of the price table and no rows: what
    [load_data] returns for a file in which no row has a numeric price. *)
Definition no_rows : DataFrame := mkDF base_columns [].

(** ** The operations as functions of the view *)

(** [df[c] = vals] on a frame value. *)
Definition assign (c : string) (vals : list (option Z)) (d : DataFrame) : outcome DataFrame :=
  if (length vals =? length (rows d))%nat
  then Ok (with_column c vals d)
  else Raise (ValueError "Length of values does not match length of index").

(** The body of [get_clustering] after the filter. *)
Definition clustering_of (n_clusters : Z) (v : DataFrame) : outcome clustering :=
  X ← prices v;
  sc ← StandardScaler_fit_transform X;
  kmeans ← KMeans_fit_predict n_clusters (X_scaled sc);
  v' ← assign "cluster" (map Some (labels_ kmeans)) v;
  cluster_report v' kmeans sc n_clusters.

(** The frame of [get_anomalies] after both assignments of the
    ['anomaly'] column. *)
Definition labelled (contamination : Q) (v : DataFrame) : outcome DataFrame :=
  X ← prices v;
  sc ← StandardScaler_fit_transform X;
  pred ← IsolationForest_fit_predict contamination (X_scaled sc);
  v1 ← assign "anomaly" (map Some pred) v;
  assign "anomaly" (map (fun r => anomaly r ≫= map_label) (rows v1)) v1.

(** The body of [get_anomalies] after the filter. *)
Definition anomalies_of (contamination : Q) (v : DataFrame) : outcome anomalies :=
  v2 ← labelled contamination v;
  anomaly_report v2.

(** The criteria that the analytics methods pass to [filter_data]. *)
Definition by_ingredient (active_ingredient manufacturer : option string) : criteria :=
  mkCriteria active_ingredient manufacturer None None None None None
             "precio_por_tableta" "asc" (Some 50).

Definition Zsum (l : list Z) : Z := foldr Z.add 0 l.

(** The box computed for a group of a frame that has the price column. *)
Definition box_for (g : value * list Row) : box :=
  let prices := sort_prices (map precio_por_tableta (snd g)) in
  mkBox (fst g) (series_min prices) (series_quantile (1 # 4) prices)
        (series_median prices) (series_quantile (3 # 4) prices)
        (series_max prices) (Z.of_nat (length (snd g))).

(** [b'] does not come before [b] when its median is the greater. *)
Definition median_ge (b b' : box) : Prop := fle (median b') (median b) = true.

(** The error that stops [get_clustering] before the centroid refinement:
    that of the scaler on a view without rows, else that of the range check
    on the number of clusters, else that of the check against the number of
    samples. *)
Definition clustering_error (n_clusters : Z) (v : DataFrame) : exn :=
  match rows v with
  | [] => ValueError "Found array with 0 sample(s) while a minimum of 1 is required by StandardScaler."
  | _ =>
      if n_clusters <? 1
      then ValueError "The 'n_clusters' parameter of KMeans must be an int in the range [1, inf)."
      else ValueError "n_samples should be >= n_clusters."
  end.

(** The prices of the rows of [v] whose prediction is [z]. *)
Definition prices_predicted (z : Z) (pred : list Z) (v : DataFrame) : list Q :=
  map (fun zr => precio_por_tableta (snd zr))
      (filter (fun zr : Z * Row => fst zr = z) (zip pred (rows v))).

(** The row after both assignments of the ['anomaly'] column. *)
Definition relabel (z : Z) (r : Row) : Row := set_cell "anomaly" (map_label z) r.

(** ** The view in closed form *)

(** An equality criterion, when in force, is met by the cell. *)
Definition eq_ok (arg cell : option string) : bool :=
  if truthy_str arg then bool_decide (cell = arg) else true.

(** The row passes every criterion in force. *)
Definition keeps (a : criteria) (r : Row) : bool :=
  eq_ok (active_ingredient a) (principio_activo r)
  && eq_ok (manufacturer a) (fabricante r)
  && eq_ok (concentration a) (concentracion r)
  && eq_ok (channel a) (canal r)
  && eq_ok (dispensing_unit a) (unidad_de_dispensacion r)
  && match min_price a with
     | Some lo => Qle_bool lo (precio_por_tableta r)
     | None => true
     end
  && match max_price a with
     | Some hi => Qle_bool (precio_por_tableta r) hi
     | None => true
     end.

(** The rows of the dataset that pass, in dataset order. *)
Definition matching (a : criteria) (d : DataFrame) : list Row :=
  filter (fun r => keeps a r = true) (rows d).

(** The sort step on the rows of a frame with columns [cols]. *)
Definition ordered (a : criteria) (cols : list string) (l : list Row) : list Row :=
  if bool_decide (sort_by a ∈ cols)
  then rows (sort_values (sort_by a) (String.eqb (lower (sort_order a)) "asc") (mkDF cols l))
  else l.

(** The limit step. *)
Definition limited (a : criteria) (l : list Row) : list Row :=
  if truthy_int (limit a) then slice_to (default 0 (limit a)) l else l.

(** The column of the first criterion in force, if there is one. *)
Definition first_criterion (a : criteria) : option string :=
  if truthy_str (active_ingredient a) then Some "principio_activo"
  else if truthy_str (manufacturer a) then Some "fabricante"
  else if truthy_str (concentration a) then Some "concentracion"
  else if truthy_str (channel a) then Some "canal"
  else if truthy_str (dispensing_unit a) then Some "unidad_de_dispensacion"
  else match min_price a, max_price a with
       | None, None => None
       | _, _ => Some "precio_por_tableta"
       end.

(** The rows of the view of a loaded dataset. *)
Definition view_rows (a : criteria) (d : DataFrame) : list Row :=
  limited a (ordered a (columns d) (matching a d)).

(** The groups of [groupby] on rows. *)
Definition groups_of (c : string) (l : list Row) : list (value * list Row) :=
  map (fun k => (k, filter (fun r => value_eqb (getitem r c) k = true) l))
      (group_keys c l).

(** The summary of a view with the columns of the price table. *)
Definition summary_on (l : list Row) (active_ingredient manufacturer : option string)
  : summary :=
  let p := map precio_por_tableta l in
  mkSummary (Z.of_nat (length l))
    (mkPriceStats (series_min p) (series_max p) (series_mean p) (series_median p)
                  (series_std p))
    (if truthy_str active_ingredient
     then Some (map agg_prices (groups_of "fabricante" l)) else None)
    (if truthy_str manufacturer
     then Some (map agg_prices (groups_of "principio_activo" l)) else None).

(** Cells of a text column: a string or missing. *)
Definition textual (v : value) : Prop := v = VNaN \/ exists s, v = VStr s.

(** What a breakdown by a text column says of the rows [l]: one entry per
    value of the column, for the rows with that value, their number and
    their least, mean and greatest price, of which the least is at most
    the greatest; the numbers add up to the rows that have a value at
    all. *)
Definition breakdown_of (field : Row -> option string) (l : list Row)
  (gs : list group_stat) : Prop :=
  NoDup (map gs_key gs) /\
  (forall g, g ∈ gs ->
     exists name lo avg hi,
       gs_key g = VStr name /\
       gs_count g = Z.of_nat (length (filter (fun r => field r = Some name) l)) /\
       1 <= gs_count g /\
       gs_min_price g = fin lo /\ gs_avg_price g = fin avg /\ gs_max_price g = fin hi /\
       (lo <= hi)%Q) /\
  (forall r name, r ∈ l -> field r = Some name ->
     exists g, g ∈ gs /\ gs_key g = VStr name) /\
  Zsum (map gs_count gs) = Z.of_nat (length (filter (fun r => is_Some (field r)) l)).

(** ** Bars in closed form *)


(** The [i]-th bar of [bins] bars over [lo, hi] for the rows [l]. *)
Definition bar (lo hi : Q) (bins : Z) (l : list Row) (i : nat) : bin :=
  let edges := linspace lo hi (Z.to_nat bins + 1) in
  let c := Z.of_nat (length (filter
             (fun x => bin_index lo hi bins x = Z.of_nat i)
             (map precio_por_tableta l))) in
  mkBin (nth i edges 0%Q) (nth (i + 1) edges 0%Q) c
        (if (0 <? length l)%nat then (inject_Z c / Qlen l)%Q else 0%Q).

(** ** Clusters in closed form *)

(** The statistics of cluster [i] on rows that carry their labels. *)
Definition cluster_stat_for (l : list Row) (km : kmeans_fit) (sc : scaler) (i : Z)
  : cluster_stat :=
  let grp := filter (fun r => value_eqb (getitem r "cluster") (VNum (inject_Z i)) = true) l in
  let p := map precio_por_tableta grp in
  mkClusterStat i (Z.of_nat (length grp)) (series_min p) (series_max p) (series_mean p)
    (nth (Z.to_nat i) (cluster_centers_ km) 0 * scale_ sc + mean_ sc)%Q.

(** The sample entry of a row with label [z]. *)
Definition sample_with (z : Z) (row : Row) : sample_row :=
  mkSample (name row) (nombre_comercial row) (principio_activo row) (fabricante row)
           (precio_por_tableta row) z.

(** ** [get_metadata] of [app.py] *)

Record price_range : Type := mkPriceRange {
  pr_min : float; pr_max : float; pr_avg : float
}.

Record metadata : Type := mkMetadata {
  total_records : Z;
  md_active_ingredients : list value;
  md_manufacturers : list value;
  md_concentrations : list value;
  md_channels : list value;
  md_dispensing_units : list value;
  md_price_range : price_range;
  md_columns : list string
}.

(** [df[c]]: the cells of a column; [KeyError] on a frame without it. *)
Definition series (c : string) (d : DataFrame) : outcome (list value) :=
  if has_column d c
  then Ok (map (fun r => getitem r c) (rows d))
  else Raise (KeyError c).

(** [.dropna().unique().tolist()]: the present values, each once, in the
    order of their first occurrence. *)
Definition dropna_unique (s : list value) : list value :=
  nub (filter (fun v => isna v = false) s).

Definition metadata_of (df : DataFrame) : outcome metadata :=
  active_ingredients ← series "principio_activo" df;
  manufacturers ← series "fabricante" df;
  concentrations ← series "concentracion" df;
  channels ← series "canal" df;
  dispensing_units ← series "unidad_de_dispensacion" df;
  p ← prices df;
  Ok (mkMetadata (Z.of_nat (length (rows df)))
        (dropna_unique active_ingredients) (dropna_unique manufacturers)
        (dropna_unique concentrations) (dropna_unique channels)
        (dropna_unique dispensing_units)
        (mkPriceRange (series_min p) (series_max p) (series_mean p))
        (columns df)).

Definition app_get_metadata (data_service : loc) : M (response metadata) :=
  df ← load data_service;
  if df_empty df then mret no_data
  else
    m ← lift (metadata_of df);
    mret (Success m).

(** What the metadata lists for a text column: each value that a row has,
    once. *)
Definition lists_values (field : Row -> option string) (l : list Row) (vals : list value)
  : Prop :=
  NoDup vals /\
  forall v, v ∈ vals <-> exists s r, v = VStr s /\ r ∈ l /\ field r = Some s.

(** ** [get_summary] of [api/server.py]

    The server module filters its frame itself, by ingredient and by
    manufacturer, and computes the statistics as [get_summary_stats]
    does. *)

Definition server_get_summary (df : loc) (active_ingredient manufacturer : option string)
  : M (response summary) :=
  d ← load df;
  if df_empty d then mret no_data
  else
    filtered_df ← new_frame Ok df;
    filtered_df ←
      (if truthy_str active_ingredient
       then new_frame (getitem_mask "principio_activo"
              (fun v => value_eqb v (VStr (str_arg active_ingredient)))) filtered_df
       else mret filtered_df);
    filtered_df ←
      (if truthy_str manufacturer
       then new_frame (getitem_mask "fabricante"
              (fun v => value_eqb v (VStr (str_arg manufacturer)))) filtered_df
       else mret filtered_df);
    d ← load filtered_df;
    stats ← lift (summary_of d active_ingredient manufacturer);
    mret (Success stats).

(** ** [download_data] of [dash_app.py] *)

(** The entry 'all' of a dropdown stands for no selection. *)
Definition selection (o : option string) : option string :=
  match o with
  | Some s => if String.eqb s "all" then None else Some s
  | None => None
  end.

(** The frame that [download_data] hands over for the CSV file;
    [price_range] is the value of the range slider. *)
Definition download_data (data_service : loc)
  (active_ingredient manufacturer concentration channel : option string)
  (price_range : list Q) : M loc :=
  let active_ingredient := selection active_ingredient in
  let manufacturer := selection manufacturer in
  let concentration := selection concentration in
  let channel := selection channel in
  lo ← lift (index price_range 0);
  hi ← lift (index price_range 1);
  filter_data data_service
    (mkCriteria active_ingredient manufacturer concentration channel None
                (Some lo) (Some hi) "precio_por_tableta" "asc" (Some 50)).

(** The criteria that [download_data] passes to the filter. *)
Definition download_criteria (active_ingredient manufacturer concentration channel
  : option string) (lo hi : Q) : criteria :=
  mkCriteria (selection active_ingredient) (selection manufacturer)
             (selection concentration) (selection channel) None
             (Some lo) (Some hi) "precio_por_tableta" "asc" (Some 50).

(** ** More sample criteria *)

(** An ingredient and no limit. *)
Definition acetaminofen_unlimited : criteria :=
  mkCriteria (Some "ACETAMINOFEN") None None None None None None
             "precio_por_tableta" "asc" None.

(** A sort key that is no column, and a limit of two. *)
Definition by_unknown_key : criteria :=
  mkCriteria None None None None None None None "precio" "asc" (Some 2).

(** * Lemmas *)

Lemma fresh_not_in (h : heap) : h !! fresh (dom h) = None.
Proof. apply not_elem_of_dom, is_fresh. Qed.

Lemma runs_ret h0 h l v : cur h0 h l v -> runs_to h0 (mret l) h (Ok v).
Proof. intros (Hs & Hn & Hl). exists h. split; [done|]. by exists l. Qed.

Lemma runs_new_frame h0 f h l v : cur h0 h l v -> runs_to h0 (new_frame f l) h (f v).
Proof.
  intros (Hs & Hn & Hl). unfold runs_to, new_frame, mbind, M_bind, load, lift, alloc.
  rewrite Hl. destruct (f v) as [v'|e].
  - exists (<[fresh (dom h) := v']> h). split.
    + etrans; [exact Hs|]. apply insert_subseteq, fresh_not_in.
    + exists (fresh (dom h)). split; [done|]. split.
      * eapply lookup_weaken_None; [apply fresh_not_in | exact Hs].
      * apply lookup_insert_eq.
  - by exists h.
Qed.

Lemma runs_bind h0 m k h o g :
  runs_to h0 m h o ->
  (forall l h' v, cur h0 h' l v -> runs_to h0 (k l) h' (g v)) ->
  runs_to h0 (m ≫= k) h (o ≫= g).
Proof.
  intros (h' & Hs & Hm) Hk. destruct o as [v|e]; simpl.
  - destruct Hm as (l & Hm & Hn & Hl).
    destruct (Hk l h' v) as (h'' & Hs' & Hk'); [done|].
    exists h''. split; [done|].
    assert (Hrun : (m ≫= k) h = k l h') by (unfold mbind, M_bind; by rewrite Hm).
    rewrite Hrun. exact Hk'.
  - exists h'. split; [done|]. unfold mbind, M_bind. by rewrite Hm.
Qed.

Lemma runs_load h0 (k : DataFrame -> M loc) h l v o :
  cur h0 h l v -> runs_to h0 (k v) h o -> runs_to h0 (load l ≫= k) h o.
Proof.
  intros (Hs & Hn & Hl) (h' & Hs' & Hk). exists h'. split; [done|].
  unfold mbind, M_bind, load. by rewrite Hl.
Qed.

Lemma runs_if h0 (b : bool) f h l v :
  cur h0 h l v ->
  runs_to h0 (if b then new_frame f l else mret l) h (if b then f v else Ok v).
Proof. intros Hc. destruct b; [by apply runs_new_frame | by apply runs_ret]. Qed.

(** [filter_data] computes [filter_view] of the dataset into a new object
    and leaves every object of the entry heap as it was. *)
Lemma filter_data_runs (h : heap) (self_df : loc) (d : DataFrame) (a : criteria) :
  h !! self_df = Some d ->
  runs_to h (filter_data self_df a) h (filter_view d a).
Proof.
  intros Hd. unfold filter_data, filter_view.
  assert (Hcopy : runs_to h (new_frame Ok self_df) h (Ok d)).
  { unfold runs_to, new_frame, mbind, M_bind, load, lift, alloc. rewrite Hd.
    exists (<[fresh (dom h) := d]> h). split.
    - apply insert_subseteq, fresh_not_in.
    - exists (fresh (dom h)). split; [done|]. split; [apply fresh_not_in|].
      apply lookup_insert_eq. }
  apply runs_bind; [exact Hcopy|]. clear Hcopy. intros l1 h1 v1 H1.
  apply runs_bind; [by apply runs_if|]. clear dependent l1. intros l2 h2 v2 H2.
  apply runs_bind; [by apply runs_if|]. clear dependent l2. intros l3 h3 v3 H3.
  apply runs_bind; [by apply runs_if|]. clear dependent l3. intros l4 h4 v4 H4.
  apply runs_bind; [by apply runs_if|]. clear dependent l4. intros l5 h5 v5 H5.
  apply runs_bind; [by apply runs_if|]. clear dependent l5. intros l5 h5' v5' H5'.
  apply runs_bind.
  { destruct (min_price a); [|by apply runs_ret].
    by apply (runs_new_frame h (getitem_mask _ _)). }
  clear dependent l5. intros l6 h6 v6 H6.
  apply runs_bind.
  { destruct (max_price a); [|by apply runs_ret].
    by apply (runs_new_frame h (getitem_mask _ _)). }
  clear dependent l6. intros l7 h7 v7 H7.
  eapply runs_load; [exact H7|].
  apply runs_bind.
  { destruct (has_column v7 (sort_by a)); [|by apply runs_ret].
    by apply (runs_new_frame h (fun d => Ok (sort_values _ _ d))). }
  clear dependent l7. intros l8 h8 v8 H8.
  apply runs_bind.
  { destruct (truthy_int (limit a)); [|by apply runs_ret].
    by apply (runs_new_frame h (fun d => Ok (head _ d))). }
  intros l9 h9 v9 H9. by apply runs_ret.
Qed.

(** ** Properties of the view *)

Lemma outcome_bind_Ok {A B : Type} (o : outcome A) (g : A -> outcome B) (b : B) :
  o ≫= g = Ok b -> exists a, o = Ok a /\ g a = Ok b.
Proof. destruct o as [a|e]; simpl; [eauto | discriminate]. Qed.

Lemma getitem_mask_Ok c p d v :
  getitem_mask c p d = Ok v ->
  columns v = columns d /\
  has_column d c = true /\
  rows v = filter (fun r => p (getitem r c) = true) (rows d).
Proof.
  unfold getitem_mask. destruct (has_column d c); [|discriminate].
  intros [= <-]. done.
Qed.

Lemma getitem_mask_elem c p d v r :
  getitem_mask c p d = Ok v -> r ∈ rows v -> r ∈ rows d /\ p (getitem r c) = true.
Proof.
  intros (_ & _ & Hr)%getitem_mask_Ok. rewrite Hr, list_elem_of_filter. tauto.
Qed.

Lemma insert_by_perm {A : Type} (le : A -> A -> bool) x l :
  insert_by le x l ≡ₚ x :: l.
Proof.
  induction l as [|y l IH]; simpl; [done|].
  destruct (le x y); [done|]. rewrite IH. apply Permutation_swap.
Qed.

Lemma sort_with_perm {A : Type} (le : A -> A -> bool) l : sort_with le l ≡ₚ l.
Proof.
  induction l as [|x l IH]; simpl; [done|].
  unfold sort_with in *. simpl. rewrite insert_by_perm. by rewrite IH.
Qed.

Lemma filter_split_perm {A : Type} (f : A -> bool) (l : list A) :
  filter (fun r => f r = false) l ++ filter (fun r => f r = true) l ≡ₚ l.
Proof.
  induction l as [|x l IH]; simpl; [done|].
  rewrite !filter_cons. destruct (f x) eqn:E.
  - rewrite decide_False by done. rewrite decide_True by done.
    rewrite <- Permutation_middle. by rewrite IH.
  - rewrite decide_True by done. rewrite decide_False by done.
    simpl. by rewrite IH.
Qed.

Lemma sort_values_perm c asc d : rows (sort_values c asc d) ≡ₚ rows d.
Proof.
  unfold sort_values; simpl. rewrite sort_with_perm.
  apply (filter_split_perm (fun r => isna (getitem r c))).
Qed.

Lemma slice_to_elem {A : Type} (n : Z) (l : list A) x : x ∈ slice_to n l -> x ∈ l.
Proof.
  unfold slice_to. destruct (0 <=? n); apply subseteq_take.
Qed.

Lemma slice_to_length_le {A : Type} (n : Z) (l : list A) :
  0 <= n -> Z.of_nat (length (slice_to n l)) <= n.
Proof.
  intros Hn. unfold slice_to. rewrite (proj2 (Z.leb_le 0 n) Hn).
  rewrite length_take. lia.
Qed.

Lemma slice_to_length {A : Type} (n : Z) (l : list A) :
  (length (slice_to n l) <= length l)%nat.
Proof. unfold slice_to. destruct (0 <=? n); rewrite length_take; lia. Qed.

Lemma value_eqb_str v s : value_eqb v (VStr s) = true -> v = VStr s.
Proof.
  destruct v as [|t|q]; simpl; try discriminate.
  by intros ->%String.eqb_eq.
Qed.

Lemma of_str_inv o s : of_str o = VStr s -> o = Some s.
Proof. destruct o; simpl; congruence. Qed.

Lemma truthy_str_inv o : truthy_str o = true -> o = Some (str_arg o).
Proof. destruct o; simpl; [done | discriminate]. Qed.

Lemma narrows_refl u : narrows u u.
Proof. by repeat split. Qed.

Lemma narrows_trans u v w : narrows u v -> narrows v w -> narrows u w.
Proof.
  intros (Hc & Hr & Hl) (Hc' & Hr' & Hl'). repeat split.
  - congruence.
  - auto.
  - lia.
Qed.

Lemma getitem_mask_narrows c p u u' : getitem_mask c p u = Ok u' -> narrows u u'.
Proof.
  intros H. pose proof (getitem_mask_Ok _ _ _ _ H) as (Hc & _ & Hr).
  repeat split; [done| |].
  - intros r Hin. by apply (getitem_mask_elem _ _ _ _ _ H).
  - rewrite Hr. apply length_filter.
Qed.

Lemma eq_step_sound (arg : option string) c u u' :
  (if truthy_str arg
   then getitem_mask c (fun x => value_eqb x (VStr (str_arg arg))) u
   else Ok u) = Ok u' ->
  narrows u u' /\
  (truthy_str arg = true -> forall r, r ∈ rows u' -> getitem r c = VStr (str_arg arg)).
Proof.
  destruct (truthy_str arg) eqn:E.
  - intros H. split; [by eapply getitem_mask_narrows|].
    intros _ r Hin. apply (getitem_mask_elem _ _ _ _ _ H) in Hin as [_ Hp].
    by apply value_eqb_str.
  - intros [= <-]. split; [apply narrows_refl | discriminate].
Qed.

Lemma sort_step_narrows (b : bool) c asc u u' :
  (if b then Ok (sort_values c asc u) else Ok u) = Ok u' -> narrows u u'.
Proof.
  destruct b; intros [= <-]; [|apply narrows_refl].
  pose proof (sort_values_perm c asc u) as Hp. repeat split.
  - intros r. by rewrite Hp.
  - by rewrite Hp.
Qed.

Lemma limit_step_sound (lim : option Z) u u' :
  (if truthy_int lim then Ok (head (default 0 lim) u) else Ok u) = Ok u' ->
  narrows u u' /\
  (forall n, lim = Some n -> 0 < n -> Z.of_nat (length (rows u')) <= n).
Proof.
  destruct lim as [n|]; simpl.
  - destruct (Z.eqb_spec n 0) as [->|Hn]; simpl; intros [= <-].
    + split; [apply narrows_refl|]. intros n [= <-]. lia.
    + split.
      * repeat split; simpl; [apply slice_to_elem | apply slice_to_length].
      * intros m [= <-] Hm. simpl. apply slice_to_length_le. lia.
  - intros [= <-]. split; [apply narrows_refl | discriminate].
Qed.

Lemma field_of_getitem (arg : option string) (field : Row -> option string) c u :
  (forall r, getitem r c = of_str (field r)) ->
  (truthy_str arg = true -> forall r, r ∈ rows u -> getitem r c = VStr (str_arg arg)) ->
  forall r, r ∈ rows u -> field_matches arg field r.
Proof.
  intros Hg H r Hin Ht. specialize (H Ht r Hin). rewrite Hg in H.
  apply of_str_inv in H. rewrite H. symmetry. by apply truthy_str_inv.
Qed.

(** What [filter_view] keeps: rows of the dataset that meet every criterion
    in force, no more than a positive limit. *)
Lemma filter_view_sound d a v :
  filter_view d a = Ok v ->
  narrows d v /\
  (forall r, r ∈ rows v -> satisfies a r) /\
  (forall n, limit a = Some n -> 0 < n -> Z.of_nat (length (rows v)) <= n).
Proof.
  unfold filter_view. intros H.
  apply outcome_bind_Ok in H as (u0 & [= <-] & H).
  apply outcome_bind_Ok in H as (u1 & H1 & H).
  apply outcome_bind_Ok in H as (u2 & H2 & H).
  apply outcome_bind_Ok in H as (u3 & H3 & H).
  apply outcome_bind_Ok in H as (u4 & H4 & H).
  apply outcome_bind_Ok in H as (u5 & H5 & H).
  apply outcome_bind_Ok in H as (u6 & H6 & H).
  apply outcome_bind_Ok in H as (u7 & H7 & H).
  apply outcome_bind_Ok in H as (u8 & H8 & H).
  apply outcome_bind_Ok in H as (u9 & H9 & [= <-]).
  apply eq_step_sound in H1 as [N1 P1], H2 as [N2 P2], H3 as [N3 P3],
    H4 as [N4 P4], H5 as [N5 P5].
  assert (N6 : narrows u5 u6 /\
    forall lo, min_price a = Some lo -> forall r, r ∈ rows u6 ->
      (lo <= precio_por_tableta r)%Q).
  { destruct (min_price a) as [lo|].
    - split; [by eapply getitem_mask_narrows|]. intros ? [= <-] r Hin.
      apply (getitem_mask_elem _ _ _ _ _ H6) in Hin as [_ Hp].
      by apply Qle_bool_iff in Hp.
    - injection H6 as <-. split; [apply narrows_refl | discriminate]. }
  destruct N6 as [N6 P6].
  assert (N7 : narrows u6 u7 /\
    forall hi, max_price a = Some hi -> forall r, r ∈ rows u7 ->
      (precio_por_tableta r <= hi)%Q).
  { destruct (max_price a) as [hi|].
    - split; [by eapply getitem_mask_narrows|]. intros ? [= <-] r Hin.
      apply (getitem_mask_elem _ _ _ _ _ H7) in Hin as [_ Hp].
      by apply Qle_bool_iff in Hp.
    - injection H7 as <-. split; [apply narrows_refl | discriminate]. }
  destruct N7 as [N7 P7].
  apply sort_step_narrows in H8 as N8.
  apply limit_step_sound in H9 as [N9 P9].
  pose proof (narrows_trans _ _ _ N8 N9) as N89.
  pose proof (narrows_trans _ _ _ N7 N89) as N79.
  pose proof (narrows_trans _ _ _ N6 N79) as N69.
  pose proof (narrows_trans _ _ _ N5 N69) as N59.
  pose proof (narrows_trans _ _ _ N4 N59) as N49.
  pose proof (narrows_trans _ _ _ N3 N49) as N39.
  pose proof (narrows_trans _ _ _ N2 N39) as N29.
  pose proof (narrows_trans _ _ _ N1 N29) as N19.
  split; [exact N19|]. split; [|exact P9].
  intros r Hin. repeat split.
  - eapply (field_of_getitem _ principio_activo "principio_activo" u1); [done|done|].
    by apply N29.
  - eapply (field_of_getitem _ fabricante "fabricante" u2); [done|done|].
    by apply N39.
  - eapply (field_of_getitem _ concentracion "concentracion" u3); [done|done|].
    by apply N49.
  - eapply (field_of_getitem _ canal "canal" u4); [done|done|].
    by apply N59.
  - eapply (field_of_getitem _ unidad_de_dispensacion "unidad_de_dispensacion" u5);
      [done|done|]. by apply N69.
  - intros lo Hlo. apply (P6 lo Hlo). by apply N79.
  - intros hi Hhi. apply (P7 hi Hhi). by apply N89.
Qed.

Lemma outcome_bind_total {A B : Type} (P : A -> Prop) (Q' : B -> Prop)
  (o : outcome A) (g : A -> outcome B) :
  (exists a, o = Ok a /\ P a) ->
  (forall a, P a -> exists b, g a = Ok b /\ Q' b) ->
  exists b, o ≫= g = Ok b /\ Q' b.
Proof. intros (a & -> & Ha) Hg. simpl. by apply Hg. Qed.

Lemma base_column_mask c p u :
  c ∈ base_columns -> loaded u ->
  exists u', getitem_mask c p u = Ok u' /\ loaded u'.
Proof.
  intros Hc Hu. unfold getitem_mask, has_column. rewrite Hu.
  rewrite bool_decide_eq_true_2 by done. eexists; split; [reflexivity | done].
Qed.

Lemma base_column_step (b : bool) c p u :
  c ∈ base_columns -> loaded u ->
  exists u', (if b then getitem_mask c p u else Ok u) = Ok u' /\ loaded u'.
Proof. intros Hc Hu. destruct b; [by apply base_column_mask | eauto]. Qed.

(** On a frame that has the columns of the price table the view exists. *)
Lemma filter_view_total d a :
  loaded d -> exists v, filter_view d a = Ok v /\ loaded v.
Proof.
  intros Hd. unfold filter_view.
  apply (outcome_bind_total loaded); [eauto|]. intros u0 C0.
  apply (outcome_bind_total loaded).
  { apply base_column_step; [by apply (bool_decide_unpack _) | done]. }
  intros u1 C1. apply (outcome_bind_total loaded).
  { apply base_column_step; [by apply (bool_decide_unpack _) | done]. }
  intros u2 C2. apply (outcome_bind_total loaded).
  { apply base_column_step; [by apply (bool_decide_unpack _) | done]. }
  intros u3 C3. apply (outcome_bind_total loaded).
  { apply base_column_step; [by apply (bool_decide_unpack _) | done]. }
  intros u4 C4. apply (outcome_bind_total loaded).
  { apply base_column_step; [by apply (bool_decide_unpack _) | done]. }
  intros u5 C5. apply (outcome_bind_total loaded).
  { destruct (min_price a); [|eauto].
    apply base_column_mask; [by apply (bool_decide_unpack _) | done]. }
  intros u6 C6. apply (outcome_bind_total loaded).
  { destruct (max_price a); [|eauto].
    apply base_column_mask; [by apply (bool_decide_unpack _) | done]. }
  intros u7 C7. apply (outcome_bind_total loaded).
  { destruct (has_column u7 (sort_by a)); eauto. }
  intros u8 C8. apply (outcome_bind_total loaded).
  { destruct (truthy_int (limit a)); eauto. }
  intros u9 C9. eauto.
Qed.

(** * The filter *)

(** C1, as amended: whenever [filter_data] returns a view, every row of the
    view is a row of the dataset that equals each equality criterion given
    as a non-empty string and whose price lies within the given bounds, and
    the view has at most [limit] rows when the limit is positive; on a
    loaded dataset [filter_data] does return a view. *)
Theorem filter_data_view (h : heap) (self_df : loc) (d : DataFrame) (a : criteria) :
  h !! self_df = Some d ->
  (forall l h', filter_data self_df a h = (Ok l, h') ->
     exists v, h' !! l = Some v /\
       (forall r, r ∈ rows v -> r ∈ rows d /\ satisfies a r) /\
       (forall n, limit a = Some n -> 0 < n -> Z.of_nat (length (rows v)) <= n)) /\
  (loaded d -> exists l h', filter_data self_df a h = (Ok l, h')).
Proof.
  intros Hd. destruct (filter_data_runs h self_df d a Hd) as (h1 & Hsub & Hrun).
  split.
  - intros l h' Heq. destruct (filter_view d a) as [v|e] eqn:Hv.
    + destruct Hrun as (l1 & Hrun & _ & Hl1). rewrite Hrun in Heq.
      injection Heq as <- <-. exists v. split; [done|].
      apply filter_view_sound in Hv as (Hn & Hs & Hlim). split; [|done].
      intros r Hin. split; [by apply Hn | by apply Hs].
    + rewrite Hrun in Heq. discriminate.
  - intros Hld. destruct (filter_view_total d a Hld) as (v & Hv & _).
    rewrite Hv in Hrun. destruct Hrun as (l1 & Hrun & _). eauto.
Qed.

(** * Running the operations *)

Lemma run_load {A : Type} (k : DataFrame -> M A) h l v :
  h !! l = Some v -> (load l ≫= k) h = k v h.
Proof. intros Hl. unfold mbind, M_bind, load. by rewrite Hl. Qed.

Lemma run_lift {A B : Type} (o : outcome A) (k : A -> M B) h :
  (lift o ≫= k) h = match o with Ok a => k a h | Raise e => (Raise e, h) end.
Proof. unfold mbind, M_bind, lift. by destruct o. Qed.

Lemma run_lift_end {A : Type} (o : outcome A) h : lift o h = (o, h).
Proof. done. Qed.

Lemma run_bind_Ok {A B : Type} (m : M A) (k : A -> M B) h a h' :
  m h = (Ok a, h') -> (m ≫= k) h = k a h'.
Proof. intros Hm. unfold mbind, M_bind. by rewrite Hm. Qed.

Lemma run_bind_Raise {A B : Type} (m : M A) (k : A -> M B) h e h' :
  m h = (Raise e, h') -> (m ≫= k) h = (Raise e, h').
Proof. intros Hm. unfold mbind, M_bind. by rewrite Hm. Qed.

Lemma run_setitem l c vals h v :
  h !! l = Some v ->
  setitem l c vals h =
    match assign c vals v with
    | Ok v' => (Ok tt, <[l := v']> h)
    | Raise e => (Raise e, h)
    end.
Proof.
  intros Hl. unfold setitem. rewrite (run_load _ h l v Hl). unfold assign.
  destruct (length vals =? length (rows v))%nat; [|done].
  unfold update. by rewrite Hl.
Qed.

(** An operation that filters and then computes on the view returns that
    computation on [filter_view] and keeps the entry heap. *)
Lemma run_after_filter {A : Type} (f : DataFrame -> outcome A) h self_df d a :
  h !! self_df = Some d ->
  exists h', h ⊆ h' /\
    (filter_data self_df a ≫= fun l => load l ≫= fun v => lift (f v)) h
    = (filter_view d a ≫= f, h').
Proof.
  intros Hd. destruct (filter_data_runs h self_df d a Hd) as (h1 & Hsub & Hrun).
  exists h1. split; [done|]. destruct (filter_view d a) as [v|e]; simpl.
  - destruct Hrun as (l & Hrun & _ & Hl).
    rewrite (run_bind_Ok _ _ _ _ _ Hrun). by rewrite (run_load _ _ _ _ Hl).
  - by rewrite (run_bind_Raise _ _ _ _ _ Hrun).
Qed.

Lemma get_summary_stats_run h self_df d ai man :
  h !! self_df = Some d ->
  exists h', h ⊆ h' /\
    get_summary_stats self_df ai man h
    = (filter_view d (by_ingredient ai man) ≫= fun v => summary_of v ai man, h').
Proof. apply (run_after_filter (fun v => summary_of v ai man)). Qed.

Lemma get_histogram_data_run h self_df d ai man bins :
  h !! self_df = Some d ->
  exists h', h ⊆ h' /\
    get_histogram_data self_df ai man bins h
    = (filter_view d (by_ingredient ai man) ≫= fun v => histogram_of v bins, h').
Proof. apply (run_after_filter (fun v => histogram_of v bins)). Qed.

Lemma get_boxplot_data_run h self_df d group_by ai lim :
  h !! self_df = Some d ->
  exists h', h ⊆ h' /\
    get_boxplot_data self_df group_by ai lim h
    = (filter_view d (by_ingredient ai None) ≫= fun v => boxplot_of v group_by lim, h').
Proof. apply (run_after_filter (fun v => boxplot_of v group_by lim)). Qed.

Lemma subseteq_insert_fresh (h h1 : heap) l v :
  h ⊆ h1 -> h !! l = None -> h ⊆ <[l := v]> h1.
Proof. intros Hs Hn. by apply insert_subseteq_r. Qed.

Lemma get_clustering_run h self_df d ai k :
  h !! self_df = Some d ->
  exists h', h ⊆ h' /\
    get_clustering self_df ai k h
    = (filter_view d (by_ingredient ai None) ≫= clustering_of k, h').
Proof.
  intros Hd. unfold get_clustering.
  destruct (filter_data_runs h self_df d (by_ingredient ai None) Hd)
    as (h1 & Hsub & Hrun).
  fold (by_ingredient ai None).
  destruct (filter_view d (by_ingredient ai None)) as [v|e]; simpl.
  2:{ exists h1. split; [done|]. by rewrite (run_bind_Raise _ _ _ _ _ Hrun). }
  destruct Hrun as (l & Hrun & Hn & Hl).
  rewrite (run_bind_Ok _ _ _ _ _ Hrun), (run_load _ _ _ _ Hl), run_lift.
  unfold clustering_of.
  destruct (prices v) as [X|e]; simpl; [|by exists h1].
  rewrite run_lift.
  destruct (StandardScaler_fit_transform X) as [sc|e]; simpl; [|by exists h1].
  rewrite run_lift.
  destruct (KMeans_fit_predict k (X_scaled sc)) as [km|e]; simpl; [|by exists h1].
  destruct (assign "cluster" (map Some (labels_ km)) v) as [v'|e] eqn:Ha.
  - exists (<[l := v']> h1). split; [by apply subseteq_insert_fresh|].
    erewrite run_bind_Ok by (rewrite (run_setitem _ _ _ _ _ Hl), Ha; reflexivity).
    rewrite (run_load _ _ l v') by apply lookup_insert_eq. done.
  - exists h1. split; [done|].
    erewrite run_bind_Raise by (rewrite (run_setitem _ _ _ _ _ Hl), Ha; reflexivity).
    done.
Qed.

Lemma get_anomalies_run h self_df d ai c :
  h !! self_df = Some d ->
  exists h', h ⊆ h' /\
    get_anomalies self_df ai c h
    = (filter_view d (by_ingredient ai None) ≫= anomalies_of c, h').
Proof.
  intros Hd. unfold get_anomalies.
  destruct (filter_data_runs h self_df d (by_ingredient ai None) Hd)
    as (h1 & Hsub & Hrun).
  fold (by_ingredient ai None).
  destruct (filter_view d (by_ingredient ai None)) as [v|e]; simpl.
  2:{ exists h1. split; [done|]. by rewrite (run_bind_Raise _ _ _ _ _ Hrun). }
  destruct Hrun as (l & Hrun & Hn & Hl).
  rewrite (run_bind_Ok _ _ _ _ _ Hrun), (run_load _ _ _ _ Hl), run_lift.
  unfold anomalies_of, labelled.
  destruct (prices v) as [X|e]; simpl; [|by exists h1].
  rewrite run_lift.
  destruct (StandardScaler_fit_transform X) as [sc|e]; simpl; [|by exists h1].
  rewrite run_lift.
  destruct (IsolationForest_fit_predict c (X_scaled sc)) as [pred|e]; simpl;
    [|by exists h1].
  destruct (assign "anomaly" (map Some pred) v) as [v1|e] eqn:Ha1; simpl.
  2:{ exists h1. split; [done|].
      erewrite run_bind_Raise by (rewrite (run_setitem _ _ _ _ _ Hl), Ha1; reflexivity).
      done. }
  erewrite run_bind_Ok by (rewrite (run_setitem _ _ _ _ _ Hl), Ha1; reflexivity).
  assert (Hl1 : <[l := v1]> h1 !! l = Some v1) by apply lookup_insert_eq.
  rewrite (run_load _ _ l v1 Hl1).
  destruct (assign "anomaly" (map (fun r => anomaly r ≫= map_label) (rows v1)) v1)
    as [v2|e] eqn:Ha2; simpl.
  - exists (<[l := v2]> (<[l := v1]> h1)). split.
    + apply subseteq_insert_fresh; [by apply subseteq_insert_fresh | done].
    + erewrite run_bind_Ok by (rewrite (run_setitem _ _ _ _ _ Hl1), Ha2; reflexivity).
      rewrite (run_load _ _ l v2) by apply lookup_insert_eq. done.
  - exists (<[l := v1]> h1). split; [by apply subseteq_insert_fresh|].
    erewrite run_bind_Raise by (rewrite (run_setitem _ _ _ _ _ Hl1), Ha2; reflexivity).
    done.
Qed.

(** * The dataset is never changed *)

Lemma entry_heap_kept {A : Type} (m : M A) (o : outcome A) (h : heap) :
  (exists h', h ⊆ h' /\ m h = (o, h')) -> preserves h m h.
Proof. intros (h1 & Hs & Hm) r h' Heq. rewrite Hm in Heq. by injection Heq as <- <-. Qed.

(** C2: each core operation, whatever it returns or raises, ends in a heap
    where every object that existed at the call, the dataset in particular,
    is what it was; and the view returned by the filter is a new object,
    so that a later update of the view leaves the dataset alone. *)
Theorem dataset_never_mutated (h : heap) (self_df : loc) (d : DataFrame) :
  h !! self_df = Some d ->
  (forall a, preserves h (filter_data self_df a) h) /\
  (forall ai man, preserves h (get_summary_stats self_df ai man) h) /\
  (forall ai man bins, preserves h (get_histogram_data self_df ai man bins) h) /\
  (forall g ai lim, preserves h (get_boxplot_data self_df g ai lim) h) /\
  (forall ai k, preserves h (get_clustering self_df ai k) h) /\
  (forall ai c, preserves h (get_anomalies self_df ai c) h) /\
  (forall a l h', filter_data self_df a h = (Ok l, h') ->
     h !! l = None /\ l <> self_df /\ h' !! self_df = Some d /\
     forall f r h'', update l f h' = (r, h'') -> h'' !! self_df = Some d).
Proof.
  intros Hd.
  assert (Hfilter : forall a, preserves h (filter_data self_df a) h).
  { intros a r h' Heq.
    destruct (filter_data_runs h self_df d a Hd) as (h1 & Hsub & Hrun).
    destruct (filter_view d a) as [v|e].
    - destruct Hrun as (l & Hrun & _). rewrite Hrun in Heq. by injection Heq as <- <-.
    - rewrite Hrun in Heq. by injection Heq as <- <-. }
  split; [exact Hfilter|].
  split; [intros; eapply entry_heap_kept, get_summary_stats_run, Hd|].
  split; [intros; eapply entry_heap_kept, get_histogram_data_run, Hd|].
  split; [intros; eapply entry_heap_kept, get_boxplot_data_run, Hd|].
  split; [intros; eapply entry_heap_kept, get_clustering_run, Hd|].
  split; [intros; eapply entry_heap_kept, get_anomalies_run, Hd|].
  intros a l h' Heq.
  destruct (filter_data_runs h self_df d a Hd) as (h1 & Hsub & Hrun).
  destruct (filter_view d a) as [v|e]; [|rewrite Hrun in Heq; discriminate].
  destruct Hrun as (l1 & Hrun & Hn & Hl). rewrite Hrun in Heq.
  injection Heq as <- <-.
  assert (Hne : l1 <> self_df) by congruence.
  assert (Hself : h1 !! self_df = Some d) by (eapply lookup_weaken; eauto).
  repeat split; [done..|].
  intros f r h'' Hup. unfold update in Hup. rewrite Hl in Hup.
  injection Hup as <- <-. by rewrite lookup_insert_ne.
Qed.

(** * Empty dataset *)

(** C3, as amended: when the frame of the service is empty, each endpoint
    of [app.py] answers with the error "No data available" and status 500;
    the heap is left as it was and nothing of the request, of the
    statistics or of the fitted models enters the answer.  The guard is
    that of the endpoints: the methods of the service have none. *)
Theorem empty_dataset_no_data (h : heap) (data_service : loc) (d : DataFrame) :
  h !! data_service = Some d ->
  df_empty d = true ->
  (forall a, app_get_data data_service a h = (Ok no_data, h)) /\
  (forall ai man, app_get_summary data_service ai man h = (Ok no_data, h)) /\
  (forall ai man bins, app_get_histogram data_service ai man bins h = (Ok no_data, h)) /\
  (forall g ai lim, app_get_boxplot data_service g ai lim h = (Ok no_data, h)) /\
  (forall ai k, app_get_clusters data_service ai k h = (Ok no_data, h)) /\
  (forall ai c, app_get_anomalies data_service ai c h = (Ok no_data, h)) /\
  app_get_metadata data_service h = (Ok no_data, h).
Proof.
  intros Hd He.
  unfold app_get_data, app_get_summary, app_get_histogram, app_get_boxplot,
    app_get_clusters, app_get_anomalies, app_get_metadata.
  repeat split; intros; rewrite (run_load _ _ _ _ Hd), He; reflexivity.
Qed.

(** * Summary statistics *)

Lemma loaded_has_column d c : loaded d -> c ∈ base_columns -> has_column d c = true.
Proof. intros Hd Hc. unfold has_column. rewrite Hd. by apply bool_decide_eq_true_2. Qed.

Lemma loaded_prices d : loaded d -> prices d = Ok (map precio_por_tableta (rows d)).
Proof.
  intros Hd. unfold prices. rewrite loaded_has_column; [done|done|].
  by apply (bool_decide_unpack _).
Qed.

Lemma prices_Ok d p : prices d = Ok p -> p = map precio_por_tableta (rows d).
Proof. unfold prices. destruct (has_column d _); [by intros [= <-] | discriminate]. Qed.

Lemma breakdown_Some (b : bool) c d (o : option (list group_stat)) :
  (if b then g ← groupby c d; Ok (Some (map agg_prices g)) else Ok None) = Ok o ->
  (is_Some o <-> b = true).
Proof.
  destruct b.
  - intros (g & _ & [= <-])%outcome_bind_Ok. split; [done | eauto].
  - intros [= <-]. split; [by intros [? ?] | discriminate].
Qed.

Lemma summary_of_breakdowns d ai man s :
  summary_of d ai man = Ok s ->
  (is_Some (manufacturers s) <-> truthy_str ai = true) /\
  (is_Some (active_ingredients s) <-> truthy_str man = true).
Proof.
  unfold summary_of. intros H.
  apply outcome_bind_Ok in H as (p & _ & H).
  apply outcome_bind_Ok in H as (ms & Hms & H).
  apply outcome_bind_Ok in H as (ins & His & [= <-]). simpl.
  split; [by eapply breakdown_Some | by eapply breakdown_Some].
Qed.

Lemma summary_of_total d ai man : loaded d -> exists s, summary_of d ai man = Ok s.
Proof.
  intros Hd. unfold summary_of. rewrite (loaded_prices d Hd). simpl.
  unfold groupby. rewrite !loaded_has_column by (done || by apply (bool_decide_unpack _)).
  destruct (truthy_str ai), (truthy_str man); simpl; eauto.
Qed.

(** C4, as amended: the manufacturer breakdown is in the result exactly when
    a non-empty ingredient is given, and the ingredient breakdown exactly
    when a non-empty manufacturer is given, each independently of the
    other; on a loaded dataset the operation returns a result. *)
Theorem summary_breakdown_axes (h : heap) (self_df : loc) (d : DataFrame)
  (ai man : option string) :
  h !! self_df = Some d ->
  (forall s h', get_summary_stats self_df ai man h = (Ok s, h') ->
     (is_Some (manufacturers s) <-> truthy_str ai = true) /\
     (is_Some (active_ingredients s) <-> truthy_str man = true)) /\
  (loaded d -> exists s h', get_summary_stats self_df ai man h = (Ok s, h')).
Proof.
  intros Hd. destruct (get_summary_stats_run h self_df d ai man Hd) as (h1 & _ & Hrun).
  split.
  - intros s h' Heq. rewrite Hrun in Heq. injection Heq as Heq _.
    apply outcome_bind_Ok in Heq as (v & _ & Hs).
    by apply summary_of_breakdowns in Hs.
  - intros Hld. destruct (filter_view_total d (by_ingredient ai man) Hld) as (v & Hv & Hlv).
    destruct (summary_of_total v ai man Hlv) as (s & Hs).
    exists s, h1. rewrite Hrun, Hv. simpl. by rewrite Hs.
Qed.

(** * Histogram *)

Lemma qmin_le_l a b : (qmin a b <= a)%Q.
Proof.
  unfold qmin. destruct (Qle_bool a b) eqn:E; [apply Qle_refl|].
  destruct (Qlt_le_dec b a) as [H|H]; [by apply Qlt_le_weak|].
  apply Qle_bool_iff in H. congruence.
Qed.

Lemma qmin_le_r a b : (qmin a b <= b)%Q.
Proof.
  unfold qmin. destruct (Qle_bool a b) eqn:E; [by apply Qle_bool_iff | apply Qle_refl].
Qed.

Lemma qmax_ge_l a b : (a <= qmax a b)%Q.
Proof.
  unfold qmax. destruct (Qle_bool a b) eqn:E; [by apply Qle_bool_iff | apply Qle_refl].
Qed.

Lemma qmax_ge_r a b : (b <= qmax a b)%Q.
Proof.
  unfold qmax. destruct (Qle_bool a b) eqn:E; [apply Qle_refl|].
  destruct (Qlt_le_dec b a) as [H|H]; [by apply Qlt_le_weak|].
  apply Qle_bool_iff in H. congruence.
Qed.

Lemma foldl_qmin_le x l :
  (foldl qmin x l <= x)%Q /\ forall y, y ∈ l -> (foldl qmin x l <= y)%Q.
Proof.
  revert x. induction l as [|z l IH]; intros x; simpl.
  - split; [apply Qle_refl | intros y Hy; by apply elem_of_nil in Hy].
  - destruct (IH (qmin x z)) as [H1 H2]. split.
    + eapply Qle_trans; [exact H1 | apply qmin_le_l].
    + intros y [->|Hy]%elem_of_cons; [|by apply H2].
      eapply Qle_trans; [exact H1 | apply qmin_le_r].
Qed.

Lemma foldl_qmax_ge x l :
  (x <= foldl qmax x l)%Q /\ forall y, y ∈ l -> (y <= foldl qmax x l)%Q.
Proof.
  revert x. induction l as [|z l IH]; intros x; simpl.
  - split; [apply Qle_refl | intros y Hy; by apply elem_of_nil in Hy].
  - destruct (IH (qmax x z)) as [H1 H2]. split.
    + eapply Qle_trans; [apply qmax_ge_l | exact H1].
    + intros y [->|Hy]%elem_of_cons; [|by apply H2].
      eapply Qle_trans; [apply qmax_ge_r | exact H1].
Qed.

(** The range chosen by the histogram is not a single point and holds every
    value. *)
Lemma outer_edges_spec a lo hi :
  outer_edges a = (lo, hi) ->
  (lo < hi)%Q /\ forall x, x ∈ a -> (lo <= x <= hi)%Q.
Proof.
  unfold outer_edges. destruct a as [|x0 a].
  - simpl. intros [= <- <-]. split; [reflexivity|].
    intros x Hx. by apply elem_of_nil in Hx.
  - destruct (foldl_qmin_le x0 a) as [Hm0 Hm], (foldl_qmax_ge x0 a) as [HM0 HM].
    set (m := foldl qmin x0 a) in *. set (M := foldl qmax x0 a) in *.
    assert (Hall : forall x, x ∈ x0 :: a -> (m <= x <= M)%Q).
    { intros x [->|Hx]%elem_of_cons; split; auto. }
    destruct (Qeq_bool m M) eqn:E; intros [= <- <-].
    + apply Qeq_bool_iff in E. split; [lra|].
      intros x Hx. destruct (Hall x Hx). lra.
    + split; [|exact Hall].
      assert (m <= M)%Q by (eapply Qle_trans; eauto).
      destruct (Qlt_le_dec m M) as [|Hge]; [done|].
      assert (Heq : (m == M)%Q) by lra. apply Qeq_bool_iff in Heq. congruence.
Qed.

Lemma bin_index_range lo hi bins x :
  (lo < hi)%Q -> 1 <= bins -> (lo <= x <= hi)%Q ->
  0 <= bin_index lo hi bins x < bins.
Proof.
  intros Hlh Hb [Hx1 Hx2]. unfold bin_index.
  set (t := ((x - lo) / (hi - lo) * inject_Z bins)%Q).
  assert (Hb' : (0 < inject_Z bins)%Q).
  { replace 0%Q with (inject_Z 0) by done. rewrite <- Zlt_Qlt. lia. }
  assert (Hr : (0 <= (x - lo) / (hi - lo) <= 1)%Q).
  { split.
    - apply Qle_shift_div_l; lra.
    - apply Qle_shift_div_r; lra. }
  assert (Ht : (0 <= t <= inject_Z bins)%Q).
  { unfold t. split; nra. }
  assert (H0 : 0 <= Qfloor t).
  { pose proof (Qfloor_resp_le (inject_Z 0) t (proj1 Ht)) as H. by rewrite Qfloor_Z in H. }
  assert (H1 : Qfloor t <= bins).
  { pose proof (Qfloor_resp_le t (inject_Z bins) (proj2 Ht)) as H. by rewrite Qfloor_Z in H. }
  destruct (Z.eqb_spec (Qfloor t) bins); lia.
Qed.

Lemma indicator_sum (j : Z) (n : nat) :
  0 <= j < Z.of_nat n ->
  Zsum (map (fun i => if decide (j = Z.of_nat i) then 1 else 0) (seq 0 n)) = 1.
Proof.
  induction n as [|n IH]; [lia|]. intros Hj.
  rewrite seq_S, map_app. simpl. unfold Zsum in *. rewrite foldr_app. simpl.
  destruct (decide (j = Z.of_nat n)) as [->|Hne].
  - assert (Hz : forall m, (m <= n)%nat ->
       foldr Z.add 1 (map (fun i => if decide (Z.of_nat n = Z.of_nat i) then 1 else 0)
                          (seq 0 m)) = 1).
    { induction m as [|m IHm]; [done|]. intros Hm.
      rewrite seq_S, map_app, foldr_app. simpl.
      rewrite decide_False by lia. simpl. apply IHm. lia. }
    replace (1 + 0) with 1 by lia. by apply Hz.
  - replace (0 + 0) with 0 by lia. apply IH. lia.
Qed.

Lemma Zsum_map_add {A : Type} (f g : A -> Z) (l : list A) :
  Zsum (map (fun i => f i + g i) l) = Zsum (map f l) + Zsum (map g l).
Proof. induction l as [|x l IH]; simpl; [done|]. unfold Zsum in *. simpl. lia. Qed.

(** Every index is counted in exactly one bin. *)
Lemma counts_sum (indices : list Z) (n : nat) :
  (forall j, j ∈ indices -> 0 <= j < Z.of_nat n) ->
  Zsum (map (fun i => Z.of_nat (length (filter (fun j => j = Z.of_nat i) indices)))
            (seq 0 n))
  = Z.of_nat (length indices).
Proof.
  induction indices as [|j indices IH]; intros Hall.
  - simpl. induction (seq 0 n) as [|i l IHl]; [done|]. simpl. unfold Zsum in *.
    simpl. by rewrite IHl.
  - transitivity (Zsum (map (fun i =>
        Z.of_nat (length (filter (fun j' => j' = Z.of_nat i) indices))
        + (if decide (j = Z.of_nat i) then 1 else 0)) (seq 0 n))).
    + f_equal. apply map_ext. intros i. rewrite filter_cons.
      destruct (decide (j = Z.of_nat i)); simpl; lia.
    + rewrite Zsum_map_add, IH, indicator_sum.
      * simpl. lia.
      * apply Hall. by left.
      * intros j' Hj'. apply Hall. by right.
Qed.

Lemma filter_all {A : Type} (P : A -> Prop) `{!forall x, Decision (P x)} (l : list A) :
  (forall x, x ∈ l -> P x) -> filter P l = l.
Proof.
  induction l as [|x l IH]; intros Hall; [done|].
  rewrite filter_cons, decide_True by (apply Hall; by left).
  f_equal. apply IH. intros y Hy. apply Hall. by right.
Qed.

Lemma traverse_Ok_map {A B : Type} (f : A -> outcome B) (g : A -> B) (l : list A) :
  (forall x, x ∈ l -> f x = Ok (g x)) -> traverse f l = Ok (map g l).
Proof.
  induction l as [|x l IH]; intros H; simpl; [done|].
  rewrite (H x) by (by left). simpl. rewrite IH; [done|].
  intros y Hy. apply H. by right.
Qed.

Lemma index_lookup {A : Type} (l : list A) i x : l !! i = Some x -> index l i = Ok x.
Proof. unfold index. by intros ->. Qed.

Lemma map_nth_seq {A : Type} (l : list A) (dflt : A) :
  map (fun i => nth i l dflt) (seq 0 (length l)) = l.
Proof.
  apply list_eq. intros i. change (map ?f ?l) with (f <$> l).
  rewrite list_lookup_fmap.
  destruct (decide (i < length l)%nat) as [Hi|Hi].
  - rewrite lookup_seq_lt by done. simpl.
    destruct (lookup_lt_is_Some_2 l i Hi) as [x Hx]. rewrite Hx.
    f_equal. by apply nth_lookup_Some.
  - rewrite (lookup_ge_None_2 l) by lia.
    rewrite (lookup_ge_None_2 (seq 0 (length l))); [done|]. rewrite length_seq. lia.
Qed.

(** The [i]-th edge of [n] equal bins over [lo, hi]. *)
Lemma linspace_lookup_lt lo hi (n i : nat) :
  (i < n)%nat ->
  linspace lo hi (n + 1) !! i
  = Some (lo + inject_Z (Z.of_nat i) * ((hi - lo) / inject_Z (Z.of_nat n)))%Q.
Proof.
  intros Hi. unfold linspace. rewrite Nat.add_sub.
  rewrite lookup_app_l by (rewrite length_map, length_seq; lia).
  change (map ?f ?l) with (f <$> l). rewrite list_lookup_fmap.
  by rewrite lookup_seq_lt.
Qed.

Lemma linspace_lookup_last lo hi (n : nat) : linspace lo hi (n + 1) !! n = Some hi.
Proof.
  unfold linspace. rewrite Nat.add_sub.
  rewrite lookup_app_r by (rewrite length_map, length_seq; lia).
  rewrite length_map, length_seq, Nat.sub_diag. done.
Qed.

Lemma linspace_length lo hi (n : nat) : length (linspace lo hi (n + 1)) = (n + 1)%nat.
Proof.
  unfold linspace. rewrite Nat.add_sub, length_app, length_map, length_seq. done.
Qed.

Lemma linspace_first lo hi (n : nat) a :
  (0 < n)%nat -> linspace lo hi (n + 1) !! 0%nat = Some a -> (a == lo)%Q.
Proof.
  intros Hn Ha. rewrite linspace_lookup_lt in Ha by done. injection Ha as <-.
  generalize ((hi - lo) / inject_Z (Z.of_nat n))%Q. intros s.
  change (inject_Z (Z.of_nat 0)) with 0%Q. lra.
Qed.

Lemma np_histogram_spec a bins lo hi :
  1 <= bins -> outer_edges a = (lo, hi) ->
  exists hist,
    np_histogram a bins = Ok (hist, linspace lo hi (Z.to_nat bins + 1)) /\
    length hist = Z.to_nat bins /\
    Zsum hist = Z.of_nat (length a).
Proof.
  intros Hb Hedges. unfold np_histogram.
  destruct (Z.ltb_spec bins 1) as [|_]; [lia|]. rewrite Hedges.
  destruct (outer_edges_spec a lo hi Hedges) as [Hlh Hall].
  rewrite (filter_all _ a).
  2:{ intros x Hx. destruct (Hall x Hx) as [H1 H2].
      apply Qle_bool_iff in H1, H2. by rewrite H1, H2. }
  eexists. split; [reflexivity|]. split.
  - by rewrite length_map, length_seq.
  - rewrite counts_sum; [by rewrite length_map|].
    intros j Hj. change (map ?f ?l) with (f <$> l) in Hj.
    apply list_elem_of_fmap in Hj as (x & -> & Hx).
    rewrite Z2Nat.id by lia. apply bin_index_range; [done | lia | by apply Hall].
Qed.

(** The bars built from the counts and the edges. *)
Lemma histogram_of_spec v bins lo hi :
  loaded v -> 1 <= bins ->
  outer_edges (map precio_por_tableta (rows v)) = (lo, hi) ->
  exists hs,
    histogram_of v bins = Ok hs /\
    length hs = Z.to_nat bins /\
    Zsum (map bin_count hs) = Z.of_nat (length (rows v)) /\
    forall i b, hs !! i = Some b ->
      linspace lo hi (Z.to_nat bins + 1) !! i = Some (binStart b) /\
      linspace lo hi (Z.to_nat bins + 1) !! S i = Some (binEnd b) /\
      normalizedCount b =
        if (0 <? length (rows v))%nat
        then (inject_Z (bin_count b) / Qlen (rows v))%Q else 0%Q.
Proof.
  intros Hv Hb Hedges. unfold histogram_of. rewrite (loaded_prices v Hv). simpl.
  destruct (np_histogram_spec _ bins lo hi Hb Hedges) as (hist & -> & Hlen & Hsum).
  simpl. set (edges := linspace lo hi (Z.to_nat bins + 1)).
  set (norm := fun c : Z =>
    if (0 <? length (rows v))%nat then (inject_Z c / Qlen (rows v))%Q else 0%Q).
  set (g := fun i : nat =>
    mkBin (nth i edges 0%Q) (nth (i + 1) edges 0%Q) (nth i hist 0) (norm (nth i hist 0))).
  assert (Hedge : forall i, (i <= Z.to_nat bins)%nat -> edges !! i = Some (nth i edges 0%Q)).
  { intros i Hi. destruct (nth_lookup_or_length edges i 0%Q) as [|Hge]; [done|].
    unfold edges in Hge. rewrite linspace_length in Hge. lia. }
  rewrite (traverse_Ok_map _ g).
  2:{ intros i Hi. apply elem_of_seq in Hi as [_ Hi]. simpl in Hi.
      rewrite (index_lookup _ _ _ (Hedge i ltac:(lia))). simpl.
      rewrite (index_lookup _ _ _ (Hedge (i + 1)%nat ltac:(lia))). simpl.
      destruct (nth_lookup_or_length hist i 0) as [Hh|Hge]; [|lia].
      rewrite (index_lookup _ _ _ Hh). done. }
  eexists. split; [reflexivity|]. split; [by rewrite length_map, length_seq|].
  split.
  - rewrite map_map. simpl. rewrite (map_nth_seq hist 0), Hsum, length_map. done.
  - intros i b Hib. change (map ?f ?l) with (f <$> l) in Hib.
    rewrite list_lookup_fmap in Hib.
    destruct (seq 0 (length hist) !! i) as [j|] eqn:Hj; [|discriminate].
    apply lookup_seq in Hj as [-> Hi]. simpl in Hib. injection Hib as <-. simpl.
    rewrite Hlen in Hi. split; [apply Hedge; lia|]. split; [|done].
    replace (S i) with (i + 1)%nat by lia. apply Hedge. lia.
Qed.

(** C5: on a loaded dataset, for a number of bins that is zero or negative,
    the histogram operation raises the error of the bins check, which names
    [bins]; the check precedes the computation of the range, the edges and
    the counts and rejects the number whatever the prices are. *)
Theorem histogram_rejects_nonpositive_bins (h : heap) (self_df : loc) (d : DataFrame)
  (ai man : option string) (bins : Z) :
  h !! self_df = Some d ->
  loaded d ->
  bins <= 0 ->
  (forall a, np_histogram a bins
             = Raise (ValueError "`bins` must be positive, when an integer")) /\
  exists h', get_histogram_data self_df ai man bins h
             = (Raise (ValueError "`bins` must be positive, when an integer"), h').
Proof.
  intros Hd Hld Hb.
  assert (Hnp : forall a, np_histogram a bins
             = Raise (ValueError "`bins` must be positive, when an integer")).
  { intros a. unfold np_histogram. destruct (Z.ltb_spec bins 1); [done | lia]. }
  split; [exact Hnp|].
  destruct (get_histogram_data_run h self_df d ai man bins Hd) as (h1 & _ & Hrun).
  destruct (filter_view_total d (by_ingredient ai man) Hld) as (v & Hv & Hlv).
  exists h1. rewrite Hrun, Hv. simpl. unfold histogram_of.
  rewrite (loaded_prices v Hlv). simpl. by rewrite Hnp.
Qed.

Lemma outer_edges_cons x a :
  outer_edges (x :: a) =
    if Qeq_bool (foldl qmin x a) (foldl qmax x a)
    then (foldl qmin x a - (1 # 2), foldl qmax x a + (1 # 2))%Q
    else (foldl qmin x a, foldl qmax x a).
Proof. reflexivity. Qed.

(** C6, as amended: on a loaded dataset, when the histogram operation
    returns bars, the number of bins is positive and there are that many
    bars; the counts add up to the size of the view; each bar ends where
    the next one starts; on a non-empty view the normalized count of a bar
    is its count over the size of the view, the bars go from the least to
    the greatest price when these differ, and when all prices are equal
    the first bar starts at or below the price and the last one ends at or
    above it.  Nothing is said of the distance between the edges of a bar,
    which the rounding of the program can bring to zero. *)
Theorem histogram_bars (h : heap) (self_df : loc) (d : DataFrame)
  (ai man : option string) (bins : Z) (hs : list bin) (h' : heap) :
  h !! self_df = Some d ->
  loaded d ->
  get_histogram_data self_df ai man bins h = (Ok hs, h') ->
  exists v,
    filter_view d (by_ingredient ai man) = Ok v /\
    0 < bins /\
    length hs = Z.to_nat bins /\
    Zsum (map bin_count hs) = Z.of_nat (length (rows v)) /\
    (forall i b b', hs !! i = Some b -> hs !! S i = Some b' -> binEnd b = binStart b') /\
    (rows v <> [] ->
       (forall b, b ∈ hs ->
          normalizedCount b = (inject_Z (bin_count b) / Qlen (rows v))%Q) /\
       exists lo hi b0 bl,
         series_min (map precio_por_tableta (rows v)) = fin lo /\
         series_max (map precio_por_tableta (rows v)) = fin hi /\
         hs !! 0%nat = Some b0 /\ last hs = Some bl /\
         (~ (lo == hi)%Q -> (binStart b0 == lo)%Q /\ (binEnd bl == hi)%Q) /\
         ((lo == hi)%Q -> (binStart b0 <= lo)%Q /\ (hi <= binEnd bl)%Q)).
Proof.
  intros Hd Hld Hret.
  destruct (get_histogram_data_run h self_df d ai man bins Hd) as (h1 & _ & Hrun).
  destruct (filter_view_total d (by_ingredient ai man) Hld) as (v & Hv & Hlv).
  rewrite Hv in Hrun. cbn [mbind outcome_bind] in Hrun.
  assert (Hb : 0 < bins).
  { destruct (Z.ltb_spec bins 1) as [Hlt|]; [|lia].
    rewrite Hrun in Hret. unfold histogram_of in Hret.
    rewrite (loaded_prices v Hlv) in Hret. cbn [mbind outcome_bind] in Hret.
    unfold np_histogram in Hret. apply Z.ltb_lt in Hlt. rewrite Hlt in Hret.
    discriminate. }
  destruct (outer_edges (map precio_por_tableta (rows v))) as [lo hi] eqn:Hedges.
  destruct (histogram_of_spec v bins lo hi Hlv ltac:(lia) Hedges)
    as (hs0 & Hhs & Hlen & Hsum & Hbars).
  rewrite Hrun, Hhs in Hret. injection Hret as <- <-.
  exists v. split; [done|]. split; [done|]. split; [done|]. split; [done|]. split.
  - intros i b b' Hi Hi'.
    destruct (Hbars i b Hi) as (_ & He & _), (Hbars (S i) b' Hi') as (Hs & _ & _).
    congruence.
  - intros Hne. split.
    + intros b (i & Hi)%list_elem_of_lookup. destruct (Hbars i b Hi) as (_ & _ & ->).
      destruct (rows v); [done|]. done.
    + assert (Hn : (0 < Z.to_nat bins)%nat) by lia.
      destruct (lookup_lt_is_Some_2 hs0 0%nat ltac:(lia)) as [b0 Hb0].
      destruct (lookup_lt_is_Some_2 hs0 (pred (length hs0)) ltac:(lia)) as [bl Hbl].
      destruct (Hbars _ _ Hb0) as (Hs0 & _ & _), (Hbars _ _ Hbl) as (_ & Hel & _).
      apply (linspace_first lo hi _ _ Hn) in Hs0.
      replace (S (pred (length hs0))) with (Z.to_nat bins) in Hel by lia.
      rewrite linspace_lookup_last in Hel. injection Hel as Hel.
      destruct (rows v) as [|r rs]; [done|]. simpl in Hedges |- *.
      rewrite outer_edges_cons in Hedges.
      exists (foldl qmin (precio_por_tableta r) (map precio_por_tableta rs)),
             (foldl qmax (precio_por_tableta r) (map precio_por_tableta rs)), b0, bl.
      split; [done|]. split; [done|]. split; [done|].
      split; [by rewrite last_lookup|].
      destruct (Qeq_bool _ _) eqn:E; injection Hedges as <- <-.
      * apply Qeq_bool_iff in E. split; [done|]. intros _. rewrite <- Hel, Hs0.
        split; lra.
      * apply Qeq_bool_neq in E. split; [|done]. intros _. rewrite <- Hel. split; [done|].
        reflexivity.
Qed.

(** * Boxplot *)

Section Sorting.

Context {A : Type} (le : A -> A -> bool) (P : A -> Prop).
Hypothesis le_total : forall x y, P x -> P y -> le x y = false -> le y x = true.
Hypothesis le_trans : forall x y z, P x -> P y -> P z ->
  le x y = true -> le y z = true -> le x z = true.

Lemma insert_by_Forall (Q' : A -> Prop) x l :
  Q' x -> Forall Q' l -> Forall Q' (insert_by le x l).
Proof.
  intros Hx Hl. induction Hl as [|y l Hy Hl IH]; simpl.
  - by constructor.
  - destruct (le x y); repeat constructor; auto.
Qed.

Lemma insert_by_sorted x l :
  P x -> Forall P l ->
  StronglySorted (fun a b => le a b = true) l ->
  StronglySorted (fun a b => le a b = true) (insert_by le x l).
Proof.
  intros Hx Hl Hs. induction Hs as [|y l Hs IH Hy]; simpl.
  - repeat constructor.
  - apply Forall_cons in Hl as [Py Pl]. destruct (le x y) eqn:E.
    + constructor; [by constructor|]. constructor; [done|].
      rewrite Forall_forall in Hy, Pl. apply Forall_forall. intros z Hz.
      apply (le_trans x y z); auto.
    + constructor; [by apply IH|].
      apply insert_by_Forall; [by apply le_total | done].
Qed.

Lemma sort_with_Forall (Q' : A -> Prop) l : Forall Q' l -> Forall Q' (sort_with le l).
Proof.
  intros Hl. induction Hl as [|x l Hx Hl IH]; simpl; [constructor|].
  by apply insert_by_Forall.
Qed.

Lemma sort_with_sorted l :
  Forall P l -> StronglySorted (fun a b => le a b = true) (sort_with le l).
Proof.
  intros Hl. induction Hl as [|x l Hx Hl IH]; simpl; [constructor|].
  apply insert_by_sorted; [done | by apply sort_with_Forall | done].
Qed.

End Sorting.

Lemma sort_with_length {A : Type} (le : A -> A -> bool) l :
  length (sort_with le l) = length l.
Proof. apply Permutation_length, sort_with_perm. Qed.

Lemma sort_prices_sorted l : StronglySorted Qle (sort_prices l).
Proof.
  unfold sort_prices.
  assert (H : StronglySorted (fun a b => Qle_bool a b = true) (sort_with Qle_bool l)).
  { apply (sort_with_sorted Qle_bool (fun _ => True)).
    - intros x y _ _ Hxy. apply Qle_bool_iff.
      destruct (Qlt_le_dec y x) as [Hlt|Hle]; [by apply Qlt_le_weak|].
      apply Qle_bool_iff in Hle. congruence.
    - intros x y z _ _ _ Hxy Hyz. apply Qle_bool_iff in Hxy, Hyz.
      apply Qle_bool_iff. by eapply Qle_trans.
    - by apply Forall_forall. }
  induction H as [|x s Hs IH Hx]; constructor; [done|].
  eapply Forall_impl; [exact Hx|]. intros y Hy. by apply Qle_bool_iff.
Qed.

Lemma sorted_nth_le (s : list Q) (i j : nat) :
  StronglySorted Qle s -> (i <= j)%nat -> (j < length s)%nat ->
  (nth i s 0 <= nth j s 0)%Q.
Proof.
  intros Hs. revert i j. induction Hs as [|x s Hs IH Hx]; intros i j Hij Hj.
  - simpl in Hj. lia.
  - destruct i as [|i], j as [|j]; simpl in *; try lia.
    + apply Qle_refl.
    + rewrite Forall_forall in Hx. apply Hx. apply list_elem_of_In, nth_In. lia.
    + apply IH; lia.
Qed.

Lemma match_positive {A : Type} (n : nat) (a b : A) :
  (1 <= n)%nat -> match n with O => a | S _ => b end = b.
Proof. destruct n; [lia | done]. Qed.

Lemma Zdiv_bounds (m c : Z) : 0 < c -> c * (m / c) <= m < c * (m / c) + c.
Proof.
  intros Hc. pose proof (Z.mul_div_le m c Hc). pose proof (Z.mul_succ_div_gt m c Hc).
  lia.
Qed.

Lemma half_bounds (m : nat) : (2 * (m / 2) <= m < 2 * (m / 2) + 2)%nat.
Proof.
  pose proof (Nat.div_mod_eq m 2). pose proof (Nat.mod_upper_bound m 2). lia.
Qed.

Lemma Qhalf_between (a b : Q) : (a <= b)%Q -> (a <= (a + b) / 2 <= b)%Q.
Proof.
  intros H. assert (H2 : ((a + b) / 2 == (a + b) * (1 # 2))%Q) by field.
  rewrite H2. lra.
Qed.

Lemma Qfloor_scaled (a : Z) (b : positive) (z : Z) :
  Qfloor ((a # b) * inject_Z z) = (a * z) / Z.pos b.
Proof. unfold Qmult, inject_Z, Qfloor. simpl. by rewrite Pos.mul_1_r. Qed.

(** The median lies between the two middle ranks. *)
Lemma median_bounds (l : list Q) :
  (1 <= length l)%nat ->
  exists m, series_median l = fin m /\
    (nth ((length l - 1) / 2) (sort_prices l) 0 <= m)%Q /\
    (m <= nth (length l / 2) (sort_prices l) 0)%Q.
Proof.
  intros Hn. unfold series_median.
  pose proof (sort_prices_sorted l) as Hs.
  assert (Hlen : length (sort_prices l) = length l) by apply sort_with_length.
  rewrite Hlen. set (n := length l) in *. set (s := sort_prices l) in *.
  rewrite match_positive by done. clearbody n.
  destruct (Nat.even n) eqn:Ev.
  - apply Nat.even_spec in Ev as [k ->].
    assert (Hk : (1 <= k)%nat) by lia.
    replace ((2 * k - 1) / 2)%nat with (k - 1)%nat
      by (pose proof (half_bounds (2 * k - 1)); lia).
    replace (2 * k / 2)%nat with k by (pose proof (half_bounds (2 * k)); lia).
    pose proof (sorted_nth_le s (k - 1) k Hs ltac:(lia) ltac:(lia)) as Hle.
    eexists. split; [reflexivity|]. by apply Qhalf_between.
  - assert (Hodd : Nat.odd n = true) by (rewrite <- Nat.negb_even, Ev; done).
    apply Nat.odd_spec in Hodd as [k ->].
    replace ((2 * k + 1 - 1) / 2)%nat with k
      by (pose proof (half_bounds (2 * k + 1 - 1)); lia).
    replace ((2 * k + 1) / 2)%nat with k by (pose proof (half_bounds (2 * k + 1)); lia).
    eexists. split; [reflexivity|]. split; apply Qle_refl.
Qed.

(** A quantile lies between the ranks around its position. *)
Lemma quantile_bounds (q : Q) (l : list Q) :
  (0 <= q <= 1)%Q -> (1 <= length l)%nat ->
  let i := Z.to_nat (Qfloor (q * inject_Z (Z.of_nat (length l - 1)))) in
  exists x, series_quantile q l = fin x /\
    (nth i (sort_prices l) 0 <= x)%Q /\
    (x <= nth (Nat.min (i + 1) (length l - 1)) (sort_prices l) 0)%Q.
Proof.
  intros Hq Hn i. unfold series_quantile.
  pose proof (sort_prices_sorted l) as Hs.
  assert (Hlen : length (sort_prices l) = length l) by apply sort_with_length.
  rewrite Hlen. fold i. set (n := length l) in *. set (s := sort_prices l) in *.
  rewrite match_positive by done. clearbody n.
  set (pos := (q * inject_Z (Z.of_nat (n - 1)))%Q) in *.
  assert (Hm : (0 <= inject_Z (Z.of_nat (n - 1)))%Q).
  { replace 0%Q with (inject_Z 0) by done. rewrite <- Zle_Qle. lia. }
  assert (Hpos : (0 <= pos <= inject_Z (Z.of_nat (n - 1)))%Q) by (unfold pos; split; nra).
  assert (Hf0 : 0 <= Qfloor pos).
  { pose proof (Qfloor_resp_le (inject_Z 0) pos (proj1 Hpos)) as H. by rewrite Qfloor_Z in H. }
  assert (Hf1 : Qfloor pos <= Z.of_nat (n - 1)).
  { pose proof (Qfloor_resp_le pos _ (proj2 Hpos)) as H. by rewrite Qfloor_Z in H. }
  pose proof (Qfloor_le pos) as Hg0. pose proof (Qlt_floor pos) as Hg1.
  rewrite inject_Z_plus in Hg1. change (inject_Z 1) with 1%Q in Hg1.
  assert (Hi : (i <= n - 1)%nat) by (unfold i; lia).
  pose proof (sorted_nth_le s i (Nat.min (i + 1) (n - 1)) Hs ltac:(lia) ltac:(lia)) as Hle.
  eexists. split; [reflexivity|].
  set (lo := nth i s 0%Q) in *. set (hi := nth (Nat.min (i + 1) (n - 1)) s 0%Q) in *.
  set (g := (pos - inject_Z (Qfloor pos))%Q).
  assert (Hg : (0 <= g < 1)%Q) by (unfold g; split; lra).
  split; nra.
Qed.

(** For three values or more, the first quartile is at most the median and
    the median at most the third quartile. *)
Lemma quartiles_ordered (l : list Q) :
  (3 <= length l)%nat ->
  exists a m b,
    series_quantile (1 # 4) l = fin a /\ series_median l = fin m /\
    series_quantile (3 # 4) l = fin b /\ (a <= m)%Q /\ (m <= b)%Q.
Proof.
  intros Hn.
  pose proof (sort_prices_sorted l) as Hs.
  assert (Hlen : length (sort_prices l) = length l) by apply sort_with_length.
  destruct (median_bounds l ltac:(lia)) as (m & Hm & Hm1 & Hm2).
  destruct (quantile_bounds (1 # 4) l ltac:(split; discriminate) ltac:(lia))
    as (a & Ha & _ & Ha2).
  destruct (quantile_bounds (3 # 4) l ltac:(split; discriminate) ltac:(lia))
    as (b & Hb & Hb1 & _).
  rewrite Qfloor_scaled in Ha2, Hb1.
  exists a, m, b. repeat split; [done..| |].
  - eapply Qle_trans; [exact Ha2|]. eapply Qle_trans; [|exact Hm1].
    pose proof (Zdiv_bounds (1 * Z.of_nat (length l - 1)) 4 ltac:(lia)).
    pose proof (half_bounds (length l - 1)).
    apply sorted_nth_le; [done | lia | lia].
  - eapply Qle_trans; [exact Hm2|]. eapply Qle_trans; [|exact Hb1].
    pose proof (Zdiv_bounds (3 * Z.of_nat (length l - 1)) 4 ltac:(lia)).
    pose proof (half_bounds (length l)).
    apply sorted_nth_le; [done | lia | lia].
Qed.

Lemma box_of_loaded v g : loaded v -> box_of v g = Ok (box_for g).
Proof.
  intros Hv. unfold box_of. rewrite loaded_prices by exact Hv. done.
Qed.

(** The box of a group of five rows or more: its count is the size of the
    group and its quartiles are in order. *)
Lemma box_for_sound (g : value * list Row) :
  (5 <= length (snd g))%nat ->
  5 <= box_count (box_for g) /\
  (exists m, median (box_for g) = fin m) /\
  fle (q1 (box_for g)) (median (box_for g)) = true /\
  fle (median (box_for g)) (q3 (box_for g)) = true.
Proof.
  intros Hg. unfold box_for. simpl.
  set (p := sort_prices (map precio_por_tableta (snd g))).
  assert (Hp : (3 <= length p)%nat).
  { unfold p, sort_prices. rewrite sort_with_length, length_map. lia. }
  destruct (quartiles_ordered p Hp) as (a & m & b & -> & -> & -> & Ham & Hmb).
  split; [lia|]. split; [eauto|]. simpl. by rewrite !Qle_bool_iff.
Qed.

Lemma slice_to_sorted {A : Type} (R : A -> A -> Prop) (n : Z) (l : list A) :
  StronglySorted R l -> StronglySorted R (slice_to n l).
Proof.
  intros Hs. unfold slice_to.
  destruct (0 <=? n).
  - rewrite <- (take_drop (Z.to_nat n) l) in Hs. by apply StronglySorted_app_1_l in Hs.
  - rewrite <- (take_drop (length l - Z.to_nat (- n)) l) in Hs.
    by apply StronglySorted_app_1_l in Hs.
Qed.

(** C7: on a loaded dataset and for a column of the price table, the
    boxplot operation returns a list of boxes (small groups are left out
    without an error); each box stands for the rows of the view with its
    key, five at least, and has its first quartile at most its median and
    its median at most its third quartile; the boxes are in order of
    non-increasing median; and for a limit that is not negative there are
    at most that many, the first ones of the list of the boxes of all
    groups of five rows or more in that order. *)
Theorem boxplot_groups (h : heap) (self_df : loc) (d : DataFrame) (group_by : string)
  (ai : option string) (lim : Z) :
  h !! self_df = Some d ->
  loaded d ->
  group_by ∈ base_columns ->
  exists v bs h',
    filter_view d (by_ingredient ai None) = Ok v /\
    get_boxplot_data self_df group_by ai lim h = (Ok (Boxes bs), h') /\
    (forall b, b ∈ bs ->
       5 <= box_count b /\
       box_count b = Z.of_nat (length (filter
         (fun r => value_eqb (getitem r group_by) (box_name b) = true) (rows v))) /\
       fle (q1 b) (median b) = true /\ fle (median b) (q3 b) = true) /\
    StronglySorted median_ge bs /\
    (0 <= lim -> Z.of_nat (length bs) <= lim) /\
    exists groups every,
      groupby group_by v = Ok groups /\
      every ≡ₚ map box_for (filter (fun g => (length (snd g) <? 5)%nat = false) groups) /\
      StronglySorted median_ge every /\
      bs = slice_to lim every /\
      (0 <= lim -> bs = take (Z.to_nat lim) every).
Proof.
  intros Hd Hld Hcol.
  destruct (get_boxplot_data_run h self_df d group_by ai lim Hd) as (h1 & _ & Hrun).
  destruct (filter_view_total d (by_ingredient ai None) Hld) as (v & Hv & Hlv).
  rewrite Hv in Hrun. simpl in Hrun. unfold boxplot_of in Hrun.
  rewrite (loaded_has_column v group_by Hlv Hcol) in Hrun.
  unfold groupby in Hrun. rewrite (loaded_has_column v group_by Hlv Hcol) in Hrun.
  simpl in Hrun.
  set (groups := map (fun k => (k, filter (fun r => value_eqb (getitem r group_by) k = true)
                                     (rows v))) (group_keys group_by (rows v))) in *.
  set (kept := filter (fun g : value * list Row => (length (snd g) <? 5)%nat = false) groups)
    in *.
  rewrite (traverse_Ok_map (box_of v) box_for) in Hrun
    by (intros g _; by apply box_of_loaded).
  simpl in Hrun.
  set (le := fun x y : box => fle (median y) (median x)) in *.
  set (Good := fun b : box =>
    (exists m, median b = fin m) /\
    5 <= box_count b /\
    box_count b = Z.of_nat (length (filter
      (fun r => value_eqb (getitem r group_by) (box_name b) = true) (rows v))) /\
    fle (q1 b) (median b) = true /\ fle (median b) (q3 b) = true).
  assert (Hgood : Forall Good (map box_for kept)).
  { apply Forall_forall. intros b Hb. change (map ?f ?l) with (f <$> l) in Hb.
    apply list_elem_of_fmap in Hb as (g & -> & Hg).
    apply list_elem_of_filter in Hg as [Hsize Hg].
    apply Nat.ltb_ge in Hsize.
    destruct (box_for_sound g Hsize) as (H5 & Hm & Hq1 & Hq3).
    unfold groups in Hg. change (map ?f ?l) with (f <$> l) in Hg.
    apply list_elem_of_fmap in Hg as (k & -> & _).
    repeat split; done. }
  assert (Hsorted : StronglySorted median_ge (sort_with le (map box_for kept))).
  { apply (sort_with_sorted le (fun b => exists m, median b = fin m)).
    - intros x y [mx Hx] [my Hy]. unfold le. rewrite Hx, Hy. simpl. intros Hf.
      apply Qle_bool_iff. destruct (Qlt_le_dec mx my) as [Hlt|Hle]; [by apply Qlt_le_weak|].
      apply Qle_bool_iff in Hle. congruence.
    - intros x y z [mx Hx] [my Hy] [mz Hz]. unfold le. rewrite Hx, Hy, Hz. simpl.
      rewrite !Qle_bool_iff. intros H1 H2. by eapply Qle_trans.
    - eapply Forall_impl; [exact Hgood|]. by intros b [Hm _]. }
  exists v, (slice_to lim (sort_with le (map box_for kept))), h1.
  split; [done|]. split; [exact Hrun|]. split; [|split; [|split]].
  - intros b Hb. apply slice_to_elem in Hb.
    pose proof (sort_with_Forall le Good _ Hgood) as Hall.
    rewrite Forall_forall in Hall. by destruct (Hall b Hb) as (_ & ? & ? & ? & ?).
  - by apply slice_to_sorted.
  - apply slice_to_length_le.
  - exists groups, (sort_with le (map box_for kept)).
    split; [unfold groupby; by rewrite (loaded_has_column v group_by Hlv Hcol)|].
    split; [apply sort_with_perm|]. split; [done|]. split; [done|].
    intros Hlim. unfold slice_to. by rewrite (proj2 (Z.leb_le 0 lim) Hlim).
Qed.

(** * Clustering *)

(** What the development assumes of the fitted k-means model: one label
    per sample and one centre per cluster. *)
Hypothesis lloyd_shape : forall k X,
  1 <= k <= Z.of_nat (length X) ->
  length (labels_ (lloyd k X)) = length X /\
  length (cluster_centers_ (lloyd k X)) = Z.to_nat k.

Lemma traverse_total {A B : Type} (f : A -> outcome B) (l : list A) :
  (forall x, x ∈ l -> exists y, f x = Ok y) ->
  exists ys, traverse f l = Ok ys /\ length ys = length l.
Proof.
  induction l as [|x l IH]; intros H; simpl; [by exists []|].
  destruct (H x) as [y ->]; [by left|]. simpl.
  destruct IH as (ys & -> & Hlen); [intros z Hz; apply H; by right|].
  simpl. exists (y :: ys). split; [done|]. simpl. by rewrite Hlen.
Qed.

Lemma scaler_nonempty X :
  X <> [] -> exists sc, StandardScaler_fit_transform X = Ok sc /\
                        length (X_scaled sc) = length X.
Proof.
  intros HX. unfold StandardScaler_fit_transform. destruct X as [|x X]; [done|].
  eexists. split; [reflexivity|]. simpl. by rewrite length_map.
Qed.

Lemma with_column_columns c vals v :
  loaded v -> c ∉ base_columns ->
  columns (with_column c vals v) = (base_columns ++ [c])%list.
Proof.
  intros Hv Hc. unfold with_column, has_column. simpl. rewrite Hv.
  by rewrite bool_decide_eq_false_2.
Qed.

Lemma set_cluster_cell z r : cluster (set_cell "cluster" (Some z) r) = Some z.
Proof. reflexivity. Qed.

Lemma cluster_report_total v' km sc k :
  columns v' = (base_columns ++ ["cluster"])%list ->
  (forall r, r ∈ rows v' -> exists z, cluster r = Some z) ->
  length (cluster_centers_ km) = Z.to_nat k ->
  exists r, cluster_report v' km sc k = Ok r /\
            length (cluster_stats r) = Z.to_nat k.
Proof.
  intros Hcols Hrows Hcent. unfold cluster_report.
  destruct (traverse_total (cluster_stat_of v' km sc) (range k)) as (cs & -> & Hcs).
  { intros i Hi. unfold range in Hi. change (map ?f ?l) with (f <$> l) in Hi.
    apply list_elem_of_fmap in Hi as (j & -> & Hj). apply elem_of_seq in Hj as [_ Hj].
    unfold cluster_stat_of, getitem_mask, has_column. rewrite Hcols.
    rewrite bool_decide_eq_true_2 by (by apply (bool_decide_unpack _)). simpl.
    unfold prices, has_column. simpl. rewrite ?Hcols. simpl.
    rewrite Nat2Z.id.
    destruct (lookup_lt_is_Some_2 (cluster_centers_ km) j ltac:(lia)) as [c Hc].
    rewrite (index_lookup _ _ _ Hc). simpl. eauto. }
  destruct (traverse_total sample_of (rows (head 100 v'))) as (ds & Hds & _).
  { intros r Hr. simpl in Hr. apply slice_to_elem in Hr.
    destruct (Hrows r Hr) as [z Hz]. unfold sample_of. rewrite Hz. simpl. eauto. }
  simpl in Hds |- *. rewrite Hds. simpl. eexists. split; [reflexivity|]. simpl.
  rewrite Hcs. unfold range. by rewrite length_map, length_seq.
Qed.

(** C8: on a loaded dataset, with the view that the filter yields, the
    clustering operation raises a [ValueError] of the checks that precede
    the centroid refinement when the number of clusters is below one or
    above the size of the view, and returns a result, with one entry per
    cluster, when the number lies between one and the size of the view. *)
Theorem clustering_checks_cluster_count (h : heap) (self_df : loc) (d : DataFrame)
  (ai : option string) (k : Z) :
  h !! self_df = Some d ->
  loaded d ->
  exists v,
    filter_view d (by_ingredient ai None) = Ok v /\
    (k < 1 \/ Z.of_nat (length (rows v)) < k ->
       exists h', get_clustering self_df ai k h = (Raise (clustering_error k v), h')) /\
    (1 <= k <= Z.of_nat (length (rows v)) ->
       exists r h', get_clustering self_df ai k h = (Ok r, h') /\
                    length (cluster_stats r) = Z.to_nat k).
Proof.
  intros Hd Hld.
  destruct (get_clustering_run h self_df d ai k Hd) as (h1 & _ & Hrun).
  destruct (filter_view_total d (by_ingredient ai None) Hld) as (v & Hv & Hlv).
  exists v. split; [done|]. rewrite Hv in Hrun. simpl in Hrun.
  unfold clustering_of in Hrun. rewrite (loaded_prices v Hlv) in Hrun. simpl in Hrun.
  split.
  - intros Hk. exists h1. rewrite Hrun. f_equal. unfold clustering_error.
    destruct (rows v) as [|r rs] eqn:Hrows; [done|].
    destruct (scaler_nonempty (map precio_por_tableta (r :: rs)) ltac:(done))
      as (sc & -> & Hsc).
    simpl. unfold KMeans_fit_predict. rewrite Hsc, length_map.
    destruct (Z.ltb_spec k 1); [done|].
    destruct (Z.ltb_spec (Z.of_nat (length (r :: rs))) k); [done | lia].
  - intros Hk.
    assert (Hne : map precio_por_tableta (rows v) <> []).
    { destruct (rows v); [simpl in Hk; lia | done]. }
    destruct (scaler_nonempty _ Hne) as (sc & Hsc & Hlen).
    rewrite Hsc in Hrun. simpl in Hrun. rewrite length_map in Hlen.
    unfold KMeans_fit_predict in Hrun. rewrite Hlen in Hrun.
    destruct (Z.ltb_spec k 1); [lia|].
    destruct (Z.ltb_spec (Z.of_nat (length (rows v))) k); [lia|].
    simpl in Hrun.
    destruct (lloyd_shape k (X_scaled sc) ltac:(lia)) as [Hlab Hcent].
    unfold assign in Hrun. rewrite length_map, Hlab, Hlen, Nat.eqb_refl in Hrun.
    simpl in Hrun.
    destruct (cluster_report_total
                (with_column "cluster" (map Some (labels_ (lloyd k (X_scaled sc)))) v)
                (lloyd k (X_scaled sc)) sc k) as (r & Hr & Hcs).
    + apply with_column_columns; [done|]. by apply (bool_decide_unpack _).
    + intros r Hr. simpl in Hr. apply elem_of_zip_with in Hr as (o & r0 & -> & Ho & _).
      change (map ?f ?l) with (f <$> l) in Ho.
      apply list_elem_of_fmap in Ho as (z & -> & _). by exists z.
    + done.
    + exists r, h1. by rewrite Hrun, Hr.
Qed.

(** * Anomaly detection *)

(** What the development assumes of the square root and of the fitted
    isolation forest: a root is not negative; there is one prediction per
    sample, and it is [1] or [-1]. *)
Hypothesis sqrt_nonneg : forall x, (0 <= sqrt x)%Q.

Hypothesis isolation_labels : forall c X,
  length (isolation c X) = length X /\
  Forall (fun z => z = 1 \/ z = -1) (isolation c X).

Lemma rows_relabel (pred : list Z) (rs : list Row) :
  zip_with (set_cell "anomaly")
    (map (fun r => anomaly r ≫= map_label)
         (zip_with (set_cell "anomaly") (map Some pred) rs))
    (zip_with (set_cell "anomaly") (map Some pred) rs)
  = zip_with relabel pred rs.
Proof.
  revert rs. induction pred as [|z pred IH]; intros [|r rs]; simpl; try done.
  f_equal. apply IH.
Qed.

Lemma relabel_price z r : precio_por_tableta (relabel z r) = precio_por_tableta r.
Proof. reflexivity. Qed.

Lemma relabel_anomaly z r : getitem (relabel z r) "anomaly" = of_int (map_label z).
Proof. reflexivity. Qed.

(** The rows flagged [0] are those predicted [1], and the rows flagged [1]
    those predicted [-1]. *)
Lemma flagged_prices (pred : list Z) (rs : list Row) (flag z : Z) :
  (flag = 0 /\ z = 1) \/ (flag = 1 /\ z = -1) ->
  Forall (fun z => z = 1 \/ z = -1) pred ->
  map precio_por_tableta
    (filter (fun r => value_eqb (getitem r "anomaly") (VNum (inject_Z flag)) = true)
            (zip_with relabel pred rs))
  = map (fun zr => precio_por_tableta (snd zr))
        (filter (fun zr : Z * Row => fst zr = z) (zip pred rs)).
Proof.
  intros Hfz Hpred. revert rs.
  induction Hpred as [|y pred Hy Hpred IH]; intros [|r rs]; simpl; try done.
  rewrite !filter_cons, relabel_anomaly. simpl.
  destruct Hfz as [[-> ->] | [-> ->]], Hy as [-> | ->]; simpl;
    rewrite ?decide_True by done; rewrite ?decide_False by done;
    simpl; by rewrite IH.
Qed.

Lemma predicted_split (pred : list Z) (v : DataFrame) :
  length pred = length (rows v) ->
  Forall (fun z => z = 1 \/ z = -1) pred ->
  (length (prices_predicted 1 pred v) + length (prices_predicted (-1) pred v))%nat
  = length (rows v).
Proof.
  unfold prices_predicted. rewrite !length_map. generalize (rows v). intros rs Hlen Hpred.
  revert rs Hlen. induction Hpred as [|y pred Hy Hpred IH]; intros [|r rs] Hlen;
    simpl in *; try done.
  rewrite !filter_cons. simpl.
  destruct Hy as [-> | ->]; rewrite ?decide_True by done; rewrite ?decide_False by done;
    simpl; rewrite <- (IH rs) by lia; lia.
Qed.

Lemma thresholds_ordered (normal : list Q) :
  (2 <= length normal)%nat ->
  fle (fsub (series_mean normal) (fmul (fin 2) (series_std normal)))
      (fadd (series_mean normal) (fmul (fin 2) (series_std normal))) = true.
Proof.
  intros Hn. unfold series_std, series_mean.
  destruct (Nat.ltb_spec (length normal) 2) as [|_]; [lia|].
  destruct normal as [|x normal]; [simpl in Hn; lia|]. simpl.
  apply Qle_bool_iff.
  pose proof (sqrt_nonneg (sq_dev (x :: normal) / (Qlen (x :: normal) - 1))) as Hs.
  set (s := sqrt _) in *. set (m := (_ / _)%Q). lra.
Qed.

Lemma is_flagged r :
  value_eqb (getitem r "anomaly") (VNum 1) = true -> bool_of_cell (anomaly r) = true.
Proof.
  change (getitem r "anomaly") with (of_int (anomaly r)).
  destruct (anomaly r) as [z|]; simpl; [|discriminate].
  intros Hz. apply Qeq_bool_iff in Hz. unfold Qeq in Hz. simpl in Hz.
  destruct (Z.eqb_spec z 0); [lia | done].
Qed.

(** The result of [get_anomalies] on a loaded, non-empty view and a valid
    contamination. *)
Lemma anomalies_of_spec (v : DataFrame) (c : Q) :
  loaded v -> rows v <> [] -> (0 < c <= 1 # 2)%Q ->
  exists sc r,
    StandardScaler_fit_transform (map precio_por_tableta (rows v)) = Ok sc /\
    anomalies_of c v = Ok r /\
    let pred := isolation c (X_scaled sc) in
    let normal := prices_predicted 1 pred v in
    let flagged := prices_predicted (-1) pred v in
    (length normal + length flagged)%nat = length (rows v) /\
    normal_count (stats r) = Z.of_nat (length normal) /\
    anomaly_count (stats r) = Z.of_nat (length flagged) /\
    length (anomaly_data r) = length flagged /\
    (forall a, a ∈ anomaly_data r -> is_anomaly a = true) /\
    price_threshold_upper (stats r) =
      (if (0 <? length normal)%nat
       then fadd (series_mean normal) (fmul (fin 2) (series_std normal)) else fin 0) /\
    price_threshold_lower (stats r) =
      (if (0 <? length normal)%nat
       then fsub (series_mean normal) (fmul (fin 2) (series_std normal)) else fin 0).
Proof.
  intros Hv Hne [Hc0 Hc1].
  assert (HX : map precio_por_tableta (rows v) <> []) by (by destruct (rows v)).
  destruct (scaler_nonempty _ HX) as (sc & Hsc & Hlen). rewrite length_map in Hlen.
  destruct (isolation_labels c (X_scaled sc)) as [Hplen Hpred].
  set (pred := isolation c (X_scaled sc)) in *.
  assert (Hvalid : IsolationForest_fit_predict c (X_scaled sc) = Ok pred).
  { unfold IsolationForest_fit_predict.
    destruct (Qle_bool c 0) eqn:E0; [apply Qle_bool_iff in E0; lra|].
    apply Qle_bool_iff in Hc1. by rewrite Hc1. }
  set (v1 := with_column "anomaly" (map Some pred) v).
  set (v2 := with_column "anomaly" (map (fun r => anomaly r ≫= map_label) (rows v1)) v1).
  assert (Hcols1 : columns v1 = (base_columns ++ ["anomaly"])%list).
  { apply with_column_columns; [done|]. by apply (bool_decide_unpack _). }
  assert (Hcols2 : columns v2 = (base_columns ++ ["anomaly"])%list).
  { unfold v2. unfold with_column at 1. cbn [columns]. unfold has_column.
    rewrite Hcols1. by rewrite bool_decide_eq_true_2 by (by apply (bool_decide_unpack _)). }
  assert (Hrows2 : rows v2 = zip_with relabel pred (rows v)) by apply rows_relabel.
  assert (Hlab : labelled c v = Ok v2).
  { unfold labelled. rewrite (loaded_prices v Hv). simpl. rewrite Hsc. simpl.
    rewrite Hvalid. simpl.
    assert (Ha1 : assign "anomaly" (map Some pred) v = Ok v1).
    { unfold assign. by rewrite length_map, Hplen, Hlen, Nat.eqb_refl. }
    rewrite Ha1. simpl. unfold assign. by rewrite length_map, Nat.eqb_refl. }
  assert (Hmask : forall flag,
    getitem_mask "anomaly" (fun x => value_eqb x (VNum flag)) v2
    = Ok (mkDF (columns v2)
            (filter (fun r => value_eqb (getitem r "anomaly") (VNum flag) = true)
                    (rows v2)))).
  { intros flag. unfold getitem_mask, has_column. rewrite Hcols2.
    by rewrite bool_decide_eq_true_2 by (by apply (bool_decide_unpack _)). }
  assert (Hprices : forall rs,
    prices (mkDF (columns v2) rs) = Ok (map precio_por_tableta rs)).
  { intros rs. unfold prices, has_column. cbn [columns rows]. rewrite Hcols2.
    by rewrite bool_decide_eq_true_2 by (by apply (bool_decide_unpack _)). }
  assert (Hnormal :
    map precio_por_tableta
      (filter (fun r => value_eqb (getitem r "anomaly") (VNum 0) = true) (rows v2))
    = prices_predicted 1 pred v).
  { rewrite Hrows2. by apply (flagged_prices pred (rows v) 0 1); [left|]. }
  assert (Hflagged :
    map precio_por_tableta
      (filter (fun r => value_eqb (getitem r "anomaly") (VNum 1) = true) (rows v2))
    = prices_predicted (-1) pred v).
  { rewrite Hrows2. by apply (flagged_prices pred (rows v) 1 (-1)); [right|]. }
  exists sc. eexists. split; [done|]. split.
  { unfold anomalies_of. rewrite Hlab. cbn [mbind outcome_bind]. unfold anomaly_report.
    rewrite !Hmask. cbn [mbind outcome_bind]. rewrite !Hprices.
    cbn [mbind outcome_bind rows]. rewrite Hnormal, Hflagged. reflexivity. }
  cbn [stats anomaly_data normal_count anomaly_count price_threshold_upper
       price_threshold_lower]. fold pred. split; [apply predicted_split; [congruence | done]|].
  split; [done|]. split; [done|]. split; [|split; [|done]].
  - rewrite length_map. rewrite <- Hflagged, length_map.
    apply Permutation_length.
    apply (sort_values_perm "precio_por_tableta" false
             (mkDF (columns v2) (filter (fun r => value_eqb (getitem r "anomaly") (VNum 1) = true)
                                        (rows v2)))).
  - intros a Ha. change (map ?f ?l) with (f <$> l) in Ha.
    apply list_elem_of_fmap in Ha as (r & -> & Hr).
    rewrite (sort_values_perm "precio_por_tableta" false
               (mkDF (columns v2) (filter (fun r => value_eqb (getitem r "anomaly") (VNum 1) = true)
                                          (rows v2)))) in Hr.
    simpl in Hr. apply list_elem_of_filter in Hr as [Hr _]. simpl. by apply is_flagged.
Qed.

(** C9, as amended: on a loaded dataset, a non-empty view and a valid
    contamination, the thresholds in the statistics are the mean price of
    the normal subset plus and minus twice its sample standard deviation,
    both 0 when the normal subset is empty; and the lower threshold is at
    most the upper one whenever the normal subset has two members or
    more. *)
Theorem anomaly_thresholds (h : heap) (self_df : loc) (d : DataFrame)
  (ai : option string) (c : Q) :
  h !! self_df = Some d ->
  loaded d ->
  exists v,
    filter_view d (by_ingredient ai None) = Ok v /\
    (rows v <> [] -> (0 < c <= 1 # 2)%Q ->
     exists sc r h',
       StandardScaler_fit_transform (map precio_por_tableta (rows v)) = Ok sc /\
       get_anomalies self_df ai c h = (Ok r, h') /\
       let normal := prices_predicted 1 (isolation c (X_scaled sc)) v in
       (normal = [] ->
          price_threshold_upper (stats r) = fin 0 /\
          price_threshold_lower (stats r) = fin 0) /\
       (normal <> [] ->
          price_threshold_upper (stats r)
          = fadd (series_mean normal) (fmul (fin 2) (series_std normal)) /\
          price_threshold_lower (stats r)
          = fsub (series_mean normal) (fmul (fin 2) (series_std normal))) /\
       ((2 <= length normal)%nat ->
          fle (price_threshold_lower (stats r)) (price_threshold_upper (stats r)) = true)).
Proof.
  intros Hd Hld.
  destruct (get_anomalies_run h self_df d ai c Hd) as (h1 & _ & Hrun).
  destruct (filter_view_total d (by_ingredient ai None) Hld) as (v & Hv & Hlv).
  exists v. split; [done|]. intros Hne Hc.
  destruct (anomalies_of_spec v c Hlv Hne Hc)
    as (sc & r & Hsc & Hr & _ & _ & _ & _ & _ & Hup & Hlo).
  exists sc, r, h1. split; [done|]. split; [by rewrite Hrun, Hv; simpl; rewrite Hr|].
  cbn zeta in *. set (normal := prices_predicted 1 (isolation c (X_scaled sc)) v) in *.
  rewrite Hup, Hlo. split; [|split].
  - by intros ->.
  - intros Hn. by destruct normal.
  - intros Hn. destruct (Nat.ltb_spec 0 (length normal)); [|lia].
    by apply thresholds_ordered.
Qed.

(** C10: on a loaded dataset, a non-empty view and a valid contamination,
    the anomaly operation returns a result in which the count of normal
    records plus the count of anomalous records is the size of the view,
    the list of anomaly records has as many entries as the anomalous count,
    and every entry carries a true flag; on an empty view the operation
    raises and there is no result. *)
Theorem anomalies_partition (h : heap) (self_df : loc) (d : DataFrame)
  (ai : option string) (c : Q) :
  h !! self_df = Some d ->
  loaded d ->
  exists v,
    filter_view d (by_ingredient ai None) = Ok v /\
    (rows v <> [] -> (0 < c <= 1 # 2)%Q ->
     exists r h',
       get_anomalies self_df ai c h = (Ok r, h') /\
       normal_count (stats r) + anomaly_count (stats r) = Z.of_nat (length (rows v)) /\
       Z.of_nat (length (anomaly_data r)) = anomaly_count (stats r) /\
       forall a, a ∈ anomaly_data r -> is_anomaly a = true) /\
    (rows v = [] -> exists e h', get_anomalies self_df ai c h = (Raise e, h')).
Proof.
  intros Hd Hld.
  destruct (get_anomalies_run h self_df d ai c Hd) as (h1 & _ & Hrun).
  destruct (filter_view_total d (by_ingredient ai None) Hld) as (v & Hv & Hlv).
  exists v. split; [done|]. rewrite Hv in Hrun. simpl in Hrun. split.
  - intros Hne Hc.
    destruct (anomalies_of_spec v c Hlv Hne Hc)
      as (sc & r & _ & Hr & Hsplit & Hn & Ha & Hdata & Hflag & _).
    exists r, h1. split; [by rewrite Hrun, Hr|]. cbn zeta in *.
    rewrite Hn, Ha, Hdata. split; [lia|]. split; [done|]. exact Hflag.
  - intros Hempty. eexists _, h1. rewrite Hrun.
    unfold anomalies_of, labelled. rewrite (loaded_prices v Hlv), Hempty. reflexivity.
Qed.

(** * The view in closed form *)

Lemma frame_eta (u : DataFrame) : mkDF (columns u) (rows u) = u.
Proof. by destruct u. Qed.

Lemma eq_ok_cell (arg cell : option string) :
  truthy_str arg = true ->
  value_eqb (of_str cell) (VStr (str_arg arg)) = eq_ok arg cell.
Proof.
  intros Ht. unfold eq_ok. rewrite Ht. pose proof (truthy_str_inv arg Ht) as Harg.
  destruct cell as [s|]; simpl.
  - destruct (String.eqb_spec s (str_arg arg)) as [->|Hne].
    + symmetry. apply bool_decide_eq_true_2. by rewrite Harg at 2.
    + symmetry. apply bool_decide_eq_false_2. rewrite Harg. congruence.
  - symmetry. apply bool_decide_eq_false_2. by rewrite Harg.
Qed.

(** One equality step of the filter, on rows. *)
Lemma eq_step_rows (arg : option string) (field : Row -> option string) c cols l :
  c ∈ cols ->
  (forall r, getitem r c = of_str (field r)) ->
  (if truthy_str arg
   then getitem_mask c (fun x => value_eqb x (VStr (str_arg arg))) (mkDF cols l)
   else Ok (mkDF cols l))
  = Ok (mkDF cols (filter (fun r => eq_ok arg (field r) = true) l)).
Proof.
  intros Hc Hg. destruct (truthy_str arg) eqn:Ht.
  - unfold getitem_mask, has_column. simpl. rewrite bool_decide_eq_true_2 by done.
    do 2 f_equal. apply list_filter_iff. intros r.
    by rewrite Hg, eq_ok_cell.
  - do 2 f_equal. symmetry. apply filter_all. intros r _. unfold eq_ok. by rewrite Ht.
Qed.

Lemma price_step_rows (bound : option Q) (p : Q -> Q -> bool) (q : value -> Q -> bool)
  cols l :
  "precio_por_tableta" ∈ cols ->
  (forall r b, q (getitem r "precio_por_tableta") b = p (precio_por_tableta r) b) ->
  match bound with
  | Some b => getitem_mask "precio_por_tableta" (fun x => q x b) (mkDF cols l)
  | None => Ok (mkDF cols l)
  end
  = Ok (mkDF cols (filter (fun r => match bound with
                                    | Some b => p (precio_por_tableta r) b
                                    | None => true
                                    end = true) l)).
Proof.
  intros Hc Hq. destruct bound as [b|].
  - unfold getitem_mask, has_column. simpl. rewrite bool_decide_eq_true_2 by done.
    do 2 f_equal. apply list_filter_iff. intros r. by rewrite Hq.
  - do 2 f_equal. symmetry. by apply filter_all.
Qed.

Lemma filter_and {A : Type} (f g : A -> bool) (l : list A) :
  filter (fun x => g x = true) (filter (fun x => f x = true) l)
  = filter (fun x => (f x && g x)%bool = true) l.
Proof.
  rewrite list_filter_filter. apply list_filter_iff. intros x.
  rewrite andb_true_iff. tauto.
Qed.

(** The view of a loaded dataset: the rows that pass, sorted, limited. *)
Lemma filter_view_closed (d : DataFrame) (a : criteria) :
  loaded d ->
  filter_view d a
  = Ok (mkDF (columns d) (limited a (ordered a (columns d) (matching a d)))).
Proof.
  intros Hd. unfold filter_view. rewrite <- (frame_eta d) at 1. rewrite Hd.
  cbn [mbind outcome_bind].
  rewrite (eq_step_rows _ principio_activo) by (by apply (bool_decide_unpack _) || done).
  cbn [mbind outcome_bind].
  rewrite (eq_step_rows _ fabricante) by (by apply (bool_decide_unpack _) || done).
  cbn [mbind outcome_bind].
  rewrite (eq_step_rows _ concentracion) by (by apply (bool_decide_unpack _) || done).
  cbn [mbind outcome_bind].
  rewrite (eq_step_rows _ canal) by (by apply (bool_decide_unpack _) || done).
  cbn [mbind outcome_bind].
  rewrite (eq_step_rows _ unidad_de_dispensacion)
    by (by apply (bool_decide_unpack _) || done).
  cbn [mbind outcome_bind].
  rewrite (price_step_rows (min_price a) (fun x b => Qle_bool b x)
             (fun v b => value_leb (VNum b) v))
    by (by apply (bool_decide_unpack _) || done).
  cbn [mbind outcome_bind].
  rewrite (price_step_rows (max_price a) (fun x b => Qle_bool x b)
             (fun v b => value_leb v (VNum b)))
    by (by apply (bool_decide_unpack _) || done).
  cbn [mbind outcome_bind].
  rewrite !filter_and.
  rewrite (list_filter_iff _ (fun r => keeps a r = true))
    by (intros r; unfold keeps; rewrite !andb_true_iff; tauto).
  fold (matching a d). unfold has_column. cbn [columns]. unfold limited, ordered.
  destruct (bool_decide (sort_by a ∈ base_columns)); cbn [mbind outcome_bind];
    destruct (truthy_int (limit a)); reflexivity.
Qed.

Lemma filter_data_returns (h : heap) (self_df : loc) (d : DataFrame) (a : criteria) :
  h !! self_df = Some d ->
  loaded d ->
  exists l h',
    filter_data self_df a h = (Ok l, h') /\
    h' !! l = Some (mkDF (columns d) (limited a (ordered a (columns d) (matching a d)))).
Proof.
  intros Hd Hld. destruct (filter_data_runs h self_df d a Hd) as (h1 & _ & Hrun).
  rewrite (filter_view_closed d a Hld) in Hrun. destruct Hrun as (l & Hrun & _ & Hl).
  by exists l, h1.
Qed.

Lemma ordered_perm a cols l : ordered a cols l ≡ₚ l.
Proof.
  unfold ordered. destruct (bool_decide _); [|done].
  apply (sort_values_perm _ _ (mkDF cols l)).
Qed.

(** X1: without a limit (none, or zero), the view returned by the filter
    holds exactly the rows of the dataset that pass every criterion in
    force, each as often as in the dataset, in some order. *)
Theorem filter_data_exact (h : heap) (self_df : loc) (d : DataFrame) (a : criteria) :
  h !! self_df = Some d ->
  loaded d ->
  truthy_int (limit a) = false ->
  exists l h' v,
    filter_data self_df a h = (Ok l, h') /\ h' !! l = Some v /\
    rows v ≡ₚ matching a d.
Proof.
  intros Hd Hld Hlim. destruct (filter_data_returns h self_df d a Hd Hld) as (l & h' & Hrun & Hl).
  eexists l, h', _. split; [done|]. split; [done|]. simpl.
  unfold limited. rewrite Hlim. apply ordered_perm.
Qed.

(** X2: when the sort key is not a column of the dataset, sorting is
    skipped without an error: the view holds the passing rows in dataset
    order, cut by the limit. *)
Theorem filter_data_unknown_sort_key (h : heap) (self_df : loc) (d : DataFrame)
  (a : criteria) :
  h !! self_df = Some d ->
  loaded d ->
  sort_by a ∉ base_columns ->
  exists l h' v,
    filter_data self_df a h = (Ok l, h') /\ h' !! l = Some v /\
    rows v = limited a (matching a d).
Proof.
  intros Hd Hld Hkey. destruct (filter_data_returns h self_df d a Hd Hld) as (l & h' & Hrun & Hl).
  eexists l, h', _. split; [done|]. split; [done|]. simpl.
  unfold ordered. rewrite Hld. by rewrite bool_decide_eq_false_2.
Qed.

(** X3: with a positive limit the view has the limit's number of rows, or
    all passing rows when there are fewer; with a negative limit it lacks
    that many of the passing rows, counted from the end of the order. *)
Theorem filter_data_size (h : heap) (self_df : loc) (d : DataFrame) (a : criteria)
  (n : Z) :
  h !! self_df = Some d ->
  loaded d ->
  limit a = Some n ->
  exists l h' v,
    filter_data self_df a h = (Ok l, h') /\ h' !! l = Some v /\
    (0 < n -> Z.of_nat (length (rows v)) = Z.min n (Z.of_nat (length (matching a d)))) /\
    (n < 0 -> Z.of_nat (length (rows v)) = Z.max 0 (Z.of_nat (length (matching a d)) + n)).
Proof.
  intros Hd Hld Hlim. destruct (filter_data_returns h self_df d a Hd Hld) as (l & h' & Hrun & Hl).
  eexists l, h', _. split; [done|]. split; [done|]. simpl.
  pose proof (Permutation_length (ordered_perm a (columns d) (matching a d))) as Hlen.
  unfold limited, slice_to. rewrite Hlim. simpl. split; intros Hn.
  - destruct (Z.eqb_spec n 0); [lia|]. simpl.
    destruct (Z.leb_spec 0 n); [|lia]. rewrite length_take, Hlen. lia.
  - destruct (Z.eqb_spec n 0); [lia|]. simpl.
    destruct (Z.leb_spec 0 n); [lia|]. rewrite length_take, Hlen. lia.
Qed.

Lemma sort_values_by_price (asc : bool) cols (l : list Row) :
  StronglySorted (fun r1 r2 =>
      if asc then (precio_por_tableta r1 <= precio_por_tableta r2)%Q
      else (precio_por_tableta r2 <= precio_por_tableta r1)%Q)
    (rows (sort_values "precio_por_tableta" asc (mkDF cols l))).
Proof.
  unfold sort_values. cbn [rows columns].
  rewrite (filter_all (fun r => isna (getitem r "precio_por_tableta") = false)) by done.
  assert (Hnone : filter (fun r => isna (getitem r "precio_por_tableta") = true) l = []).
  { induction l as [|r l IH]; [done|]. by rewrite filter_cons, decide_False. }
  rewrite Hnone, app_nil_r.
  set (le := fun r1 r2 : Row =>
    if asc then value_leb (getitem r1 "precio_por_tableta") (getitem r2 "precio_por_tableta")
    else value_leb (getitem r2 "precio_por_tableta") (getitem r1 "precio_por_tableta")).
  assert (Htot : forall x y : Q, Qle_bool x y = false -> Qle_bool y x = true).
  { intros x y Hxy. apply Qle_bool_iff.
    destruct (Qlt_le_dec y x) as [Hlt|Hle]; [by apply Qlt_le_weak|].
    apply Qle_bool_iff in Hle. congruence. }
  assert (Htr : forall x y z : Q,
    Qle_bool x y = true -> Qle_bool y z = true -> Qle_bool x z = true).
  { intros x y z Hxy Hyz. apply Qle_bool_iff in Hxy, Hyz. apply Qle_bool_iff.
    by eapply Qle_trans. }
  assert (H : StronglySorted (fun a b => le a b = true) (sort_with le l)).
  { apply (sort_with_sorted le (fun _ => True)).
    - intros x y _ _. unfold le. destruct asc; apply Htot.
    - intros x y z _ _ _. unfold le. destruct asc; simpl; [apply Htr|].
      intros H1 H2. by apply (Htr _ _ _ H2 H1).
    - by apply Forall_forall. }
  induction H as [|x s Hs IH Hx]; constructor; [done|].
  eapply Forall_impl; [exact Hx|]. intros y Hy. unfold le in Hy.
  destruct asc; by apply Qle_bool_iff in Hy.
Qed.

(** X4: when the sort key is the price column (the default), the prices of
    the view ascend if the sort order, in whatever case, is "asc", and
    descend for any other order. *)
Theorem filter_data_sorted_by_price (h : heap) (self_df : loc) (d : DataFrame)
  (a : criteria) :
  h !! self_df = Some d ->
  loaded d ->
  sort_by a = "precio_por_tableta" ->
  exists l h' v,
    filter_data self_df a h = (Ok l, h') /\ h' !! l = Some v /\
    StronglySorted (fun r1 r2 =>
        if String.eqb (lower (sort_order a)) "asc"
        then (precio_por_tableta r1 <= precio_por_tableta r2)%Q
        else (precio_por_tableta r2 <= precio_por_tableta r1)%Q)
      (rows v).
Proof.
  intros Hd Hld Hkey. destruct (filter_data_returns h self_df d a Hd Hld) as (l & h' & Hrun & Hl).
  eexists l, h', _. split; [done|]. split; [done|]. simpl.
  assert (Hs : StronglySorted (fun r1 r2 =>
        if String.eqb (lower (sort_order a)) "asc"
        then (precio_por_tableta r1 <= precio_por_tableta r2)%Q
        else (precio_por_tableta r2 <= precio_por_tableta r1)%Q)
      (ordered a (columns d) (matching a d))).
  { unfold ordered. rewrite Hld, Hkey.
    rewrite bool_decide_eq_true_2 by (by apply (bool_decide_unpack _)).
    apply sort_values_by_price. }
  unfold limited. destruct (truthy_int (limit a)); [by apply slice_to_sorted | done].
Qed.

Lemma mask_without_columns c p d :
  columns d = [] -> getitem_mask c p d = Raise (KeyError c).
Proof.
  intros Hd. unfold getitem_mask, has_column. rewrite Hd.
  by rewrite bool_decide_eq_false_2 by apply not_elem_of_nil.
Qed.

Lemma filter_view_without_columns (d : DataFrame) (a : criteria) :
  columns d = [] ->
  filter_view d a =
    match first_criterion a with
    | Some c => Raise (KeyError c)
    | None => Ok (mkDF [] (limited a (rows d)))
    end.
Proof.
  intros Hd. unfold filter_view, first_criterion. cbn [mbind outcome_bind].
  destruct (truthy_str (active_ingredient a)).
  { by rewrite mask_without_columns. }
  cbn [mbind outcome_bind]. destruct (truthy_str (manufacturer a)).
  { by rewrite mask_without_columns. }
  cbn [mbind outcome_bind]. destruct (truthy_str (concentration a)).
  { by rewrite mask_without_columns. }
  cbn [mbind outcome_bind]. destruct (truthy_str (channel a)).
  { by rewrite mask_without_columns. }
  cbn [mbind outcome_bind]. destruct (truthy_str (dispensing_unit a)).
  { by rewrite mask_without_columns. }
  cbn [mbind outcome_bind]. destruct (min_price a) as [lo|].
  { by rewrite mask_without_columns. }
  cbn [mbind outcome_bind]. destruct (max_price a) as [hi|].
  { by rewrite mask_without_columns. }
  cbn [mbind outcome_bind]. unfold has_column. rewrite Hd.
  rewrite bool_decide_eq_false_2 by apply not_elem_of_nil.
  cbn [mbind outcome_bind]. unfold limited, head. rewrite Hd.
  destruct (truthy_int (limit a)); cbn [mbind outcome_bind]; [done|].
  by rewrite <- Hd, frame_eta.
Qed.

(** X5: on a frame without columns (the frame of a service whose file was
    not found) the filter raises a [KeyError] for the column of the first
    criterion in force, and when no criterion is in force it returns a view
    of the frame's rows, cut by the limit, without sorting. *)
Theorem filter_data_without_columns (h : heap) (self_df : loc) (d : DataFrame)
  (a : criteria) :
  h !! self_df = Some d ->
  columns d = [] ->
  match first_criterion a with
  | Some c => exists h', filter_data self_df a h = (Raise (KeyError c), h')
  | None =>
      exists l h', filter_data self_df a h = (Ok l, h') /\
                   h' !! l = Some (mkDF [] (limited a (rows d)))
  end.
Proof.
  intros Hd Hcols. destruct (filter_data_runs h self_df d a Hd) as (h1 & _ & Hrun).
  rewrite (filter_view_without_columns d a Hcols) in Hrun.
  destruct (first_criterion a) as [c|].
  - by exists h1.
  - destruct Hrun as (l & Hrun & _ & Hl). by exists l, h1.
Qed.

(** * More on the summary *)

Lemma view_loaded (d : DataFrame) (a : criteria) :
  loaded d -> filter_view d a = Ok (mkDF base_columns (view_rows a d)).
Proof. intros Hd. rewrite (filter_view_closed d a Hd). unfold view_rows. by rewrite Hd. Qed.

Lemma groupby_loaded c cols l :
  c ∈ cols -> groupby c (mkDF cols l) = Ok (groups_of c l).
Proof.
  intros Hc. unfold groupby, has_column. simpl. by rewrite bool_decide_eq_true_2.
Qed.

Lemma summary_of_loaded (l : list Row) (ai man : option string) :
  summary_of (mkDF base_columns l) ai man = Ok (summary_on l ai man).
Proof.
  unfold summary_of. rewrite loaded_prices by done. cbn [mbind outcome_bind rows].
  rewrite !groupby_loaded by (by apply (bool_decide_unpack _)).
  unfold summary_on. destruct (truthy_str ai), (truthy_str man); reflexivity.
Qed.

Lemma get_summary_stats_returns (h : heap) (self_df : loc) (d : DataFrame)
  (ai man : option string) :
  h !! self_df = Some d ->
  loaded d ->
  exists h', get_summary_stats self_df ai man h
             = (Ok (summary_on (view_rows (by_ingredient ai man) d) ai man), h').
Proof.
  intros Hd Hld. destruct (get_summary_stats_run h self_df d ai man Hd) as (h1 & _ & Hrun).
  exists h1. rewrite Hrun, (view_loaded d _ Hld). cbn [mbind outcome_bind].
  by rewrite summary_of_loaded.
Qed.

Lemma view_rows_length_50 (d : DataFrame) (ai man : option string) :
  Z.of_nat (length (view_rows (by_ingredient ai man) d))
  = Z.min 50 (Z.of_nat (length (matching (by_ingredient ai man) d))).
Proof.
  unfold view_rows, limited, slice_to. simpl.
  rewrite length_take, (Permutation_length (ordered_perm _ _ _)). lia.
Qed.

(** X6: the summary is computed on the view that the filter returns under
    its default limit: the count it reports is the number of passing rows
    of the dataset when these are 50 or fewer, and 50 otherwise. *)
Theorem summary_count_capped (h : heap) (self_df : loc) (d : DataFrame)
  (ai man : option string) :
  h !! self_df = Some d ->
  loaded d ->
  exists s h',
    get_summary_stats self_df ai man h = (Ok s, h') /\
    count s = Z.min 50 (Z.of_nat (length (matching (by_ingredient ai man) d))).
Proof.
  intros Hd Hld. destruct (get_summary_stats_returns h self_df d ai man Hd Hld) as (h' & Hrun).
  eexists _, h'. split; [exact Hrun|]. simpl. apply view_rows_length_50.
Qed.

Lemma foldl_qmin_in (x : Q) (l : list Q) : foldl qmin x l ∈ x :: l.
Proof.
  revert x. induction l as [|y l IH]; intros x; simpl; [by left|].
  specialize (IH (qmin x y)). apply elem_of_cons in IH as [-> | IH].
  - unfold qmin. destruct (Qle_bool x y); [by left | right; by left].
  - right. by right.
Qed.

Lemma foldl_qmax_in (x : Q) (l : list Q) : foldl qmax x l ∈ x :: l.
Proof.
  revert x. induction l as [|y l IH]; intros x; simpl; [by left|].
  specialize (IH (qmax x y)). apply elem_of_cons in IH as [-> | IH].
  - unfold qmax. destruct (Qle_bool x y); [right; by left | by left].
  - right. by right.
Qed.

(** The least and the greatest price of a series that is not empty. *)
Lemma series_extremes (p : list Q) :
  p <> [] ->
  exists lo hi, series_min p = fin lo /\ series_max p = fin hi /\
                forall x, x ∈ p -> (lo <= x <= hi)%Q.
Proof.
  destruct p as [|x p]; [done|]. intros _. eexists _, _.
  split; [reflexivity|]. split; [reflexivity|].
  destruct (foldl_qmin_le x p) as [Hm0 Hm], (foldl_qmax_ge x p) as [HM0 HM].
  intros y [->|Hy]%elem_of_cons; split; auto.
Qed.

Lemma sort_prices_elem (p : list Q) (i : nat) :
  (i < length p)%nat -> nth i (sort_prices p) 0%Q ∈ p.
Proof.
  intros Hi. unfold sort_prices.
  assert (H : nth i (sort_with Qle_bool p) 0%Q ∈ sort_with Qle_bool p).
  { apply list_elem_of_In, nth_In. by rewrite sort_with_length. }
  set (x := nth i (sort_with Qle_bool p) 0%Q) in *.
  by rewrite (sort_with_perm Qle_bool p) in H.
Qed.

Lemma median_between (lo hi : Q) (p : list Q) :
  p <> [] -> (forall x, x ∈ p -> (lo <= x <= hi)%Q) ->
  exists m, series_median p = fin m /\ (lo <= m <= hi)%Q.
Proof.
  intros Hne Hall.
  assert (Hn : (1 <= length p)%nat) by (destruct p; [done | simpl; lia]).
  destruct (median_bounds p Hn) as (m & Hm & H1 & H2).
  pose proof (half_bounds (length p - 1)). pose proof (half_bounds (length p)).
  destruct (Hall _ (sort_prices_elem p ((length p - 1) / 2) ltac:(lia))) as [Ha _].
  destruct (Hall _ (sort_prices_elem p (length p / 2) ltac:(lia))) as [_ Hb].
  exists m. split; [done|]. split; lra.
Qed.

Lemma view_rows_nonempty (d : DataFrame) (ai man : option string) :
  matching (by_ingredient ai man) d <> [] ->
  view_rows (by_ingredient ai man) d <> [].
Proof.
  intros Hne Hnil. apply (f_equal length) in Hnil.
  pose proof (view_rows_length_50 d ai man) as Hlen. rewrite Hnil in Hlen.
  destruct (matching (by_ingredient ai man) d); [done|]. simpl in Hlen. lia.
Qed.

Lemma sorted_prefix_le {A : Type} (R : A -> A -> Prop) (l1 l2 : list A) :
  StronglySorted R (l1 ++ l2) -> forall x y, x ∈ l1 -> y ∈ l2 -> R x y.
Proof.
  induction l1 as [|z l1 IH]; intros Hs x y Hx Hy; [by apply elem_of_nil in Hx|].
  simpl in Hs. apply StronglySorted_inv in Hs as [Hs Hz].
  apply elem_of_cons in Hx as [-> | Hx]; [|by apply IH].
  rewrite Forall_forall in Hz. apply Hz. apply elem_of_app. by right.
Qed.

(** The view of the analytics methods holds passing rows, the cheapest
    ones. *)
Lemma view_rows_cheapest (d : DataFrame) (ai man : option string) :
  loaded d ->
  (forall r, r ∈ view_rows (by_ingredient ai man) d -> r ∈ matching (by_ingredient ai man) d) /\
  (forall r r', r ∈ matching (by_ingredient ai man) d ->
     r' ∈ view_rows (by_ingredient ai man) d ->
     r ∈ view_rows (by_ingredient ai man) d \/
     (precio_por_tableta r' <= precio_por_tableta r)%Q).
Proof.
  intros Hld. set (a := by_ingredient ai man).
  set (S := ordered a (columns d) (matching a d)).
  assert (Hperm : S ≡ₚ matching a d) by apply ordered_perm.
  assert (Hsorted : StronglySorted
            (fun r1 r2 => (precio_por_tableta r1 <= precio_por_tableta r2)%Q) S).
  { unfold S, ordered. rewrite Hld.
    rewrite bool_decide_eq_true_2 by (by apply (bool_decide_unpack _)).
    apply (sort_values_by_price true). }
  assert (Hview : view_rows a d = take 50 S) by done.
  rewrite Hview. split.
  - intros r Hr. rewrite <- Hperm. by eapply subseteq_take.
  - intros r r' Hr Hr'. rewrite <- Hperm in Hr.
    rewrite <- (take_drop 50 S) in Hr, Hsorted.
    apply elem_of_app in Hr as [Hr | Hr]; [by left | right].
    by apply (sorted_prefix_le _ _ _ Hsorted).
Qed.

(** X7: when some row of the dataset passes the filter, the least price,
    the mean, the median and the greatest price of the summary are
    numbers; the least price is the least price of all passing rows of the
    dataset, also when more than 50 pass; the greatest price is a price of
    a passing row; and the median lies between the two. *)
Theorem summary_stats_ordered (h : heap) (self_df : loc) (d : DataFrame)
  (ai man : option string) :
  h !! self_df = Some d ->
  loaded d ->
  matching (by_ingredient ai man) d <> [] ->
  exists s h' lo mean med hi,
    get_summary_stats self_df ai man h = (Ok s, h') /\
    ps_min (price_stats_of s) = fin lo /\
    ps_mean (price_stats_of s) = fin mean /\
    ps_median (price_stats_of s) = fin med /\
    ps_max (price_stats_of s) = fin hi /\
    (lo <= med <= hi)%Q /\
    (forall r, r ∈ matching (by_ingredient ai man) d -> (lo <= precio_por_tableta r)%Q) /\
    (exists r, r ∈ matching (by_ingredient ai man) d /\ precio_por_tableta r = lo) /\
    (exists r, r ∈ matching (by_ingredient ai man) d /\ precio_por_tableta r = hi).
Proof.
  intros Hd Hld Hne.
  destruct (get_summary_stats_returns h self_df d ai man Hd Hld) as (h' & Hrun).
  apply view_rows_nonempty in Hne.
  destruct (view_rows_cheapest d ai man Hld) as [Hsub Hcheap].
  set (V := view_rows (by_ingredient ai man) d) in *.
  set (p := map precio_por_tableta V).
  assert (Hp : p <> []) by (unfold p; by destruct V).
  destruct (series_extremes p Hp) as (lo & hi & Hlo & Hhi & Hall).
  destruct (median_between lo hi p Hp Hall) as (med & Hmed & Hmdb).
  assert (Hin : forall x, x ∈ p -> exists r, r ∈ V /\ precio_por_tableta r = x).
  { intros x Hx. unfold p in Hx. change (map ?f ?l) with (f <$> l) in Hx.
    apply list_elem_of_fmap in Hx as (r & -> & Hr). by exists r. }
  assert (Hof : forall r, r ∈ V -> precio_por_tableta r ∈ p).
  { intros r Hr. unfold p. change (map ?f ?l) with (f <$> l).
    apply list_elem_of_fmap. by exists r. }
  assert (Hmean : exists mean, series_mean p = fin mean).
  { destruct p; [done | by eexists]. }
  destruct Hmean as (mean & Hmean).
  assert (Hlo_in : lo ∈ p).
  { destruct p as [|x p']; [done|]. simpl in Hlo. injection Hlo as <-.
    apply foldl_qmin_in. }
  assert (Hhi_in : hi ∈ p).
  { destruct p as [|x p']; [done|]. simpl in Hhi. injection Hhi as <-.
    apply foldl_qmax_in. }
  eexists _, h', lo, mean, med, hi. split; [exact Hrun|].
  cbn [price_stats_of summary_on ps_min ps_mean ps_median ps_max]. fold V. fold p.
  split; [done|]. split; [done|]. split; [done|]. split; [done|]. split; [done|].
  split; [|split].
  - intros r Hr. destruct (Hin lo Hlo_in) as (r0 & Hr0 & Hr0lo).
    destruct (Hcheap r r0 Hr Hr0) as [Hv | Hle].
    + by apply Hall, Hof.
    + by rewrite <- Hr0lo.
  - destruct (Hin lo Hlo_in) as (r0 & Hr0 & Hr0lo). exists r0. split; [by apply Hsub|done].
  - destruct (Hin hi Hhi_in) as (r0 & Hr0 & Hr0hi). exists r0. split; [by apply Hsub|done].
Qed.

(** X8: when no row of the dataset passes the filter, the summary is still
    returned: its count is 0, its five statistics are not-a-number, and a
    breakdown that was asked for is the empty list. *)
Theorem summary_of_nothing (h : heap) (self_df : loc) (d : DataFrame)
  (ai man : option string) :
  h !! self_df = Some d ->
  loaded d ->
  matching (by_ingredient ai man) d = [] ->
  exists h',
    get_summary_stats self_df ai man h
    = (Ok (mkSummary 0 (mkPriceStats nan nan nan nan nan)
             (if truthy_str ai then Some [] else None)
             (if truthy_str man then Some [] else None)), h').
Proof.
  intros Hd Hld Hnone.
  destruct (get_summary_stats_returns h self_df d ai man Hd Hld) as (h' & Hrun).
  exists h'. rewrite Hrun. unfold view_rows. rewrite Hnone.
  unfold ordered, by_ingredient. cbn [sort_by sort_order].
  rewrite Hld, bool_decide_eq_true_2 by (by apply (bool_decide_unpack _)).
  reflexivity.
Qed.


(** * Groups *)

Lemma value_eqb_str_iff (v : value) (s : string) :
  value_eqb v (VStr s) = true <-> v = VStr s.
Proof.
  split; [apply value_eqb_str|]. intros ->. simpl. apply String.eqb_refl.
Qed.

Lemma value_eqb_textual (x y : value) :
  textual x -> isna y = false -> textual y ->
  (value_eqb x y = true <-> x = y).
Proof.
  intros Hx Hy [->|[s ->]]; [done|]. apply value_eqb_str_iff.
Qed.

Lemma nub_elem (l : list value) (x : value) : x ∈ nub l -> x ∈ l.
Proof.
  revert x. induction l as [|y l IH]; intros x; simpl; [done|].
  intros [->|Hx]%elem_of_cons; [by left|]. right. apply IH.
  by apply list_elem_of_filter in Hx as [_ Hx].
Qed.

Lemma nub_complete (l : list value) (x : value) :
  Forall textual l -> Forall (fun v => isna v = false) l ->
  x ∈ l -> x ∈ nub l.
Proof.
  intros Ht Hn. revert x. induction l as [|y l IH]; intros x; simpl; [done|].
  apply Forall_cons in Ht as [Hty Ht], Hn as [Hny Hn].
  intros Hx. apply elem_of_cons in Hx as [->|Hx]; [by left|].
  destruct (value_eqb x y) eqn:E.
  - apply value_eqb_textual in E as ->; [by left| |done|done].
    rewrite Forall_forall in Ht. by apply Ht.
  - right. apply list_elem_of_filter. split; [done | by apply IH].
Qed.

Lemma nub_NoDup (l : list value) :
  Forall textual l -> Forall (fun v => isna v = false) l -> NoDup (nub l).
Proof.
  intros Ht Hn. induction l as [|y l IH]; simpl; [constructor|].
  apply Forall_cons in Ht as [Hty Ht], Hn as [Hny Hn]. constructor.
  - intros Hy. apply list_elem_of_filter in Hy as [Hy _].
    assert (value_eqb y y = true) by (by apply value_eqb_textual).
    congruence.
  - apply NoDup_filter. by apply IH.
Qed.

(** The keys of a text column: each present cell once. *)
Lemma group_keys_spec (c : string) (l : list Row) :
  (forall r, textual (getitem r c)) ->
  NoDup (group_keys c l) /\
  forall k, k ∈ group_keys c l <-> isna k = false /\ exists r, r ∈ l /\ getitem r c = k.
Proof.
  intros Htext. unfold group_keys.
  set (cells := filter (fun v => isna v = false) (map (fun r => getitem r c) l)).
  assert (Ht : Forall textual cells).
  { apply Forall_forall. intros v Hv. apply list_elem_of_filter in Hv as [_ Hv].
    change (map ?f ?l) with (f <$> l) in Hv.
    apply list_elem_of_fmap in Hv as (r & -> & _). apply Htext. }
  assert (Hn : Forall (fun v => isna v = false) cells).
  { apply Forall_forall. intros v Hv. by apply list_elem_of_filter in Hv as [Hv _]. }
  split.
  - rewrite sort_with_perm. by apply nub_NoDup.
  - intros k. rewrite sort_with_perm. split.
    + intros Hk%nub_elem. apply list_elem_of_filter in Hk as [Hna Hk].
      change (map ?f ?l) with (f <$> l) in Hk.
      apply list_elem_of_fmap in Hk as (r & -> & Hr). eauto.
    + intros (Hna & r & Hr & <-). apply nub_complete; [done..|].
      apply list_elem_of_filter. split; [done|].
      change (map ?f ?l) with (f <$> l).
      by apply (list_elem_of_fmap_2 (fun r => getitem r c)).
Qed.

Lemma key_indicator_in (keys : list value) (v : value) :
  NoDup keys -> Forall textual keys -> Forall (fun k => isna k = false) keys ->
  textual v -> v ∈ keys ->
  Zsum (map (fun k => if value_eqb v k then 1 else 0) keys) = 1.
Proof.
  intros Hnd Ht Hn Hv Hin. induction Hnd as [|k keys Hk Hnd IH]; [by apply elem_of_nil in Hin|].
  apply Forall_cons in Ht as [Htk Ht], Hn as [Hnk Hn].
  change (Zsum (map ?f (k :: keys))) with (f k + Zsum (map f keys)). cbv beta.
  destruct (value_eqb v k) eqn:E.
  - apply value_eqb_textual in E as ->; [|done..].
    assert (Hz : Zsum (map (fun k' => if value_eqb k k' then 1 else 0) keys) = 0).
    { clear IH Hin Hnd. induction keys as [|k' keys IHk]; [done|].
      apply Forall_cons in Ht as [Htk' Ht], Hn as [Hnk' Hn].
      change (Zsum (map ?f (k' :: keys))) with (f k' + Zsum (map f keys)). cbv beta.
      rewrite IHk by (done || intros ?; apply Hk; by right).
      destruct (value_eqb k k') eqn:E'; [|done].
      apply value_eqb_textual in E' as ->; [|done..]. exfalso. apply Hk. by left. }
    lia.
  - apply elem_of_cons in Hin as [->|Hin].
    + assert (value_eqb k k = true) by (by apply value_eqb_textual). congruence.
    + rewrite IH by done. lia.
Qed.

Lemma key_indicator_missing (keys : list value) :
  Zsum (map (fun k => if value_eqb VNaN k then 1 else 0) keys) = 0.
Proof.
  induction keys as [|k keys IH]; [done|].
  change (Zsum (map ?f (k :: keys))) with (f k + Zsum (map f keys)). cbv beta. by rewrite IH.
Qed.

(** The groups of a text column divide the rows whose cell is present. *)
Lemma groups_partition (c : string) (keys : list value) (l : list Row) :
  (forall r, textual (getitem r c)) ->
  NoDup keys -> Forall textual keys -> Forall (fun k => isna k = false) keys ->
  (forall r, r ∈ l -> isna (getitem r c) = false -> getitem r c ∈ keys) ->
  Zsum (map (fun k => Z.of_nat (length (filter (fun r => value_eqb (getitem r c) k = true) l)))
            keys)
  = Z.of_nat (length (filter (fun r => isna (getitem r c) = false) l)).
Proof.
  intros Htext Hnd Ht Hn. induction l as [|r l IH]; intros Hcover.
  - clear Hnd Ht Hn Hcover. induction keys as [|k keys IHk]; [done|].
    change (Zsum (map ?f (k :: keys))) with (f k + Zsum (map f keys)). cbv beta.
    rewrite IHk. reflexivity.
  - transitivity (Zsum (map (fun k =>
        Z.of_nat (length (filter (fun r => value_eqb (getitem r c) k = true) l))
        + (if value_eqb (getitem r c) k then 1 else 0)) keys)).
    + f_equal. apply map_ext. intros k. rewrite filter_cons.
      destruct (value_eqb (getitem r c) k) eqn:E.
      * rewrite decide_True by done. simpl. lia.
      * rewrite decide_False by congruence. lia.
    + rewrite Zsum_map_add, IH by (intros r' Hr' Hna'; apply Hcover; [by right | done]).
      rewrite filter_cons. destruct (isna (getitem r c)) eqn:Hna.
      * rewrite decide_False by done.
        destruct (getitem r c); try discriminate. rewrite key_indicator_missing. lia.
      * rewrite decide_True by done. rewrite key_indicator_in; [simpl; lia|done..|].
        apply Hcover; [by left | done].
Qed.

Lemma of_str_textual (o : option string) : textual (of_str o).
Proof. destruct o; [right; eauto | by left]. Qed.

Lemma of_str_isna (o : option string) : isna (of_str o) = false <-> is_Some o.
Proof.
  destruct o as [s|]; simpl; split.
  - intros _. by exists s.
  - done.
  - discriminate.
  - intros [s Hs]. discriminate.
Qed.

Lemma of_str_eqb (o : option string) (name : string) :
  value_eqb (of_str o) (VStr name) = true <-> o = Some name.
Proof.
  rewrite value_eqb_str_iff. destruct o; simpl; split; congruence.
Qed.

(** The breakdown computed by [groupby] and [agg] on a text column. *)
Lemma breakdown_groups (c : string) (field : Row -> option string) (l : list Row) :
  (forall r, getitem r c = of_str (field r)) ->
  breakdown_of field l (map agg_prices (groups_of c l)).
Proof.
  intros Hg.
  assert (Htext : forall r, textual (getitem r c)).
  { intros r. rewrite Hg. apply of_str_textual. }
  destruct (group_keys_spec c l Htext) as [Hnd Hkeys].
  assert (Hkey : forall k, k ∈ group_keys c l ->
    exists name r, k = VStr name /\ r ∈ l /\ field r = Some name).
  { intros k (Hna & r & Hr & <-)%Hkeys. rewrite Hg in Hna |- *.
    destruct (field r) as [name|] eqn:Hf; [|done]. by exists name, r. }
  assert (Hgrp : forall name,
    filter (fun r => value_eqb (getitem r c) (VStr name) = true) l
    = filter (fun r => field r = Some name) l).
  { intros name. apply list_filter_iff. intros r. rewrite Hg. apply of_str_eqb. }
  unfold groups_of. rewrite map_map. split; [|split; [|split]].
  - rewrite map_map. simpl. by rewrite map_id.
  - intros g Hin. change (map ?f ?l) with (f <$> l) in Hin.
    apply list_elem_of_fmap in Hin as (k & -> & Hk).
    destruct (Hkey k Hk) as (name & r & -> & Hr & Hf).
    unfold agg_prices. cbn [fst snd gs_key gs_count gs_min_price gs_max_price gs_avg_price].
    rewrite Hgrp, length_map.
    set (grp := filter (fun r => field r = Some name) l).
    assert (Hin : r ∈ grp) by (by apply list_elem_of_filter).
    assert (Hne : map precio_por_tableta grp <> []) by (by destruct grp; [apply elem_of_nil in Hin|]).
    destruct (series_extremes _ Hne) as (lo & hi & Hlo & Hhi & Hall).
    assert (Havg : exists avg, series_mean (map precio_por_tableta grp) = fin avg).
    { destruct (map precio_por_tableta grp); [done | by eexists]. }
    destruct Havg as (avg & Havg).
    assert (Hb : (lo <= hi)%Q).
    { destruct (Hall (precio_por_tableta r)) as [H1 H2]; [|lra].
      change (map ?f ?l) with (f <$> l). apply list_elem_of_fmap. by exists r. }
    exists name, lo, avg, hi. split; [done|]. split; [done|].
    split; [destruct grp; [by apply elem_of_nil in Hin | simpl; lia]|].
    split; [done|]. split; [done|]. split; [done|]. exact Hb.
  - intros r name Hr Hf. exists (agg_prices (VStr name,
      filter (fun r => value_eqb (getitem r c) (VStr name) = true) l)).
    split; [|done]. change (map ?f ?l) with (f <$> l).
    apply (list_elem_of_fmap_2 (fun k => agg_prices
             (k, filter (fun r => value_eqb (getitem r c) k = true) l)) _ (VStr name)).
    apply Hkeys. split; [done|]. exists r. split; [done|]. by rewrite Hg, Hf.
  - rewrite map_map. cbn [agg_prices gs_count snd].
    erewrite map_ext; [|intros k; by rewrite length_map].
    rewrite (groups_partition c (group_keys c l) l Htext Hnd).
    + f_equal. f_equal. apply list_filter_iff. intros r. rewrite Hg. apply of_str_isna.
    + apply Forall_forall. intros k (name & r & -> & _)%Hkey. right. eauto.
    + apply Forall_forall. intros k (name & r & -> & _)%Hkey. done.
    + intros r Hr Hna. apply Hkeys. eauto.
Qed.

(** X10: a breakdown of the summary has one entry per manufacturer (or per
    ingredient) that occurs in the view that the filter returns, no two for
    the same name; an entry counts the rows of the view with that name, one
    at least, and its least, mean and greatest price are numbers, the
    least at most the greatest; the counts add up to the rows of the view
    that have a manufacturer (an ingredient). *)
Theorem summary_breakdown_partition (h : heap) (self_df : loc) (d : DataFrame)
  (ai man : option string) :
  h !! self_df = Some d ->
  loaded d ->
  exists v s h',
    filter_view d (by_ingredient ai man) = Ok v /\
    get_summary_stats self_df ai man h = (Ok s, h') /\
    (forall gs, manufacturers s = Some gs -> breakdown_of fabricante (rows v) gs) /\
    (forall gs, active_ingredients s = Some gs ->
       breakdown_of principio_activo (rows v) gs).
Proof.
  intros Hd Hld.
  destruct (get_summary_stats_returns h self_df d ai man Hd Hld) as (h' & Hrun).
  eexists _, _, h'. split; [by apply view_loaded|]. split; [exact Hrun|].
  cbn [rows summary_on manufacturers active_ingredients]. split; intros gs Hgs.
  - destruct (truthy_str ai); [|done]. injection Hgs as <-.
    by apply (breakdown_groups "fabricante" fabricante).
  - destruct (truthy_str man); [|done]. injection Hgs as <-.
    by apply (breakdown_groups "principio_activo" principio_activo).
Qed.

(** * More on the histogram *)

Lemma filter_map_length {A B : Type} (f : A -> B) (P : B -> Prop)
  `{!forall y, Decision (P y)} (l : list A) :
  length (filter P (map f l)) = length (filter (fun x => P (f x)) l).
Proof.
  induction l as [|x l IH]; [done|]. simpl map. rewrite !filter_cons.
  destruct (decide (P (f x))); simpl; by rewrite IH.
Qed.

(** The histogram of a frame with the price column, bar by bar. *)
Lemma histogram_of_closed (l : list Row) (bins : Z) (lo hi : Q) :
  1 <= bins ->
  outer_edges (map precio_por_tableta l) = (lo, hi) ->
  histogram_of (mkDF base_columns l) bins
  = Ok (map (bar lo hi bins l) (seq 0 (Z.to_nat bins))).
Proof.
  intros Hb Hedges. unfold histogram_of. rewrite loaded_prices by done.
  cbn [mbind outcome_bind rows]. unfold np_histogram.
  destruct (Z.ltb_spec bins 1) as [|_]; [lia|]. rewrite Hedges.
  destruct (outer_edges_spec _ lo hi Hedges) as [Hlh Hall].
  rewrite (filter_all _ (map precio_por_tableta l)).
  2:{ intros x Hx. destruct (Hall x Hx) as [H1 H2].
      apply Qle_bool_iff in H1, H2. by rewrite H1, H2. }
  cbn [mbind outcome_bind fst snd]. rewrite length_map, length_seq.
  set (edges := linspace lo hi (Z.to_nat bins + 1)).
  set (hist := map _ (seq 0 (Z.to_nat bins))).
  assert (Hhist : forall i, (i < Z.to_nat bins)%nat ->
    hist !! i = Some (bin_count (bar lo hi bins l i))).
  { intros i Hi. unfold hist. change (map ?f ?l) with (f <$> l).
    rewrite list_lookup_fmap, lookup_seq_lt by done. simpl.
    by rewrite (filter_map_length (bin_index lo hi bins)). }
  assert (Hedge : forall i, (i <= Z.to_nat bins)%nat -> edges !! i = Some (nth i edges 0%Q)).
  { intros i Hi. destruct (nth_lookup_or_length edges i 0%Q) as [|Hge]; [done|].
    unfold edges in Hge. rewrite linspace_length in Hge. lia. }
  apply traverse_Ok_map. intros i Hi. apply elem_of_seq in Hi as [_ Hi]. simpl in Hi.
  rewrite (index_lookup _ _ _ (Hedge i ltac:(lia))). cbn [mbind outcome_bind].
  rewrite (index_lookup _ _ _ (Hedge (i + 1)%nat ltac:(lia))). cbn [mbind outcome_bind].
  rewrite (index_lookup _ _ _ (Hhist i Hi)). cbn [mbind outcome_bind].
  reflexivity.
Qed.

Lemma get_histogram_data_returns (h : heap) (self_df : loc) (d : DataFrame)
  (ai man : option string) (bins : Z) (lo hi : Q) :
  h !! self_df = Some d ->
  loaded d ->
  1 <= bins ->
  outer_edges (map precio_por_tableta (view_rows (by_ingredient ai man) d)) = (lo, hi) ->
  exists h', get_histogram_data self_df ai man bins h
             = (Ok (map (bar lo hi bins (view_rows (by_ingredient ai man) d))
                        (seq 0 (Z.to_nat bins))), h').
Proof.
  intros Hd Hld Hb Hedges.
  destruct (get_histogram_data_run h self_df d ai man bins Hd) as (h1 & _ & Hrun).
  exists h1. rewrite Hrun, (view_loaded d _ Hld). cbn [mbind outcome_bind].
  by rewrite (histogram_of_closed _ bins lo hi).
Qed.

(** X11: when no row of the dataset passes the filter, the histogram is
    still returned for a positive number of bins: that many bars, dividing
    the range from 0 to 1, each with count 0 and normalized count 0. *)
Theorem histogram_of_nothing (h : heap) (self_df : loc) (d : DataFrame)
  (ai man : option string) (bins : Z) :
  h !! self_df = Some d ->
  loaded d ->
  0 < bins ->
  matching (by_ingredient ai man) d = [] ->
  exists hs h' b0 bl,
    get_histogram_data self_df ai man bins h = (Ok hs, h') /\
    length hs = Z.to_nat bins /\
    (forall b, b ∈ hs -> bin_count b = 0 /\ normalizedCount b = 0%Q) /\
    hs !! 0%nat = Some b0 /\ last hs = Some bl /\
    (binStart b0 == 0)%Q /\ binEnd bl = 1%Q.
Proof.
  intros Hd Hld Hb Hnone.
  assert (Hview : view_rows (by_ingredient ai man) d = []).
  { pose proof (view_rows_length_50 d ai man) as Hlen. rewrite Hnone in Hlen.
    destruct (view_rows (by_ingredient ai man) d); [done | simpl in Hlen; lia]. }
  destruct (get_histogram_data_returns h self_df d ai man bins 0 1 Hd Hld ltac:(lia))
    as (h' & Hrun); [by rewrite Hview|].
  rewrite Hview in Hrun.
  assert (Hn : (0 < Z.to_nat bins)%nat) by lia.
  eexists _, h', (bar 0 1 bins [] 0), (bar 0 1 bins [] (Z.to_nat bins - 1)).
  split; [exact Hrun|]. split; [by rewrite length_map, length_seq|]. split; [|split; [|split]].
  - intros b Hin. change (map ?f ?l) with (f <$> l) in Hin.
    by apply list_elem_of_fmap in Hin as (i & -> & _).
  - change (map ?f ?l) with (f <$> l). by rewrite list_lookup_fmap, lookup_seq_lt.
  - rewrite last_lookup, length_map, length_seq. change (map ?f ?l) with (f <$> l).
    rewrite list_lookup_fmap, lookup_seq_lt by lia. simpl. do 2 f_equal. lia.
  - split.
    + cbn [bar binStart]. apply (linspace_first 0 1 (Z.to_nat bins)); [done|].
      destruct (nth_lookup_or_length (linspace 0 1 (Z.to_nat bins + 1)) 0 0%Q) as [|Hge];
        [done|]. rewrite linspace_length in Hge. lia.
    + cbn [bar binEnd]. replace (Z.to_nat bins - 1 + 1)%nat with (Z.to_nat bins) by lia.
      apply nth_lookup_Some, linspace_lookup_last.
Qed.





(** * More on the boxplot *)

Lemma boxplot_of_unknown (l : list Row) (group_by : string) (lim : Z) :
  group_by ∉ base_columns ->
  boxplot_of (mkDF base_columns l) group_by lim
  = Ok (ErrorDict ("Column " ++ group_by ++ " not found")).
Proof.
  intros Hg. unfold boxplot_of, has_column. cbn [columns].
  by rewrite bool_decide_eq_false_2.
Qed.

Lemma run_endpoint {A B : Type} (m : M A) (k : A -> M (response B)) h d data_service :
  h !! data_service = Some d -> df_empty d = false ->
  (df ← load data_service; if df_empty df then mret no_data else m ≫= k) h
  = (m ≫= k) h.
Proof. intros Hd He. by rewrite (run_load _ _ _ _ Hd), He. Qed.

(** X13: a grouping column that the dataset does not have is not an
    exception: the boxplot operation returns the message "Column ... not
    found" with the name of the column, and on a dataset with rows the
    endpoint answers with that message and status 400. *)
Theorem boxplot_unknown_group_column (h : heap) (self_df : loc) (d : DataFrame)
  (group_by : string) (ai : option string) (lim : Z) :
  h !! self_df = Some d ->
  loaded d ->
  group_by ∉ base_columns ->
  (exists h', get_boxplot_data self_df group_by ai lim h
              = (Ok (ErrorDict ("Column " ++ group_by ++ " not found")), h')) /\
  (rows d <> [] ->
   exists h', app_get_boxplot self_df group_by ai lim h
              = (Ok (Error 400 ("Column " ++ group_by ++ " not found")), h')).
Proof.
  intros Hd Hld Hg.
  destruct (get_boxplot_data_run h self_df d group_by ai lim Hd) as (h1 & _ & Hrun).
  rewrite (view_loaded d _ Hld) in Hrun. cbn [mbind outcome_bind] in Hrun.
  rewrite (boxplot_of_unknown _ _ _ Hg) in Hrun.
  split; [by exists h1|]. intros Hne. exists h1. unfold app_get_boxplot.
  rewrite (run_load _ _ _ _ Hd).
  assert (He : df_empty d = false).
  { unfold df_empty. rewrite Hld. by destruct (rows d). }
  rewrite He. by rewrite (run_bind_Ok _ _ _ _ _ Hrun).
Qed.

Lemma get_boxplot_data_returns (h : heap) (self_df : loc) (d : DataFrame)
  (group_by : string) (ai : option string) (lim : Z) :
  h !! self_df = Some d ->
  loaded d ->
  group_by ∈ base_columns ->
  exists h',
    get_boxplot_data self_df group_by ai lim h
    = (Ok (Boxes (slice_to lim
             (sort_with (fun x y => fle (median y) (median x))
                (map box_for
                   (filter (fun g : value * list Row => (length (snd g) <? 5)%nat = false)
                      (groups_of group_by (view_rows (by_ingredient ai None) d))))))), h').
Proof.
  intros Hd Hld Hcol.
  destruct (get_boxplot_data_run h self_df d group_by ai lim Hd) as (h1 & _ & Hrun).
  exists h1. rewrite Hrun, (view_loaded d _ Hld). cbn [mbind outcome_bind].
  unfold boxplot_of, has_column. cbn [columns].
  rewrite bool_decide_eq_true_2 by done. rewrite groupby_loaded by done.
  cbn [mbind outcome_bind].
  rewrite (traverse_Ok_map _ box_for) by (intros g _; by apply box_of_loaded).
  reflexivity.
Qed.

(** The least and the greatest value of a box bound its quartiles. *)
Lemma box_for_extremes (g : value * list Row) :
  (1 <= length (snd g))%nat ->
  fle (box_min (box_for g)) (q1 (box_for g)) = true /\
  fle (q3 (box_for g)) (box_max (box_for g)) = true.
Proof.
  intros Hg. unfold box_for. cbn [box_min q1 q3 box_max].
  set (p := sort_prices (map precio_por_tableta (snd g))).
  assert (Hlen : length p = length (snd g)).
  { unfold p, sort_prices. by rewrite sort_with_length, length_map. }
  assert (Hp : p <> []) by (destruct p; [simpl in Hlen; lia | done]).
  destruct (series_extremes p Hp) as (lo & hi & -> & -> & Hall).
  destruct (quantile_bounds (1 # 4) p ltac:(split; discriminate) ltac:(lia))
    as (a & -> & Ha & _).
  destruct (quantile_bounds (3 # 4) p ltac:(split; discriminate) ltac:(lia))
    as (b & -> & _ & Hb).
  rewrite Qfloor_scaled in Ha, Hb.
  pose proof (Zdiv_bounds (1 * Z.of_nat (length p - 1)) 4 ltac:(lia)).
  pose proof (Zdiv_bounds (3 * Z.of_nat (length p - 1)) 4 ltac:(lia)).
  simpl. rewrite !Qle_bool_iff. split.
  - eapply Qle_trans; [|exact Ha]. apply Hall, sort_prices_elem. lia.
  - eapply Qle_trans; [exact Hb|]. apply Hall, sort_prices_elem. lia.
Qed.

(** X14: in every box of the boxplot the least price is at most the first
    quartile and the third quartile at most the greatest price. *)
Theorem boxplot_whiskers (h : heap) (self_df : loc) (d : DataFrame)
  (group_by : string) (ai : option string) (lim : Z) :
  h !! self_df = Some d ->
  loaded d ->
  group_by ∈ base_columns ->
  exists bs h',
    get_boxplot_data self_df group_by ai lim h = (Ok (Boxes bs), h') /\
    forall b, b ∈ bs ->
      fle (box_min b) (q1 b) = true /\ fle (q3 b) (box_max b) = true.
Proof.
  intros Hd Hld Hcol.
  destruct (get_boxplot_data_returns h self_df d group_by ai lim Hd Hld Hcol) as (h' & Hrun).
  eexists _, h'. split; [exact Hrun|]. intros b Hb.
  apply slice_to_elem in Hb. rewrite sort_with_perm in Hb.
  change (map ?f ?l) with (f <$> l) in Hb.
  apply list_elem_of_fmap in Hb as (g & -> & Hg).
  apply list_elem_of_filter in Hg as [Hsize _]. apply Nat.ltb_ge in Hsize.
  apply box_for_extremes. lia.
Qed.

(** * More on the clustering *)

(** What the development assumes besides of the fitted k-means model: a
    label is the number of a cluster. *)
Hypothesis lloyd_range : forall k X,
  1 <= k <= Z.of_nat (length X) ->
  Forall (fun z => 0 <= z < k) (labels_ (lloyd k X)).

Lemma cluster_cell_eqb (z i : Z) :
  value_eqb (of_int (Some z)) (VNum (inject_Z i)) = true <-> z = i.
Proof.
  simpl. rewrite Qeq_bool_iff. unfold Qeq, inject_Z. simpl. lia.
Qed.

Lemma labelled_count (labels : list Z) (l : list Row) (i : Z) :
  length labels = length l ->
  length (filter (fun r => value_eqb (getitem r "cluster") (VNum (inject_Z i)) = true)
            (zip_with (set_cell "cluster") (map Some labels) l))
  = length (filter (fun z => z = i) labels).
Proof.
  revert l. induction labels as [|z labels IH]; intros [|r l] Hlen; try done.
  simpl in Hlen. simpl zip_with. rewrite !filter_cons.
  change (getitem (set_cell "cluster" (Some z) r) "cluster") with (of_int (Some z)).
  destruct (decide (z = i)) as [->|Hne].
  - rewrite decide_True by (by apply cluster_cell_eqb). simpl. rewrite IH; lia.
  - rewrite decide_False by (by rewrite cluster_cell_eqb). apply IH. lia.
Qed.

Lemma labelled_samples (labels : list Z) (l : list Row) :
  traverse sample_of (zip_with (set_cell "cluster") (map Some labels) l)
  = Ok (zip_with sample_with labels l).
Proof.
  revert l. induction labels as [|z labels IH]; intros [|r l]; try done.
  simpl. rewrite IH. reflexivity.
Qed.

Lemma cluster_stat_of_closed cols (l : list Row) km sc (i : Z) :
  "cluster" ∈ cols -> "precio_por_tableta" ∈ cols ->
  (Z.to_nat i < length (cluster_centers_ km))%nat ->
  cluster_stat_of (mkDF cols l) km sc i = Ok (cluster_stat_for l km sc i).
Proof.
  intros Hc Hp Hi. unfold cluster_stat_of, getitem_mask, has_column. cbn [columns rows].
  rewrite bool_decide_eq_true_2 by done. cbn [mbind outcome_bind].
  unfold prices, has_column. cbn [columns rows].
  rewrite bool_decide_eq_true_2 by done. cbn [mbind outcome_bind].
  destruct (lookup_lt_is_Some_2 (cluster_centers_ km) (Z.to_nat i) Hi) as [c Hc'].
  rewrite (index_lookup _ _ _ Hc'). cbn [mbind outcome_bind].
  unfold cluster_stat_for. by rewrite (nth_lookup_Some _ _ _ _ Hc').
Qed.

(** The result of the clustering on a loaded dataset, for a number of
    clusters between one and the size of the view. *)
Lemma get_clustering_returns (h : heap) (self_df : loc) (d : DataFrame)
  (ai : option string) (k : Z) :
  h !! self_df = Some d ->
  loaded d ->
  1 <= k <= Z.of_nat (length (view_rows (by_ingredient ai None) d)) ->
  exists sc h',
    StandardScaler_fit_transform
      (map precio_por_tableta (view_rows (by_ingredient ai None) d)) = Ok sc /\
    let V := view_rows (by_ingredient ai None) d in
    let km := lloyd k (X_scaled sc) in
    length (labels_ km) = length V /\
    get_clustering self_df ai k h
    = (Ok (mkClustering
             (map (cluster_stat_for
                     (zip_with (set_cell "cluster") (map Some (labels_ km)) V) km sc)
                  (range k))
             (zip_with sample_with (take 100 (labels_ km)) (take 100 V))), h').
Proof.
  intros Hd Hld Hk. set (V := view_rows (by_ingredient ai None) d) in *.
  destruct (get_clustering_run h self_df d ai k Hd) as (h1 & _ & Hrun).
  rewrite (view_loaded d _ Hld) in Hrun. fold V in Hrun. cbn [mbind outcome_bind] in Hrun.
  assert (Hne : map precio_por_tableta V <> []).
  { destruct V; [simpl in Hk; lia | done]. }
  destruct (scaler_nonempty _ Hne) as (sc & Hsc & Hlen). rewrite length_map in Hlen.
  exists sc, h1. split; [done|]. cbv zeta.
  destruct (lloyd_shape k (X_scaled sc) ltac:(lia)) as [Hlab Hcent].
  set (km := lloyd k (X_scaled sc)) in *.
  split; [congruence|]. rewrite Hrun. f_equal.
  unfold clustering_of. rewrite loaded_prices by done. cbn [mbind outcome_bind rows].
  rewrite Hsc. cbn [mbind outcome_bind]. unfold KMeans_fit_predict. rewrite Hlen.
  destruct (Z.ltb_spec k 1); [lia|].
  destruct (Z.ltb_spec (Z.of_nat (length V)) k); [lia|].
  cbn [mbind outcome_bind]. fold km. unfold assign. cbn [rows].
  rewrite length_map, Hlab, Hlen, Nat.eqb_refl. cbn [mbind outcome_bind].
  unfold cluster_report, with_column, has_column. cbn [columns rows].
  rewrite bool_decide_eq_false_2 by (by apply (bool_decide_unpack _)).
  rewrite (traverse_Ok_map _ (cluster_stat_for
             (zip_with (set_cell "cluster") (map Some (labels_ km)) V) km sc)).
  2:{ intros i Hi. unfold range in Hi. change (map ?f ?l) with (f <$> l) in Hi.
      apply list_elem_of_fmap in Hi as (j & -> & Hj). apply elem_of_seq in Hj as [_ Hj].
      apply cluster_stat_of_closed; [by apply (bool_decide_unpack _)..|].
      rewrite Nat2Z.id. lia. }
  cbn [mbind outcome_bind]. unfold head, slice_to. cbn [rows].
  change (0 <=? 100) with true. change (Z.to_nat 100) with 100%nat.
  cbv iota. rewrite zip_with_take.
  change (map Some (labels_ km)) with (Some <$> labels_ km). rewrite <- fmap_take.
  change (Some <$> take 100 (labels_ km)) with (map Some (take 100 (labels_ km))).
  rewrite labelled_samples. reflexivity.
Qed.

Lemma take_all {A : Type} (n : nat) (l : list A) : (length l <= n)%nat -> take n l = l.
Proof. intros H. by apply take_ge. Qed.

Lemma view_at_most_50 (d : DataFrame) (ai man : option string) :
  (length (view_rows (by_ingredient ai man) d) <= 50)%nat.
Proof. pose proof (view_rows_length_50 d ai man). lia. Qed.

Lemma sample_count (labels : list Z) (l : list Row) (i : Z) :
  length labels = length l ->
  length (filter (fun s => sr_cluster s = i) (zip_with sample_with labels l))
  = length (filter (fun z => z = i) labels).
Proof.
  revert l. induction labels as [|z labels IH]; intros [|r l] Hlen; try done.
  simpl in Hlen. simpl zip_with. rewrite !filter_cons.
  change (sr_cluster (sample_with z r)) with z.
  destruct (decide (z = i)); simpl; rewrite IH; lia.
Qed.

(** X15: for a number of clusters between one and the size of the view, the
    cluster statistics are those of the clusters 0, 1, ... in this order,
    no count is negative, and the counts add up to the size of the view:
    every row of the view is in exactly one cluster. *)
Theorem clustering_counts_partition (h : heap) (self_df : loc) (d : DataFrame)
  (ai : option string) (k : Z) :
  h !! self_df = Some d ->
  loaded d ->
  1 <= k <= Z.of_nat (length (view_rows (by_ingredient ai None) d)) ->
  exists r h',
    get_clustering self_df ai k h = (Ok r, h') /\
    map cluster_id (cluster_stats r) = range k /\
    Forall (fun c => 0 <= cs_count c) (cluster_stats r) /\
    Zsum (map cs_count (cluster_stats r))
    = Z.of_nat (length (view_rows (by_ingredient ai None) d)).
Proof.
  intros Hd Hld Hk.
  destruct (get_clustering_returns h self_df d ai k Hd Hld Hk)
    as (sc & h' & Hsc & Hlen & Hrun).
  cbv zeta in Hlen, Hrun.
  set (V := view_rows (by_ingredient ai None) d) in *.
  assert (HX : length (X_scaled sc) = length V).
  { destruct (scaler_nonempty (map precio_por_tableta V)) as (sc' & Hsc' & HX).
    - destruct V; [simpl in Hk; lia | done].
    - rewrite length_map in HX. congruence. }
  pose proof (lloyd_range k (X_scaled sc) ltac:(lia)) as Hrange.
  set (km := lloyd k (X_scaled sc)) in *.
  eexists _, h'. split; [exact Hrun|]. cbn [cluster_stats].
  split; [|split].
  - rewrite map_map. unfold cluster_stat_for. cbn [cluster_id]. apply map_id.
  - apply Forall_forall. intros c Hc. change (map ?f ?l) with (f <$> l) in Hc.
    apply list_elem_of_fmap in Hc as (i & -> & _). unfold cluster_stat_for.
    cbn [cs_count]. lia.
  - rewrite map_map. unfold cluster_stat_for. cbn [cs_count].
    unfold range. rewrite map_map.
    rewrite (map_ext _ (fun i : nat =>
               Z.of_nat (length (filter (fun z => z = Z.of_nat i) (labels_ km))))).
    2:{ intros i. by rewrite labelled_count. }
    rewrite counts_sum; [lia|].
    intros j Hj. rewrite Forall_forall in Hrange. specialize (Hrange j Hj). lia.
Qed.

(** X16: for a number of clusters between one and the size of the view, the
    data sample has one record per row of the view, in the order of the
    view and with the price and the identifier of the row, and the count of
    each cluster is the number of sample records that carry its number. *)
Theorem clustering_sample_covers_view (h : heap) (self_df : loc) (d : DataFrame)
  (ai : option string) (k : Z) :
  h !! self_df = Some d ->
  loaded d ->
  1 <= k <= Z.of_nat (length (view_rows (by_ingredient ai None) d)) ->
  exists r h',
    get_clustering self_df ai k h = (Ok r, h') /\
    map sr_id (data_sample r) = map name (view_rows (by_ingredient ai None) d) /\
    map sr_precio_por_tableta (data_sample r)
    = map precio_por_tableta (view_rows (by_ingredient ai None) d) /\
    Forall (fun c => cs_count c
                     = Z.of_nat (length (filter (fun s => sr_cluster s = cluster_id c)
                                                (data_sample r))))
           (cluster_stats r).
Proof.
  intros Hd Hld Hk.
  destruct (get_clustering_returns h self_df d ai k Hd Hld Hk)
    as (sc & h' & Hsc & Hlen & Hrun).
  cbv zeta in Hlen, Hrun.
  pose proof (view_at_most_50 d ai None) as H50.
  set (V := view_rows (by_ingredient ai None) d) in *.
  set (km := lloyd k (X_scaled sc)) in *.
  rewrite !take_all in Hrun by lia.
  eexists _, h'. split; [exact Hrun|]. cbn [cluster_stats data_sample].
  assert (Hzip : forall (B : Type) (f : sample_row -> B) (g : Row -> B),
             (forall z r, f (sample_with z r) = g r) ->
             map f (zip_with sample_with (labels_ km) V) = map g V).
  { intros B f g Hfg. revert Hlen. generalize (labels_ km). clear -Hfg.
    induction V as [|r V IH]; intros [|z ls] Hlen; try done.
    simpl. rewrite Hfg. f_equal. apply IH. simpl in Hlen. lia. }
  split; [by apply Hzip|]. split; [by apply Hzip|].
  apply Forall_forall. intros c Hc. change (map ?f ?l) with (f <$> l) in Hc.
  apply list_elem_of_fmap in Hc as (i & -> & _). unfold cluster_stat_for.
  cbn [cs_count cluster_id]. by rewrite labelled_count, sample_count.
Qed.

(** X17: in the statistics of a cluster that has a member, the least, the
    mean and the greatest price are numbers, the least at most the
    greatest; a cluster without members has not-a-number for all three. *)
Theorem clustering_price_stats (h : heap) (self_df : loc) (d : DataFrame)
  (ai : option string) (k : Z) :
  h !! self_df = Some d ->
  loaded d ->
  1 <= k <= Z.of_nat (length (view_rows (by_ingredient ai None) d)) ->
  exists r h',
    get_clustering self_df ai k h = (Ok r, h') /\
    Forall (fun c =>
      (1 <= cs_count c ->
       exists lo avg hi,
         cs_min_price c = fin lo /\ cs_avg_price c = fin avg /\ cs_max_price c = fin hi /\
         (lo <= hi)%Q) /\
      (cs_count c = 0 ->
       cs_min_price c = nan /\ cs_avg_price c = nan /\ cs_max_price c = nan))
      (cluster_stats r).
Proof.
  intros Hd Hld Hk.
  destruct (get_clustering_returns h self_df d ai k Hd Hld Hk)
    as (sc & h' & Hsc & Hlen & Hrun).
  cbv zeta in Hlen, Hrun.
  eexists _, h'. split; [exact Hrun|]. cbn [cluster_stats].
  apply Forall_forall. intros c Hc. change (map ?f ?l) with (f <$> l) in Hc.
  apply list_elem_of_fmap in Hc as (i & -> & _). unfold cluster_stat_for.
  cbn [cs_count cs_min_price cs_avg_price cs_max_price].
  match goal with |- context [map precio_por_tableta ?g] => set (grp := g) end.
  split.
  - intros Hc. assert (Hne : map precio_por_tableta grp <> []).
    { destruct grp; [simpl in Hc; lia | done]. }
    destruct (series_extremes _ Hne) as (lo & hi & Hlo & Hhi & Hall).
    rewrite Hlo, Hhi. destruct (map precio_por_tableta grp) as [|x p] eqn:Ep; [done|].
    exists lo, (Qsum (x :: p) / Qlen (x :: p))%Q, hi.
    split; [done|]. split; [done|]. split; [done|].
    destruct (Hall x) as [H1 H2]; [by left | lra].
  - intros Hc. destruct grp; [done | simpl in Hc; lia].
Qed.

(** * More on the anomaly detection *)

Lemma StronglySorted_map {A B : Type} (R : B -> B -> Prop) (f : A -> B) (l : list A) :
  StronglySorted (fun x y => R (f x) (f y)) l -> StronglySorted R (map f l).
Proof.
  induction 1 as [|x l Hl IH Hx]; simpl; constructor; [done|].
  apply Forall_forall. intros y Hy. change (map ?f ?l) with (f <$> l) in Hy.
  apply list_elem_of_fmap in Hy as (z & -> & Hz). rewrite Forall_forall in Hx. by apply Hx.
Qed.

(** The anomaly records of [get_anomalies] on a loaded, non-empty view and
    a valid contamination: the rows predicted [-1], by descending price. *)
Lemma anomaly_data_closed (v : DataFrame) (c : Q) :
  loaded v -> rows v <> [] -> (0 < c <= 1 # 2)%Q ->
  exists sc r,
    StandardScaler_fit_transform (map precio_por_tableta (rows v)) = Ok sc /\
    anomalies_of c v = Ok r /\
    let pred := isolation c (X_scaled sc) in
    let flagged :=
      filter (fun r => value_eqb (getitem r "anomaly") (VNum 1) = true)
             (zip_with relabel pred (rows v)) in
    map precio_por_tableta flagged = prices_predicted (-1) pred v /\
    anomaly_data r
    = map anomaly_row_of
        (rows (sort_values "precio_por_tableta" false
                 (mkDF (base_columns ++ ["anomaly"])%list flagged))) /\
    anomaly_avg_price (stats r)
    = (if (0 <? length (prices_predicted (-1) pred v))%nat
       then series_mean (prices_predicted (-1) pred v) else fin 0) /\
    normal_avg_price (stats r)
    = (if (0 <? length (prices_predicted 1 pred v))%nat
       then series_mean (prices_predicted 1 pred v) else fin 0).
Proof.
  intros Hv Hne [Hc0 Hc1].
  assert (HX : map precio_por_tableta (rows v) <> []) by (by destruct (rows v)).
  destruct (scaler_nonempty _ HX) as (sc & Hsc & Hlen). rewrite length_map in Hlen.
  destruct (isolation_labels c (X_scaled sc)) as [Hplen Hpred].
  set (pred := isolation c (X_scaled sc)) in *.
  assert (Hvalid : IsolationForest_fit_predict c (X_scaled sc) = Ok pred).
  { unfold IsolationForest_fit_predict.
    destruct (Qle_bool c 0) eqn:E0; [apply Qle_bool_iff in E0; lra|].
    apply Qle_bool_iff in Hc1. by rewrite Hc1. }
  set (v1 := with_column "anomaly" (map Some pred) v).
  set (v2 := with_column "anomaly" (map (fun r => anomaly r ≫= map_label) (rows v1)) v1).
  assert (Hcols1 : columns v1 = (base_columns ++ ["anomaly"])%list).
  { apply with_column_columns; [done|]. by apply (bool_decide_unpack _). }
  assert (Hcols2 : columns v2 = (base_columns ++ ["anomaly"])%list).
  { unfold v2. unfold with_column at 1. cbn [columns]. unfold has_column.
    rewrite Hcols1. by rewrite bool_decide_eq_true_2 by (by apply (bool_decide_unpack _)). }
  assert (Hrows2 : rows v2 = zip_with relabel pred (rows v)) by apply rows_relabel.
  assert (Hlab : labelled c v = Ok v2).
  { unfold labelled. rewrite (loaded_prices v Hv). simpl. rewrite Hsc. simpl.
    rewrite Hvalid. simpl.
    assert (Ha1 : assign "anomaly" (map Some pred) v = Ok v1).
    { unfold assign. by rewrite length_map, Hplen, Hlen, Nat.eqb_refl. }
    rewrite Ha1. simpl. unfold assign. by rewrite length_map, Nat.eqb_refl. }
  assert (Hmask : forall flag,
    getitem_mask "anomaly" (fun x => value_eqb x (VNum flag)) v2
    = Ok (mkDF (columns v2)
            (filter (fun r => value_eqb (getitem r "anomaly") (VNum flag) = true)
                    (rows v2)))).
  { intros flag. unfold getitem_mask, has_column. rewrite Hcols2.
    by rewrite bool_decide_eq_true_2 by (by apply (bool_decide_unpack _)). }
  assert (Hprices : forall rs,
    prices (mkDF (columns v2) rs) = Ok (map precio_por_tableta rs)).
  { intros rs. unfold prices, has_column. cbn [columns rows]. rewrite Hcols2.
    by rewrite bool_decide_eq_true_2 by (by apply (bool_decide_unpack _)). }
  assert (Hnormal :
    map precio_por_tableta
      (filter (fun r => value_eqb (getitem r "anomaly") (VNum 0) = true) (rows v2))
    = prices_predicted 1 pred v).
  { rewrite Hrows2. by apply (flagged_prices pred (rows v) 0 1); [left|]. }
  assert (Hflagged :
    map precio_por_tableta
      (filter (fun r => value_eqb (getitem r "anomaly") (VNum 1) = true) (rows v2))
    = prices_predicted (-1) pred v).
  { rewrite Hrows2. by apply (flagged_prices pred (rows v) 1 (-1)); [right|]. }
  exists sc. eexists. split; [done|]. split.
  { unfold anomalies_of. rewrite Hlab. cbn [mbind outcome_bind]. unfold anomaly_report.
    rewrite !Hmask. cbn [mbind outcome_bind]. rewrite !Hprices.
    cbn [mbind outcome_bind rows]. rewrite Hnormal, Hflagged. reflexivity. }
  cbn [stats anomaly_data anomaly_avg_price normal_avg_price]. cbv zeta. fold pred.
  rewrite <- Hrows2, <- Hcols2. by rewrite Hflagged.
Qed.

(** X18: on a loaded dataset, a non-empty view and a valid contamination,
    the anomaly records come by non-increasing price, and their prices
    are, up to the order, the prices of the rows of the view that the
    model predicts as outliers. *)
Theorem anomaly_records_by_price (h : heap) (self_df : loc) (d : DataFrame)
  (ai : option string) (c : Q) :
  h !! self_df = Some d ->
  loaded d ->
  view_rows (by_ingredient ai None) d <> [] ->
  (0 < c <= 1 # 2)%Q ->
  exists sc r h',
    StandardScaler_fit_transform
      (map precio_por_tableta (view_rows (by_ingredient ai None) d)) = Ok sc /\
    get_anomalies self_df ai c h = (Ok r, h') /\
    StronglySorted
      (fun a b => (ar_precio_por_tableta b <= ar_precio_por_tableta a)%Q)
      (anomaly_data r) /\
    map ar_precio_por_tableta (anomaly_data r)
    ≡ₚ prices_predicted (-1) (isolation c (X_scaled sc))
         (mkDF base_columns (view_rows (by_ingredient ai None) d)).
Proof.
  intros Hd Hld Hne Hc.
  destruct (get_anomalies_run h self_df d ai c Hd) as (h1 & _ & Hrun).
  rewrite (view_loaded d _ Hld) in Hrun. cbn [mbind outcome_bind] in Hrun.
  destruct (anomaly_data_closed (mkDF base_columns (view_rows (by_ingredient ai None) d)) c
              eq_refl Hne Hc) as (sc & r & Hsc & Hr & Hfl & Hdata & _).
  cbn [rows] in Hsc. cbv zeta in Hfl, Hdata.
  exists sc, r, h1. split; [done|]. split; [by rewrite Hrun, Hr|].
  rewrite Hdata. split.
  - apply StronglySorted_map.
    apply (sort_values_by_price false).
  - rewrite map_map.
    change (fun x => ar_precio_por_tableta (anomaly_row_of x)) with precio_por_tableta.
    rewrite <- Hfl.
    change (map precio_por_tableta ?l) with (precio_por_tableta <$> l).
    apply fmap_Permutation. apply sort_values_perm.
Qed.

(** X19: on a loaded dataset and a non-empty view, a contamination outside
    of (0, 1/2] makes the anomaly operation raise the [ValueError] of the
    parameter check of the isolation forest. *)
Theorem anomalies_invalid_contamination (h : heap) (self_df : loc) (d : DataFrame)
  (ai : option string) (c : Q) :
  h !! self_df = Some d ->
  loaded d ->
  view_rows (by_ingredient ai None) d <> [] ->
  (c <= 0 \/ 1 # 2 < c)%Q ->
  exists h',
    get_anomalies self_df ai c h
    = (Raise (ValueError "The 'contamination' parameter of IsolationForest must be a float in the range (0.0, 0.5]."), h').
Proof.
  intros Hd Hld Hne Hc.
  destruct (get_anomalies_run h self_df d ai c Hd) as (h1 & _ & Hrun).
  rewrite (view_loaded d _ Hld) in Hrun. cbn [mbind outcome_bind] in Hrun.
  exists h1. rewrite Hrun. unfold anomalies_of, labelled.
  rewrite loaded_prices by done. cbn [mbind outcome_bind rows].
  assert (HX : map precio_por_tableta (view_rows (by_ingredient ai None) d) <> []).
  { by destruct (view_rows (by_ingredient ai None) d). }
  destruct (scaler_nonempty _ HX) as (sc & -> & _). cbn [mbind outcome_bind].
  unfold IsolationForest_fit_predict.
  destruct Hc as [Hc | Hc].
  - apply Qle_bool_iff in Hc. by rewrite Hc.
  - destruct (Qle_bool c (1 # 2)) eqn:E; [apply Qle_bool_iff in E; lra|].
    by rewrite andb_false_r.
Qed.

(** * Metadata *)

Lemma series_loaded c cols (l : list Row) :
  c ∈ cols -> series c (mkDF cols l) = Ok (map (fun r => getitem r c) l).
Proof. intros Hc. unfold series, has_column. cbn [columns rows]. by rewrite bool_decide_eq_true_2. Qed.

Lemma dropna_unique_lists (c : string) (field : Row -> option string) (l : list Row) :
  (forall r, getitem r c = of_str (field r)) ->
  lists_values field l (dropna_unique (map (fun r => getitem r c) l)).
Proof.
  intros Hg. unfold dropna_unique.
  set (cells := filter (fun v => isna v = false) (map (fun r => getitem r c) l)).
  assert (Hcells : forall v, v ∈ cells <->
            exists s r, v = VStr s /\ r ∈ l /\ field r = Some s).
  { intros v. unfold cells. rewrite list_elem_of_filter.
    change (map ?f l) with (f <$> l). rewrite list_elem_of_fmap. split.
    - intros (Hn & r & -> & Hr). rewrite Hg in Hn |- *.
      destruct (field r) as [s|] eqn:E; [|done]. by exists s, r.
    - intros (s & r & -> & Hr & Hf). split; [done|]. exists r. by rewrite Hg, Hf. }
  assert (Ht : Forall textual cells).
  { apply Forall_forall. intros v Hv. apply Hcells in Hv as (s & _ & -> & _).
    right. by exists s. }
  assert (Hn : Forall (fun v => isna v = false) cells).
  { apply Forall_forall. intros v Hv. by apply Hcells in Hv as (s & _ & -> & _). }
  split; [by apply nub_NoDup|]. intros v. rewrite <- Hcells. split.
  - apply nub_elem.
  - by apply nub_complete.
Qed.

Lemma app_get_metadata_returns (h : heap) (data_service : loc) (d : DataFrame) :
  h !! data_service = Some d ->
  loaded d ->
  rows d <> [] ->
  let col c := dropna_unique (map (fun r => getitem r c) (rows d)) in
  let p := map precio_por_tableta (rows d) in
  app_get_metadata data_service h
  = (Ok (Success (mkMetadata (Z.of_nat (length (rows d)))
           (col "principio_activo") (col "fabricante") (col "concentracion")
           (col "canal") (col "unidad_de_dispensacion")
           (mkPriceRange (series_min p) (series_max p) (series_mean p))
           base_columns)), h).
Proof.
  intros Hd Hld Hne. cbv zeta. unfold app_get_metadata.
  rewrite (run_load _ _ _ _ Hd).
  assert (He : df_empty d = false).
  { unfold df_empty. rewrite Hld. by destruct (rows d). }
  rewrite He. rewrite run_lift. unfold metadata_of.
  rewrite loaded_prices by done. clear Hd He Hne.
  destruct d as [cols l]. unfold loaded in Hld. cbn [columns] in Hld. subst cols.
  rewrite !series_loaded by (by apply (bool_decide_unpack _)).
  reflexivity.
Qed.

(** X20: on a loaded dataset with rows, the metadata endpoint answers with
    the number of rows and the columns of the dataset and, for each of
    the five text columns, with the values that occur in it, each listed
    once and missing cells left out; it leaves the heap as it was. *)
Theorem metadata_lists_values (h : heap) (data_service : loc) (d : DataFrame) :
  h !! data_service = Some d ->
  loaded d ->
  rows d <> [] ->
  exists m,
    app_get_metadata data_service h = (Ok (Success m), h) /\
    total_records m = Z.of_nat (length (rows d)) /\
    md_columns m = columns d /\
    lists_values principio_activo (rows d) (md_active_ingredients m) /\
    lists_values fabricante (rows d) (md_manufacturers m) /\
    lists_values concentracion (rows d) (md_concentrations m) /\
    lists_values canal (rows d) (md_channels m) /\
    lists_values unidad_de_dispensacion (rows d) (md_dispensing_units m).
Proof.
  intros Hd Hld Hne. eexists. split; [by apply app_get_metadata_returns|].
  cbn [total_records md_columns md_active_ingredients md_manufacturers md_concentrations
       md_channels md_dispensing_units].
  split; [done|]. split; [done|].
  split; [|split; [|split; [|split]]]; by apply dropna_unique_lists.
Qed.

(** X21: on a loaded dataset with rows, the price range of the metadata
    holds numbers: the least and the greatest price of the dataset, both
    prices of rows, and a mean. *)
Theorem metadata_price_range (h : heap) (data_service : loc) (d : DataFrame) :
  h !! data_service = Some d ->
  loaded d ->
  rows d <> [] ->
  exists m lo avg hi,
    app_get_metadata data_service h = (Ok (Success m), h) /\
    pr_min (md_price_range m) = fin lo /\
    pr_avg (md_price_range m) = fin avg /\
    pr_max (md_price_range m) = fin hi /\
    (forall r, r ∈ rows d -> (lo <= precio_por_tableta r <= hi)%Q) /\
    (exists r, r ∈ rows d /\ precio_por_tableta r = lo) /\
    (exists r, r ∈ rows d /\ precio_por_tableta r = hi).
Proof.
  intros Hd Hld Hne.
  pose proof (app_get_metadata_returns h data_service d Hd Hld Hne) as Hrun.
  cbv zeta in Hrun.
  set (p := map precio_por_tableta (rows d)) in *.
  assert (Hp : p <> []) by (unfold p; by destruct (rows d)).
  destruct (series_extremes p Hp) as (lo & hi & Hlo & Hhi & Hall).
  assert (Havg : exists avg, series_mean p = fin avg).
  { destruct p; [done | by eexists]. }
  destruct Havg as (avg & Havg).
  eexists _, lo, avg, hi. split; [exact Hrun|].
  cbn [md_price_range pr_min pr_avg pr_max].
  split; [done|]. split; [done|]. split; [done|].
  assert (Hin : forall x, x ∈ p -> exists r, r ∈ rows d /\ precio_por_tableta r = x).
  { intros x Hx. unfold p in Hx. change (map ?f ?l) with (f <$> l) in Hx.
    apply list_elem_of_fmap in Hx as (r & -> & Hr). by exists r. }
  split; [|split].
  - intros r Hr. apply Hall. unfold p. change (map ?f ?l) with (f <$> l).
    apply list_elem_of_fmap. by exists r.
  - apply Hin. destruct p as [|x p']; [done|]. simpl in Hlo.
    injection Hlo as <-. apply foldl_qmin_in.
  - apply Hin. destruct p as [|x p']; [done|]. simpl in Hhi.
    injection Hhi as <-. apply foldl_qmax_in.
Qed.

(** * The summary of the server module *)

Lemma matching_by_ingredient (d : DataFrame) (ai man : option string) :
  matching (by_ingredient ai man) d
  = filter (fun r => eq_ok man (fabricante r) = true)
      (filter (fun r => eq_ok ai (principio_activo r) = true) (rows d)).
Proof.
  unfold matching. rewrite filter_and. apply list_filter_iff. intros r.
  unfold keeps, by_ingredient. cbn [active_ingredient manufacturer concentration channel
    dispensing_unit min_price max_price]. unfold eq_ok at 3 4 5. cbn [truthy_str].
  by rewrite !andb_true_r.
Qed.

Lemma server_get_summary_returns (h : heap) (df : loc) (d : DataFrame)
  (ai man : option string) :
  h !! df = Some d ->
  loaded d ->
  rows d <> [] ->
  exists h',
    server_get_summary df ai man h
    = (Ok (Success (summary_on (matching (by_ingredient ai man) d) ai man)), h').
Proof.
  intros Hd Hld Hne. unfold server_get_summary. rewrite (run_load _ _ _ _ Hd).
  assert (He : df_empty d = false).
  { unfold df_empty. rewrite Hld. by destruct (rows d). }
  rewrite He.
  assert (Hcopy : runs_to h (new_frame Ok df) h (Ok d)).
  { unfold runs_to, new_frame, mbind, M_bind, load, lift, alloc. rewrite Hd.
    exists (<[fresh (dom h) := d]> h). split.
    - apply insert_subseteq, fresh_not_in.
    - exists (fresh (dom h)). split; [done|]. split; [apply fresh_not_in|].
      apply lookup_insert_eq. }
  destruct Hcopy as (h1 & Hs1 & l1 & Hrun1 & Hn1 & Hl1).
  rewrite (run_bind_Ok _ _ _ _ _ Hrun1).
  pose proof (runs_if h (truthy_str ai)
    (getitem_mask "principio_activo" (fun v => value_eqb v (VStr (str_arg ai))))
    h1 l1 d (conj Hs1 (conj Hn1 Hl1))) as Hstep2.
  rewrite <- (frame_eta d) in Hstep2. rewrite Hld in Hstep2.
  rewrite (eq_step_rows ai principio_activo) in Hstep2
    by (done || by apply (bool_decide_unpack _)).
  destruct Hstep2 as (h2 & Hs2 & l2 & Hrun2 & Hn2 & Hl2).
  rewrite (run_bind_Ok _ _ _ _ _ Hrun2).
  pose proof (runs_if h (truthy_str man)
    (getitem_mask "fabricante" (fun v => value_eqb v (VStr (str_arg man))))
    h2 l2 _ (conj Hs2 (conj Hn2 Hl2))) as Hstep3.
  rewrite (eq_step_rows man fabricante) in Hstep3
    by (done || by apply (bool_decide_unpack _)).
  destruct Hstep3 as (h3 & Hs3 & l3 & Hrun3 & Hn3 & Hl3).
  rewrite (run_bind_Ok _ _ _ _ _ Hrun3).
  rewrite (run_load _ _ _ _ Hl3), run_lift, summary_of_loaded.
  exists h3. by rewrite matching_by_ingredient.
Qed.

(** X22: on a loaded dataset with rows, the summary of the server module
    counts every row that passes the ingredient and manufacturer criteria,
    while the summary of the application, which goes through the filter
    with its default limit, counts at most 50 of them: the two answers
    differ as soon as more than 50 rows pass. *)
Theorem server_summary_counts_every_match (h : heap) (df : loc) (d : DataFrame)
  (ai man : option string) :
  h !! df = Some d ->
  loaded d ->
  rows d <> [] ->
  exists s s' h1 h2,
    server_get_summary df ai man h = (Ok (Success s), h1) /\
    app_get_summary df ai man h = (Ok (Success s'), h2) /\
    count s = Z.of_nat (length (matching (by_ingredient ai man) d)) /\
    count s' = Z.min 50 (count s).
Proof.
  intros Hd Hld Hne.
  destruct (server_get_summary_returns h df d ai man Hd Hld Hne) as (h1 & Hserver).
  destruct (get_summary_stats_returns h df d ai man Hd Hld) as (h2 & Happ).
  eexists _, _, h1, h2. split; [exact Hserver|]. split.
  - unfold app_get_summary. rewrite (run_load _ _ _ _ Hd).
    assert (He : df_empty d = false).
    { unfold df_empty. rewrite Hld. by destruct (rows d). }
    rewrite He. by rewrite (run_bind_Ok _ _ _ _ _ Happ).
  - cbn [count summary_on]. split; [done|]. apply view_rows_length_50.
Qed.

(** * The download of the dashboard *)

(** X23: on a loaded dataset, the frame that the dashboard hands over for
    download holds at most 50 rows, whatever the number of rows that pass
    the selections and the price range: they are rows that pass, their
    prices lie in the range, and they are the cheapest ones (a passing row
    that is left out costs at least as much as every row of the file).
    The entry 'all' of a dropdown is no criterion. *)
Theorem download_data_cheapest_50 (h : heap) (data_service : loc) (d : DataFrame)
  (ai man conc ch : option string) (lo hi : Q) (rest : list Q) :
  h !! data_service = Some d ->
  loaded d ->
  exists l h' v,
    download_data data_service ai man conc ch (lo :: hi :: rest) h = (Ok l, h') /\
    h' !! l = Some v /\
    Z.of_nat (length (rows v))
    = Z.min 50 (Z.of_nat (length (matching (download_criteria ai man conc ch lo hi) d))) /\
    (forall r, r ∈ rows v ->
       r ∈ matching (download_criteria ai man conc ch lo hi) d /\
       (lo <= precio_por_tableta r <= hi)%Q) /\
    (forall r r', r ∈ matching (download_criteria ai man conc ch lo hi) d ->
       r' ∈ rows v ->
       r ∈ rows v \/ (precio_por_tableta r' <= precio_por_tableta r)%Q).
Proof.
  intros Hd Hld. set (a := download_criteria ai man conc ch lo hi).
  destruct (filter_data_returns h data_service d a Hd Hld) as (l & h' & Hrun & Hl).
  eexists l, h', _. split; [exact Hrun|]. split; [exact Hl|]. cbn [rows].
  set (S := ordered a (columns d) (matching a d)).
  assert (Hperm : S ≡ₚ matching a d) by apply ordered_perm.
  assert (Hsorted : StronglySorted
            (fun r1 r2 => (precio_por_tableta r1 <= precio_por_tableta r2)%Q) S).
  { unfold S, ordered. rewrite Hld.
    rewrite bool_decide_eq_true_2 by (by apply (bool_decide_unpack _)).
    apply (sort_values_by_price true). }
  assert (Hlim : limited a S = take 50 S) by done.
  rewrite Hlim. split; [|split].
  - rewrite length_take, (Permutation_length Hperm). lia.
  - intros r Hr. assert (Hm : r ∈ matching a d).
    { rewrite <- Hperm. by eapply subseteq_take. }
    split; [done|]. unfold matching in Hm. apply list_elem_of_filter in Hm as [Hk _].
    unfold keeps in Hk. cbn [a download_criteria min_price max_price] in Hk.
    rewrite !andb_true_iff in Hk. destruct Hk as [[_ Hlo] Hhi].
    by rewrite !Qle_bool_iff in Hlo, Hhi.
  - intros r r' Hr Hr'. rewrite <- Hperm in Hr.
    rewrite <- (take_drop 50 S) in Hr, Hsorted.
    apply elem_of_app in Hr as [Hr | Hr]; [by left | right].
    by apply (sorted_prefix_le _ _ _ Hsorted).
Qed.

End Analytics.

(** * Concrete runs *)

Lemma filter_data_view_witness :
  (forall l h', filter_data 1%positive cheap_acetaminofen (service_at three_rows) = (Ok l, h') ->
     exists v, h' !! l = Some v /\
       (forall r, r ∈ rows v -> r ∈ rows three_rows /\ satisfies cheap_acetaminofen r) /\
       (forall n, limit cheap_acetaminofen = Some n -> 0 < n ->
          Z.of_nat (length (rows v)) <= n)) /\
  (loaded three_rows ->
     exists l h', filter_data 1%positive cheap_acetaminofen (service_at three_rows) = (Ok l, h')).
Proof.
  apply (filter_data_view (service_at three_rows) 1%positive three_rows cheap_acetaminofen).
  reflexivity.
Defined.

(** C1 as stated fails: with an empty ingredient string and a limit of zero
    the view is the whole dataset; it holds a row whose ingredient is not
    the empty string, and its three rows exceed the limit. *)
Lemma filter_data_empty_string_and_zero_limit :
  exists l h' v,
    filter_data 1%positive empty_and_zero (service_at three_rows) = (Ok l, h') /\
    h' !! l = Some v /\
    ~ (forall r, r ∈ rows v -> satisfies_supplied empty_and_zero r) /\
    ~ (forall n, limit empty_and_zero = Some n -> Z.of_nat (length (rows v)) <= n).
Proof.
  eexists _, _, three_rows. split; [vm_compute; reflexivity|].
  split; [vm_compute; reflexivity|]. split.
  - intros H. assert (Hin : row1 ∈ rows three_rows) by (simpl; left).
    destruct (H row1 Hin) as (Hai & _). specialize (Hai EmptyString eq_refl).
    discriminate.
  - intros H. specialize (H 0 eq_refl). simpl in H. lia.
Qed.

Lemma dataset_never_mutated_witness :
  preserves (service_at three_rows)
    (get_clustering sqrt4 one_cluster
       1%positive None 1)
    (service_at three_rows).
Proof.
  apply (dataset_never_mutated sqrt4
           one_cluster all_inliers
           (service_at three_rows) 1%positive three_rows).
  reflexivity.
Defined.

Lemma empty_dataset_no_data_witness :
  app_get_summary sqrt4 1%positive (Some "ACETAMINOFEN") None (service_at empty_frame)
  = (Ok no_data, service_at empty_frame).
Proof.
  apply (empty_dataset_no_data sqrt4
           one_cluster all_inliers
           (service_at empty_frame) 1%positive empty_frame); reflexivity.
Defined.

(** C3 as stated fails for the methods of the service, which run on an
    empty dataset: on the frame without columns the summary raises a
    [KeyError], and on a frame with columns and no rows it returns
    statistics (a count of 0, not-a-number for the rest) and the histogram
    returns its bars; none of them answers "No data available". *)
Lemma service_methods_unguarded :
  df_empty empty_frame = true /\ df_empty no_rows = true /\
  result_of (get_summary_stats sqrt4 1%positive None None) (service_at empty_frame)
  = Raise (KeyError "precio_por_tableta") /\
  result_of (get_summary_stats sqrt4 1%positive None None) (service_at no_rows)
  = Ok (mkSummary 0 (mkPriceStats nan nan nan nan nan) None None) /\
  exists hs, result_of (get_histogram_data 1%positive None None 2) (service_at no_rows)
             = Ok hs /\ length hs = 2%nat.
Proof.
  split; [reflexivity|]. split; [reflexivity|]. split; [vm_compute; reflexivity|].
  split; [vm_compute; reflexivity|]. eexists. split; [vm_compute; reflexivity|].
  reflexivity.
Qed.

Lemma summary_breakdown_axes_witness :
  exists s h',
    get_summary_stats sqrt4 1%positive (Some "ACETAMINOFEN") None (service_at three_rows)
    = (Ok s, h').
Proof.
  apply (summary_breakdown_axes sqrt4 (service_at three_rows) 1%positive three_rows
           (Some "ACETAMINOFEN") None); reflexivity.
Defined.

(** C4 as stated fails: with an ingredient and a manufacturer both given,
    the result holds both breakdowns. *)
Lemma summary_both_breakdowns :
  exists s h',
    get_summary_stats sqrt4 1%positive (Some "ACETAMINOFEN") (Some "GSK")
      (service_at three_rows) = (Ok s, h') /\
    is_Some (manufacturers s) /\ is_Some (active_ingredients s).
Proof.
  eexists _, _. split; [vm_compute; reflexivity|]. split; eexists; reflexivity.
Qed.

Lemma histogram_rejects_nonpositive_bins_witness :
  exists h', get_histogram_data 1%positive None None 0 (service_at three_rows)
             = (Raise (ValueError "`bins` must be positive, when an integer"), h').
Proof.
  apply (histogram_rejects_nonpositive_bins (service_at three_rows) 1%positive three_rows
           None None 0); [reflexivity | reflexivity | lia].
Defined.

Lemma histogram_bars_witness :
  exists hs h' v,
    get_histogram_data 1%positive None None 2 (service_at three_rows) = (Ok hs, h') /\
    filter_view three_rows (by_ingredient None None) = Ok v /\
    0 < 2 /\
    length hs = Z.to_nat 2 /\
    Zsum (map bin_count hs) = Z.of_nat (length (rows v)).
Proof.
  eexists _, _.
  assert (Hrun : get_histogram_data 1%positive None None 2 (service_at three_rows)
                 = (Ok _, _)) by (vm_compute; reflexivity).
  destruct (histogram_bars (service_at three_rows) 1%positive three_rows None None 2 _ _
              eq_refl eq_refl Hrun) as (v & Hv & Hb & Hlen & Hsum & _).
  exists v. split; [exact Hrun|]. auto.
Defined.

(** C6 as stated fails: for a view with the single price 10 and two bins,
    the bars start at 9.5 and end at 10.5, not at the price. *)
Lemma histogram_single_price_span :
  exists hs h' b0 bl,
    get_histogram_data 1%positive None None 2 (service_at one_row) = (Ok hs, h') /\
    hs !! 0%nat = Some b0 /\ last hs = Some bl /\
    series_min (map precio_por_tableta (rows one_row)) = fin 10 /\
    series_max (map precio_por_tableta (rows one_row)) = fin 10 /\
    ~ (binStart b0 == 10)%Q /\ ~ (binEnd bl == 10)%Q.
Proof.
  eexists _, _, _, _. split; [vm_compute; reflexivity|].
  split; [reflexivity|]. split; [reflexivity|]. split; [reflexivity|].
  split; [reflexivity|]. split; intros H; vm_compute in H; discriminate.
Qed.

(** The scenario of five prices 10 to 50 in five bins: bars of width 8 with
    one price each, a fifth of the view. *)
Example histogram_five_prices :
  np_histogram [10; 20; 30; 40; 50]%Q 5
  = Ok ([1; 1; 1; 1; 1],
        [10 + 0 * ((50 - 10) / 5); 10 + 1 * ((50 - 10) / 5); 10 + 2 * ((50 - 10) / 5);
         10 + 3 * ((50 - 10) / 5); 10 + 4 * ((50 - 10) / 5); 50]%Q).
Proof. vm_compute. reflexivity. Qed.

Lemma sqrt4_nonneg (x : Q) : (0 <= sqrt4 x)%Q.
Proof.
  unfold sqrt4. apply Qle_shift_div_l; [reflexivity|].
  rewrite Qmult_0_l. replace 0%Q with (inject_Z 0) by done.
  rewrite <- Zle_Qle. apply Z.sqrt_nonneg.
Qed.

Lemma one_cluster_shape (k : Z) (X : list Q) :
  1 <= k <= Z.of_nat (length X) ->
  length (labels_ (one_cluster k X)) = length X /\
  length (cluster_centers_ (one_cluster k X)) = Z.to_nat k.
Proof.
  intros _. unfold one_cluster, range. simpl. by rewrite !length_map, length_seq.
Qed.

Lemma all_inliers_labels (c : Q) (X : list Q) :
  length (all_inliers c X) = length X /\
  Forall (fun z => z = 1 \/ z = -1) (all_inliers c X).
Proof.
  unfold all_inliers. split; [by rewrite length_map|].
  apply Forall_forall. intros z Hz. change (map ?f ?l) with (f <$> l) in Hz.
  apply list_elem_of_fmap in Hz as (x & -> & _). by left.
Qed.

Lemma flag_high_labels (c : Q) (X : list Q) :
  length (flag_high c X) = length X /\
  Forall (fun z => z = 1 \/ z = -1) (flag_high c X).
Proof.
  unfold flag_high. split; [by rewrite length_map|].
  apply Forall_forall. intros z Hz. change (map ?f ?l) with (f <$> l) in Hz.
  apply list_elem_of_fmap in Hz as (x & -> & _). destruct (Qle_bool 1 x); auto.
Qed.

Lemma boxplot_groups_witness :
  exists v bs h',
    filter_view six_rows (by_ingredient None None) = Ok v /\
    get_boxplot_data 1%positive "fabricante" None 10 (service_at six_rows)
    = (Ok (Boxes bs), h') /\
    (forall b, b ∈ bs ->
       5 <= box_count b /\
       box_count b = Z.of_nat (length (filter
         (fun r => value_eqb (getitem r "fabricante") (box_name b) = true) (rows v))) /\
       fle (q1 b) (median b) = true /\ fle (median b) (q3 b) = true) /\
    StronglySorted median_ge bs /\
    (0 <= 10 -> Z.of_nat (length bs) <= 10).
Proof.
  destruct (boxplot_groups (service_at six_rows) 1%positive six_rows "fabricante" None 10)
    as (v & bs & h' & Hv & Hrun & Hbox & Hsorted & Hcap & _).
  - reflexivity.
  - reflexivity.
  - by apply (bool_decide_unpack _).
  - exists v, bs, h'. auto.
Defined.

(** The group of five is reported, the single row of the other
    manufacturer is not; the quartiles 20 and 40 come out as the fractions
    80/4 and 160/4. *)
Example boxplot_six_rows :
  result_of (get_boxplot_data 1%positive "fabricante" None 10) (service_at six_rows)
  = Ok (Boxes [mkBox (VStr "GSK") (fin 10) (fin (80 # 4)) (fin 30) (fin (160 # 4))
                     (fin 100) 5]).
Proof. vm_compute. reflexivity. Qed.

Lemma clustering_checks_cluster_count_witness :
  exists v,
    filter_view three_rows (by_ingredient None None) = Ok v /\
    (4 < 1 \/ Z.of_nat (length (rows v)) < 4 ->
       exists h', get_clustering sqrt4 one_cluster 1%positive None 4 (service_at three_rows)
                  = (Raise (clustering_error 4 v), h')) /\
    (1 <= 4 <= Z.of_nat (length (rows v)) ->
       exists r h', get_clustering sqrt4 one_cluster 1%positive None 4 (service_at three_rows)
                    = (Ok r, h') /\
                    length (cluster_stats r) = Z.to_nat 4).
Proof.
  apply (clustering_checks_cluster_count sqrt4 one_cluster one_cluster_shape
           (service_at three_rows) 1%positive three_rows None 4); reflexivity.
Defined.

Example clustering_too_many_clusters :
  result_of (get_clustering sqrt4 one_cluster 1%positive None 4) (service_at three_rows)
  = Raise (ValueError "n_samples should be >= n_clusters.").
Proof. vm_compute. reflexivity. Qed.

Lemma anomaly_thresholds_witness :
  exists v,
    filter_view six_rows (by_ingredient None None) = Ok v /\
    (rows v <> [] -> (0 < 1 # 20 <= 1 # 2)%Q ->
     exists sc r h',
       StandardScaler_fit_transform sqrt4 (map precio_por_tableta (rows v)) = Ok sc /\
       get_anomalies sqrt4 flag_high 1%positive None (1 # 20) (service_at six_rows)
       = (Ok r, h') /\
       let normal := prices_predicted 1 (flag_high (1 # 20) (X_scaled sc)) v in
       (normal = [] ->
          price_threshold_upper (stats r) = fin 0 /\
          price_threshold_lower (stats r) = fin 0) /\
       (normal <> [] ->
          price_threshold_upper (stats r)
          = fadd (series_mean normal) (fmul (fin 2) (series_std sqrt4 normal)) /\
          price_threshold_lower (stats r)
          = fsub (series_mean normal) (fmul (fin 2) (series_std sqrt4 normal))) /\
       ((2 <= length normal)%nat ->
          fle (price_threshold_lower (stats r)) (price_threshold_upper (stats r)) = true)).
Proof.
  apply (anomaly_thresholds sqrt4 flag_high sqrt4_nonneg flag_high_labels
           (service_at six_rows) 1%positive six_rows None (1 # 20)); reflexivity.
Defined.

(** C9 as stated fails: a view of one record is one normal record, whose
    sample standard deviation is not a number; both thresholds are then
    not a number, and the lower one is not at most the upper one. *)
Lemma anomaly_thresholds_single_normal :
  exists r h',
    get_anomalies sqrt4 all_inliers 1%positive None (1 # 20) (service_at one_row)
    = (Ok r, h') /\
    normal_count (stats r) = 1 /\
    price_threshold_lower (stats r) = nan /\
    price_threshold_upper (stats r) = nan /\
    fle (price_threshold_lower (stats r)) (price_threshold_upper (stats r)) = false.
Proof.
  eexists _, _. split; [vm_compute; reflexivity|]. repeat split.
Qed.

Lemma anomalies_partition_witness :
  exists v,
    filter_view six_rows (by_ingredient None None) = Ok v /\
    (rows v <> [] -> (0 < 1 # 20 <= 1 # 2)%Q ->
     exists r h',
       get_anomalies sqrt4 flag_high 1%positive None (1 # 20) (service_at six_rows)
       = (Ok r, h') /\
       normal_count (stats r) + anomaly_count (stats r) = Z.of_nat (length (rows v)) /\
       Z.of_nat (length (anomaly_data r)) = anomaly_count (stats r) /\
       forall a, a ∈ anomaly_data r -> is_anomaly a = true) /\
    (rows v = [] ->
     exists e h',
       get_anomalies sqrt4 flag_high 1%positive None (1 # 20) (service_at six_rows)
       = (Raise e, h')).
Proof.
  apply (anomalies_partition sqrt4 flag_high flag_high_labels
           (service_at six_rows) 1%positive six_rows None (1 # 20)); reflexivity.
Defined.

(** On the six rows the price 100 is flagged and the other five are normal. *)
Example anomalies_six_rows :
  exists r h',
    get_anomalies sqrt4 flag_high 1%positive None (1 # 20) (service_at six_rows)
    = (Ok r, h') /\
    normal_count (stats r) = 5 /\ anomaly_count (stats r) = 1 /\
    map ar_precio_por_tableta (anomaly_data r) = [100%Q] /\
    map is_anomaly (anomaly_data r) = [true].
Proof. eexists _, _. split; [vm_compute; reflexivity|]. repeat split. Qed.

(** Further runs of the model. *)

(** Any order other than "asc", in any case, sorts downwards. *)
Example filter_sorts_descending :
  (v ← filter_view three_rows
         (mkCriteria None None None None None None None "precio_por_tableta" "Desc" (Some 50));
   Ok (map precio_por_tableta (rows v)))
  = Ok [30; 20; 10]%Q.
Proof. reflexivity. Qed.

(** A negative limit drops rows from the end. *)
Example filter_negative_limit :
  (v ← filter_view three_rows
         (mkCriteria None None None None None None None "precio_por_tableta" "asc" (Some (-1)));
   Ok (map precio_por_tableta (rows v)))
  = Ok [10; 20]%Q.
Proof. reflexivity. Qed.

(** A criterion on a frame without columns is a [KeyError]; so is the price
    column of the summary.  The endpoints never get there: they answer
    "No data available" first. *)
Example filter_on_frame_without_columns :
  result_of (filter_data 1%positive
               (mkCriteria (Some "ACETAMINOFEN") None None None None None None
                           "precio_por_tableta" "asc" (Some 50)))
            (service_at empty_frame)
  = Raise (KeyError "principio_activo").
Proof. vm_compute. reflexivity. Qed.

Example summary_on_frame_without_columns :
  result_of (get_summary_stats sqrt4 1%positive None None) (service_at empty_frame)
  = Raise (KeyError "precio_por_tableta").
Proof. vm_compute. reflexivity. Qed.

(** A grouping column that the frame does not have is reported in the
    result, not raised, and becomes status 400 at the endpoint. *)
Example boxplot_unknown_column :
  result_of (app_get_boxplot 1%positive "precio" None 10) (service_at three_rows)
  = Ok (Error 400 "Column precio not found").
Proof. vm_compute. reflexivity. Qed.

(** ** Runs of the further properties *)

Lemma one_cluster_range (k : Z) (X : list Q) :
  1 <= k <= Z.of_nat (length X) ->
  Forall (fun z => 0 <= z < k) (labels_ (one_cluster k X)).
Proof.
  intros Hk. unfold one_cluster. cbn [labels_]. apply Forall_forall. intros z Hz.
  change (map ?f ?l) with (f <$> l) in Hz.
  apply list_elem_of_fmap in Hz as (x & -> & _). lia.
Qed.

Lemma filter_data_exact_witness :
  exists l h' v,
    filter_data 1%positive acetaminofen_unlimited (service_at three_rows) = (Ok l, h') /\
    h' !! l = Some v /\
    rows v ≡ₚ matching acetaminofen_unlimited three_rows.
Proof.
  apply (filter_data_exact (service_at three_rows) 1%positive three_rows
           acetaminofen_unlimited); reflexivity.
Defined.

Lemma filter_data_unknown_sort_key_witness :
  exists l h' v,
    filter_data 1%positive by_unknown_key (service_at three_rows) = (Ok l, h') /\
    h' !! l = Some v /\
    rows v = limited by_unknown_key (matching by_unknown_key three_rows).
Proof.
  apply (filter_data_unknown_sort_key (service_at three_rows) 1%positive three_rows
           by_unknown_key); [reflexivity | reflexivity |].
  by apply (bool_decide_unpack _).
Defined.

Lemma filter_data_size_witness :
  exists l h' v,
    filter_data 1%positive cheap_acetaminofen (service_at three_rows) = (Ok l, h') /\
    h' !! l = Some v /\
    (0 < 10 -> Z.of_nat (length (rows v))
               = Z.min 10 (Z.of_nat (length (matching cheap_acetaminofen three_rows)))) /\
    (10 < 0 -> Z.of_nat (length (rows v))
               = Z.max 0 (Z.of_nat (length (matching cheap_acetaminofen three_rows)) + 10)).
Proof.
  apply (filter_data_size (service_at three_rows) 1%positive three_rows
           cheap_acetaminofen 10); reflexivity.
Defined.

Lemma filter_data_sorted_by_price_witness :
  exists l h' v,
    filter_data 1%positive cheap_acetaminofen (service_at three_rows) = (Ok l, h') /\
    h' !! l = Some v /\
    StronglySorted (fun r1 r2 => (precio_por_tableta r2 <= precio_por_tableta r1)%Q)
      (rows v).
Proof.
  apply (filter_data_sorted_by_price (service_at three_rows) 1%positive three_rows
           cheap_acetaminofen); reflexivity.
Defined.

Lemma filter_data_without_columns_witness :
  exists l h',
    filter_data 1%positive defaults (service_at empty_frame) = (Ok l, h') /\
    h' !! l = Some (mkDF [] (limited defaults (rows empty_frame))).
Proof.
  apply (filter_data_without_columns (service_at empty_frame) 1%positive empty_frame
           defaults); reflexivity.
Defined.

Lemma summary_count_capped_witness :
  exists s h',
    get_summary_stats sqrt4 1%positive (Some "ACETAMINOFEN") None (service_at three_rows)
    = (Ok s, h') /\
    count s = Z.min 50 (Z.of_nat (length
                (matching (by_ingredient (Some "ACETAMINOFEN") None) three_rows))).
Proof.
  apply (summary_count_capped sqrt4 (service_at three_rows) 1%positive three_rows
           (Some "ACETAMINOFEN") None); reflexivity.
Defined.

Lemma summary_stats_ordered_witness :
  exists s h' lo mean med hi,
    get_summary_stats sqrt4 1%positive (Some "ACETAMINOFEN") None (service_at three_rows)
    = (Ok s, h') /\
    ps_min (price_stats_of s) = fin lo /\
    ps_mean (price_stats_of s) = fin mean /\
    ps_median (price_stats_of s) = fin med /\
    ps_max (price_stats_of s) = fin hi /\
    (lo <= med <= hi)%Q.
Proof.
  destruct (summary_stats_ordered sqrt4 (service_at three_rows) 1%positive three_rows
              (Some "ACETAMINOFEN") None)
    as (s & h' & lo & mean & med & hi & Hrun & Hlo & Hmean & Hmed & Hhi & Hb & _);
    [reflexivity | reflexivity | discriminate |].
  exists s, h', lo, mean, med, hi.
  exact (conj Hrun (conj Hlo (conj Hmean (conj Hmed (conj Hhi Hb))))).
Defined.

Lemma summary_of_nothing_witness :
  exists h',
    get_summary_stats sqrt4 1%positive (Some "ASPIRINA") None (service_at three_rows)
    = (Ok (mkSummary 0 (mkPriceStats nan nan nan nan nan) (Some []) None), h').
Proof.
  apply (summary_of_nothing sqrt4 (service_at three_rows) 1%positive three_rows
           (Some "ASPIRINA") None); reflexivity.
Defined.

Lemma summary_breakdown_partition_witness :
  exists v s h',
    filter_view three_rows (by_ingredient (Some "ACETAMINOFEN") None) = Ok v /\
    get_summary_stats sqrt4 1%positive (Some "ACETAMINOFEN") None (service_at three_rows)
    = (Ok s, h') /\
    (forall gs, manufacturers s = Some gs -> breakdown_of fabricante (rows v) gs) /\
    (forall gs, active_ingredients s = Some gs ->
       breakdown_of principio_activo (rows v) gs).
Proof.
  apply (summary_breakdown_partition sqrt4 (service_at three_rows) 1%positive three_rows
           (Some "ACETAMINOFEN") None); reflexivity.
Defined.

Lemma histogram_of_nothing_witness :
  exists hs h' b0 bl,
    get_histogram_data 1%positive (Some "ASPIRINA") None 5 (service_at three_rows)
    = (Ok hs, h') /\
    length hs = Z.to_nat 5 /\
    (forall b, b ∈ hs -> bin_count b = 0 /\ normalizedCount b = 0%Q) /\
    hs !! 0%nat = Some b0 /\ last hs = Some bl /\
    (binStart b0 == 0)%Q /\ binEnd bl = 1%Q.
Proof.
  apply (histogram_of_nothing (service_at three_rows) 1%positive three_rows
           (Some "ASPIRINA") None 5); reflexivity.
Defined.


Lemma boxplot_unknown_group_column_witness :
  (exists h', get_boxplot_data 1%positive "precio" None 10 (service_at three_rows)
              = (Ok (ErrorDict "Column precio not found"), h')) /\
  (rows three_rows <> [] ->
   exists h', app_get_boxplot 1%positive "precio" None 10 (service_at three_rows)
              = (Ok (Error 400 "Column precio not found"), h')).
Proof.
  apply (boxplot_unknown_group_column (service_at three_rows) 1%positive three_rows
           "precio" None 10); [reflexivity | reflexivity |].
  by apply (bool_decide_unpack _).
Defined.

Lemma boxplot_whiskers_witness :
  exists bs h',
    get_boxplot_data 1%positive "fabricante" None 10 (service_at six_rows)
    = (Ok (Boxes bs), h') /\
    forall b, b ∈ bs ->
      fle (box_min b) (q1 b) = true /\ fle (q3 b) (box_max b) = true.
Proof.
  apply (boxplot_whiskers (service_at six_rows) 1%positive six_rows "fabricante" None 10);
    [reflexivity | reflexivity |].
  by apply (bool_decide_unpack _).
Defined.

Lemma clustering_counts_partition_witness :
  exists r h',
    get_clustering sqrt4 one_cluster 1%positive None 2 (service_at three_rows)
    = (Ok r, h') /\
    map cluster_id (cluster_stats r) = range 2 /\
    Forall (fun c => 0 <= cs_count c) (cluster_stats r) /\
    Zsum (map cs_count (cluster_stats r))
    = Z.of_nat (length (view_rows (by_ingredient None None) three_rows)).
Proof.
  apply (clustering_counts_partition sqrt4 one_cluster one_cluster_shape one_cluster_range
           (service_at three_rows) 1%positive three_rows None 2);
    [reflexivity | reflexivity | split; discriminate].
Defined.

Lemma clustering_sample_covers_view_witness :
  exists r h',
    get_clustering sqrt4 one_cluster 1%positive None 2 (service_at three_rows)
    = (Ok r, h') /\
    map sr_id (data_sample r) = map name (view_rows (by_ingredient None None) three_rows) /\
    map sr_precio_por_tableta (data_sample r)
    = map precio_por_tableta (view_rows (by_ingredient None None) three_rows) /\
    Forall (fun c => cs_count c
                     = Z.of_nat (length (filter (fun s => sr_cluster s = cluster_id c)
                                                (data_sample r))))
           (cluster_stats r).
Proof.
  apply (clustering_sample_covers_view sqrt4 one_cluster one_cluster_shape
           (service_at three_rows) 1%positive three_rows None 2);
    [reflexivity | reflexivity | split; discriminate].
Defined.

Lemma clustering_price_stats_witness :
  exists r h',
    get_clustering sqrt4 one_cluster 1%positive None 2 (service_at three_rows)
    = (Ok r, h') /\
    Forall (fun c =>
      (1 <= cs_count c ->
       exists lo avg hi,
         cs_min_price c = fin lo /\ cs_avg_price c = fin avg /\ cs_max_price c = fin hi /\
         (lo <= hi)%Q) /\
      (cs_count c = 0 ->
       cs_min_price c = nan /\ cs_avg_price c = nan /\ cs_max_price c = nan))
      (cluster_stats r).
Proof.
  apply (clustering_price_stats sqrt4 one_cluster one_cluster_shape
           (service_at three_rows) 1%positive three_rows None 2);
    [reflexivity | reflexivity | split; discriminate].
Defined.

Lemma anomaly_records_by_price_witness :
  exists sc r h',
    StandardScaler_fit_transform sqrt4
      (map precio_por_tableta (view_rows (by_ingredient None None) six_rows)) = Ok sc /\
    get_anomalies sqrt4 flag_high 1%positive None (1 # 20) (service_at six_rows)
    = (Ok r, h') /\
    StronglySorted
      (fun a b => (ar_precio_por_tableta b <= ar_precio_por_tableta a)%Q)
      (anomaly_data r) /\
    map ar_precio_por_tableta (anomaly_data r)
    ≡ₚ prices_predicted (-1) (flag_high (1 # 20) (X_scaled sc))
         (mkDF base_columns (view_rows (by_ingredient None None) six_rows)).
Proof.
  apply (anomaly_records_by_price sqrt4 flag_high flag_high_labels
           (service_at six_rows) 1%positive six_rows None (1 # 20));
    [reflexivity | reflexivity | discriminate | split; [reflexivity | discriminate]].
Defined.

Lemma anomalies_invalid_contamination_witness :
  exists h',
    get_anomalies sqrt4 flag_high 1%positive None 1 (service_at six_rows)
    = (Raise (ValueError "The 'contamination' parameter of IsolationForest must be a float in the range (0.0, 0.5]."), h').
Proof.
  apply (anomalies_invalid_contamination sqrt4 flag_high
           (service_at six_rows) 1%positive six_rows None 1);
    [reflexivity | reflexivity | discriminate | right; reflexivity].
Defined.

Lemma metadata_lists_values_witness :
  exists m,
    app_get_metadata 1%positive (service_at three_rows) = (Ok (Success m), service_at three_rows) /\
    total_records m = Z.of_nat (length (rows three_rows)) /\
    md_columns m = columns three_rows /\
    lists_values principio_activo (rows three_rows) (md_active_ingredients m) /\
    lists_values fabricante (rows three_rows) (md_manufacturers m) /\
    lists_values concentracion (rows three_rows) (md_concentrations m) /\
    lists_values canal (rows three_rows) (md_channels m) /\
    lists_values unidad_de_dispensacion (rows three_rows) (md_dispensing_units m).
Proof.
  apply (metadata_lists_values (service_at three_rows) 1%positive three_rows);
    [reflexivity | reflexivity | discriminate].
Defined.

Lemma metadata_price_range_witness :
  exists m lo avg hi,
    app_get_metadata 1%positive (service_at three_rows) = (Ok (Success m), service_at three_rows) /\
    pr_min (md_price_range m) = fin lo /\
    pr_avg (md_price_range m) = fin avg /\
    pr_max (md_price_range m) = fin hi /\
    (forall r, r ∈ rows three_rows -> (lo <= precio_por_tableta r <= hi)%Q) /\
    (exists r, r ∈ rows three_rows /\ precio_por_tableta r = lo) /\
    (exists r, r ∈ rows three_rows /\ precio_por_tableta r = hi).
Proof.
  apply (metadata_price_range (service_at three_rows) 1%positive three_rows);
    [reflexivity | reflexivity | discriminate].
Defined.

Lemma server_summary_counts_every_match_witness :
  exists s s' h1 h2,
    server_get_summary sqrt4 1%positive (Some "ACETAMINOFEN") None (service_at three_rows)
    = (Ok (Success s), h1) /\
    app_get_summary sqrt4 1%positive (Some "ACETAMINOFEN") None (service_at three_rows)
    = (Ok (Success s'), h2) /\
    count s = Z.of_nat (length
                (matching (by_ingredient (Some "ACETAMINOFEN") None) three_rows)) /\
    count s' = Z.min 50 (count s).
Proof.
  apply (server_summary_counts_every_match sqrt4 (service_at three_rows) 1%positive
           three_rows (Some "ACETAMINOFEN") None);
    [reflexivity | reflexivity | discriminate].
Defined.

Lemma download_data_cheapest_50_witness :
  exists l h' v,
    download_data 1%positive (Some "all") (Some "GSK") None None [0; 25]%Q
      (service_at three_rows) = (Ok l, h') /\
    h' !! l = Some v /\
    Z.of_nat (length (rows v))
    = Z.min 50 (Z.of_nat (length
        (matching (download_criteria (Some "all") (Some "GSK") None None 0 25)
                  three_rows))) /\
    (forall r, r ∈ rows v ->
       r ∈ matching (download_criteria (Some "all") (Some "GSK") None None 0 25) three_rows /\
       (0 <= precio_por_tableta r <= 25)%Q) /\
    (forall r r',
       r ∈ matching (download_criteria (Some "all") (Some "GSK") None None 0 25) three_rows ->
       r' ∈ rows v ->
       r ∈ rows v \/ (precio_por_tableta r' <= precio_por_tableta r)%Q).
Proof.
  apply (download_data_cheapest_50 (service_at three_rows) 1%positive three_rows
           (Some "all") (Some "GSK") None None 0 25 []); reflexivity.
Defined.

(** The server counts both rows of the ingredient; with more than 50 rows
    of one ingredient the application would stop at 50. *)
Example server_summary_three_rows :
  exists s h',
    server_get_summary sqrt4 1%positive (Some "ACETAMINOFEN") None (service_at three_rows)
    = (Ok (Success s), h') /\
    count s = 2 /\ ps_min (price_stats_of s) = fin 10 /\ ps_max (price_stats_of s) = fin 30.
Proof. eexists _, _. split; [vm_compute; reflexivity|]. repeat split. Qed.

(** The metadata of the three rows, values in the order of their first
    occurrence. *)
Example metadata_three_rows :
  exists m h',
    app_get_metadata 1%positive (service_at three_rows) = (Ok (Success m), h') /\
    total_records m = 3 /\
    md_active_ingredients m = [VStr "ACETAMINOFEN"; VStr "IBUPROFENO"] /\
    md_manufacturers m = [VStr "GSK"; VStr "PFIZER"] /\
    pr_min (md_price_range m) = fin 10 /\ pr_max (md_price_range m) = fin 30.
Proof. eexists _, _. split; [vm_compute; reflexivity|]. repeat split. Qed.

(** A range slider value with one entry only is an [IndexError]. *)
Example download_with_short_range :
  result_of (download_data 1%positive None None None None [0%Q]) (service_at three_rows)
  = Raise (IndexError "index out of bounds").
Proof. vm_compute. reflexivity. Qed.
